(** * NewsGenie: the query-routing workflow, embedded and verified

    A shallow embedding of the Python sources

      - src/config.py              (Settings.news_categories)
      - src/agents/chatbot.py      (NewsGenieAgent)
      - src/tools/news_fetcher.py  (NewsFetcher)
      - src/tools/web_search.py    (WebSearchTool)
      - src/workflows/state.py     (GraphState)
      - src/workflows/nodes.py     (the five nodes)
      - src/workflows/graph.py     (the two routers, the graph, run_workflow)

    Conventions.
      - A Python [str] is a [string]; a character is a code point below 256.
      - A raised exception is a value [Raise e]; [try ... except Exception]
        is [try_except].
      - Code that mutates the state dict or the module-level singletons runs
        in the monad [M], whose store holds the dict, the singletons and the
        log of the calls made to the outside world.
      - The outside world (language model, NewsAPI, DuckDuckGo, the clock,
        the JSON parser) is a record [World] of oracles.  Each oracle also
        receives the log of the calls made so far, so an answer may depend
        on everything that happened before.
      - Console output.  The definitions in [NewsGenieAgent], [Nodes] and
        [Graph] leave the print statements out.  [Console] has the functions
        that print with their print statements, over a console [Stdout]
        whose write may raise; the printed lines are literals of the source
        (an emoji is its UTF-8 bytes).  The two agree when the console
        takes every line. *)

From Stdlib Require Import String Ascii List ZArith Bool Arith Lia.
From Stdlib Require Import DecimalString.
From Stdlib Require Import PrimFloat.
Import ListNotations.
Local Open Scope list_scope.
Local Open Scope string_scope.

(* A decimal float literal stands for the nearest binary64, as in Python. *)
Set Warnings "-inexact-float".

(* ===================================================================== *)
(** ** Python strings *)
(* ===================================================================== *)

Module PyStr.

Definition nl : string := String (ascii_of_nat 10) EmptyString.
Definition dquote : string := String (ascii_of_nat 34) EmptyString.

(** [str.isspace] on one character (code points below 256). *)
Definition is_space (c : ascii) : bool :=
  let n := nat_of_ascii c in
  (((9 <=? n) && (n <=? 13)) || ((28 <=? n) && (n <=? 32))
   || (n =? 133) || (n =? 160))%nat.

(** [str.lower] on one character: A-Z, and the Latin-1 capitals
    0xC0-0xDE without the multiplication sign 0xD7. *)
Definition is_upper (c : ascii) : bool :=
  let n := nat_of_ascii c in
  (((65 <=? n) && (n <=? 90))
   || ((192 <=? n) && (n <=? 222) && negb (n =? 215)))%nat.

Definition lower_char (c : ascii) : ascii :=
  if is_upper c then ascii_of_nat (nat_of_ascii c + 32) else c.

(** [s.lower()] *)
Fixpoint lower (s : string) : string :=
  match s with
  | EmptyString => EmptyString
  | String c r => String (lower_char c) (lower r)
  end.

(** [s.startswith(p)] *)
Fixpoint startswith (s p : string) {struct p} : bool :=
  match p, s with
  | EmptyString, _ => true
  | String _ _, EmptyString => false
  | String a p', String b s' => Ascii.eqb a b && startswith s' p'
  end.

(** [sub in s] *)
Fixpoint contains (sub s : string) : bool :=
  startswith s sub ||
  match s with
  | EmptyString => false
  | String _ r => contains sub r
  end.

(** [s[n:]] *)
Fixpoint drop (n : nat) (s : string) : string :=
  match n, s with
  | O, _ => s
  | S _, EmptyString => EmptyString
  | S n', String _ r => drop n' r
  end.

(** [s[:n]] for [n >= 0] *)
Fixpoint take (n : nat) (s : string) : string :=
  match n, s with
  | O, _ => EmptyString
  | S _, EmptyString => EmptyString
  | S n', String c r => String c (take n' r)
  end.

(** [s[:-n]] *)
Definition drop_last (n : nat) (s : string) : string :=
  take (String.length s - n) s.

(** [s.endswith(p)] *)
Definition endswith (s p : string) : bool :=
  (String.length p <=? String.length s)%nat &&
  String.eqb (drop (String.length s - String.length p) s) p.

Fixpoint lstrip (s : string) : string :=
  match s with
  | EmptyString => EmptyString
  | String c r => if is_space c then lstrip r else s
  end.

Fixpoint rstrip (s : string) : string :=
  match s with
  | EmptyString => EmptyString
  | String c r =>
      match rstrip r with
      | EmptyString => if is_space c then EmptyString else String c EmptyString
      | r' => String c r'
      end
  end.

(** [s.strip()] *)
Definition strip (s : string) : string := rstrip (lstrip s).

(** [sep.join(parts)] *)
Definition join (sep : string) (parts : list string) : string :=
  String.concat sep parts.

(** [s.split(sep)] for a one-character separator: the pieces between the
    occurrences of [sep], never an empty list. *)
Fixpoint split (sep : ascii) (s : string) : list string :=
  match s with
  | EmptyString => [EmptyString]
  | String c r =>
      if Ascii.eqb c sep then EmptyString :: split sep r
      else match split sep r with
           | [] => [String c EmptyString]
           | p :: ps => String c p :: ps
           end
  end.

(** [str(n)] and [f"{n}"] for a non-negative integer. *)
Definition of_nat (n : nat) : string :=
  NilEmpty.string_of_uint (Nat.to_uint n).

(** [x in l] for a list of strings. *)
Definition mem (x : string) (l : list string) : bool :=
  existsb (String.eqb x) l.

(** Truth value of a string: non-empty. *)
Definition truthy (s : string) : bool :=
  match s with EmptyString => false | _ => true end.

End PyStr.

(* ===================================================================== *)
(** ** Exceptions and dynamically typed values *)
(* ===================================================================== *)

(** An exception: its class name and [str(e)]. *)
Record exn : Type := mk_exn { exn_type : string; exn_str : string }.

Inductive result (A : Type) : Type :=
| Ok (a : A)
| Raise (e : exn).
Arguments Ok {A} a.
Arguments Raise {A} e.

(** What [json.loads] can return. A dict is an association list, looked up
    from the left. *)
#[warnings="-register-all"] Inductive pyval : Type :=
| PNone
| PBool (b : bool)
| PInt (z : Z)
| PFloat (f : float)
| PStr (s : string)
| PList (l : list pyval)
| PDict (d : list (string * pyval)).

Module Py.

Definition type_name (v : pyval) : string :=
  match v with
  | PNone => "NoneType"
  | PBool _ => "bool"
  | PInt _ => "int"
  | PFloat _ => "float"
  | PStr _ => "str"
  | PList _ => "list"
  | PDict _ => "dict"
  end.

Fixpoint lookup (k : string) (d : list (string * pyval)) : option pyval :=
  match d with
  | [] => None
  | (k', v) :: r => if String.eqb k k' then Some v else lookup k r
  end.

Definition AttributeError (v : pyval) (attr : string) : exn :=
  mk_exn "AttributeError"
    ("'" ++ type_name v ++ "' object has no attribute '" ++ attr ++ "'").

(** [v.get(k, default)]: only a dict has [get]. *)
Definition get (v : pyval) (k : string) (default : pyval) : result pyval :=
  match v with
  | PDict d => Ok (match lookup k d with Some x => x | None => default end)
  | _ => Raise (AttributeError v "get")
  end.

(** [v[k]] for a string key [k]. *)
Definition getitem (v : pyval) (k : string) : result pyval :=
  match v with
  | PDict d =>
      match lookup k d with
      | Some x => Ok x
      | None => Raise (mk_exn "KeyError" ("'" ++ k ++ "'"))
      end
  | PList _ =>
      Raise (mk_exn "TypeError"
               "list indices must be integers or slices, not str")
  | PStr _ =>
      Raise (mk_exn "TypeError" "string indices must be integers, not 'str'")
  | _ =>
      Raise (mk_exn "TypeError"
               ("'" ++ type_name v ++ "' object is not subscriptable"))
  end.

(** Truth value, as tested by [if], [and], [or], [not]. *)
Definition truthy (v : pyval) : bool :=
  match v with
  | PNone => false
  | PBool b => b
  | PInt z => negb (z =? 0)%Z
  | PFloat f => negb (PrimFloat.eqb f 0%float)
  | PStr s => PyStr.truthy s
  | PList l => match l with [] => false | _ => true end
  | PDict d => match d with [] => false | _ => true end
  end.

(** [v > 0.6].  A float is compared as IEEE binary64 (a NaN is never
    greater); an int is compared exactly, so it is greater from 1 on; a
    bool counts as 0 or 1; everything else cannot be ordered with a
    float. *)
Definition gt_0_6 (v : pyval) : result bool :=
  match v with
  | PFloat f => Ok (PrimFloat.ltb 0.6%float f)
  | PInt z => Ok (1 <=? z)%Z
  | PBool b => Ok b
  | _ =>
      Raise (mk_exn "TypeError"
               ("'>' not supported between instances of '" ++ type_name v
                ++ "' and 'float'"))
  end.

(** Whether [f"{v:.2f}"] can be built.  The text itself is only printed,
    so only the failure matters: the format code [f] is refused for
    anything but a number, and an int beyond the range of a float
    overflows. *)
Definition format_2f (v : pyval) : result unit :=
  match v with
  | PFloat _ | PBool _ => Ok tt
  | PInt z =>
      if (Z.abs z <? 2 ^ 1024 - 2 ^ 970)%Z then Ok tt
      else Raise (mk_exn "OverflowError" "int too large to convert to float")
  | PStr _ =>
      Raise (mk_exn "ValueError"
               "Unknown format code 'f' for object of type 'str'")
  | _ =>
      Raise (mk_exn "TypeError"
               ("unsupported format string passed to " ++ type_name v
                ++ ".__format__"))
  end.

End Py.

(** A text field of a retrieved item: a [str], or [None] where the service
    sent null. *)
Inductive pytext : Type :=
| TNone
| TStr (s : string).

(** [str(t)], as an f-string formats it. *)
Definition text_str (t : pytext) : string :=
  match t with
  | TNone => "None"
  | TStr s => s
  end.

(* ===================================================================== *)
(** ** The data the workflow handles *)
(* ===================================================================== *)

(** One entry of [chat_history]: a dict with the keys role and content. *)
Record Turn : Type := mk_turn { role : string; content : string }.

(** A LangChain message, as [format_chat_history] builds them. *)
Inductive Message : Type :=
| HumanMessage (content : string)
| AIMessage (content : string).

(** *** NewsAPI *)

(** The source object of a raw article: null, or an object whose name key
    may be absent. *)
Inductive RawSource : Type :=
| SourceNull
| SourceObj (name : option pytext).

(** A raw article of a NewsAPI response; [None] is an absent key. *)
Record RawArticle : Type := mk_raw_article {
  raw_title : option pytext;
  raw_description : option pytext;
  raw_url : option pytext;
  raw_source : option RawSource;
  raw_author : option pytext;
  raw_publishedAt : option pytext;
  raw_content : option pytext;
  raw_urlToImage : option pytext
}.

(** A raw NewsAPI response; [None] is an absent key. *)
Record RawNewsResponse : Type := mk_raw_news {
  raw_status : option string;
  raw_totalResults : option Z;
  raw_articles : option (list RawArticle)
}.

(** An article as [NewsFetcher._format_response] builds it. *)
Record Article : Type := mk_article {
  art_title : pytext;
  art_description : pytext;
  art_url : pytext;
  art_source : pytext;
  art_author : pytext;
  art_published_at : pytext;
  art_content : pytext;
  art_image_url : pytext
}.

(** The dict every [NewsFetcher] method returns.  The error dicts have no
    total_results key. *)
Record NewsResult : Type := mk_news_result {
  news_status : string;
  news_total_results : option Z;
  news_articles : list Article;
  news_message : string
}.

(** *** DuckDuckGo *)

(** A raw hit of [DDGS.text]; [None] is an absent key. *)
Record RawHit : Type := mk_raw_hit {
  hit_title : option pytext;
  hit_body : option pytext;
  hit_href : option pytext
}.

(** A hit as [WebSearchTool._format_response] builds it. *)
Record WebItem : Type := mk_web_item {
  web_title : pytext;
  web_snippet : pytext;
  web_url : pytext;
  web_source : pytext
}.

(** The dict [WebSearchTool.search] returns.  The error dicts have neither
    a query nor a total_results key. *)
Record WebResult : Type := mk_web_result {
  ws_status : string;
  ws_query : option string;
  ws_total_results : option nat;
  ws_results : list WebItem;
  ws_message : string
}.

(** *** GraphState (src/workflows/state.py) *)

Record GraphState : Type := mk_state {
  user_input : string;
  chat_history : list Turn;
  query_classification : pyval;              (* None until classified *)
  news_results : option NewsResult;
  web_search_results : option WebResult;
  final_response : string;
  error : option string;
  metadata : list (string * pyval)
}.

Definition set_query_classification (v : pyval) (st : GraphState) :=
  mk_state (user_input st) (chat_history st) v (news_results st)
    (web_search_results st) (final_response st) (error st) (metadata st).

Definition set_news_results (r : NewsResult) (st : GraphState) :=
  mk_state (user_input st) (chat_history st) (query_classification st)
    (Some r) (web_search_results st) (final_response st) (error st)
    (metadata st).

Definition set_web_search_results (r : WebResult) (st : GraphState) :=
  mk_state (user_input st) (chat_history st) (query_classification st)
    (news_results st) (Some r) (final_response st) (error st) (metadata st).

Definition set_final_response (s : string) (st : GraphState) :=
  mk_state (user_input st) (chat_history st) (query_classification st)
    (news_results st) (web_search_results st) s (error st) (metadata st).

Definition set_error (s : string) (st : GraphState) :=
  mk_state (user_input st) (chat_history st) (query_classification st)
    (news_results st) (web_search_results st) (final_response st) (Some s)
    (metadata st).

(** [d[k] = v] on an association list: replace in place, else append. *)
Fixpoint assoc_set (k : string) (v : pyval) (d : list (string * pyval)) :=
  match d with
  | [] => [(k, v)]
  | (k', v') :: r =>
      if String.eqb k k' then (k', v) :: r else (k', v') :: assoc_set k v r
  end.

Definition set_metadata_item (k : string) (v : pyval) (st : GraphState) :=
  mk_state (user_input st) (chat_history st) (query_classification st)
    (news_results st) (web_search_results st) (final_response st) (error st)
    (assoc_set k v (metadata st)).

Definition set_chat_history (h : list Turn) (st : GraphState) :=
  mk_state (user_input st) h (query_classification st)
    (news_results st) (web_search_results st) (final_response st) (error st)
    (metadata st).

(* ===================================================================== *)
(** ** The outside world and the monad *)
(* ===================================================================== *)

(** A call that leaves the program. *)
Inductive Call : Type :=
| CallChatOpenAI                           (* ChatOpenAI(...), in NewsGenieAgent() *)
| CallLlmInvoke (prompt : string)          (* self.llm.invoke([HumanMessage]) *)
| CallChainInvoke (input : string) (history : list Message)
| CallNewsApiClient                        (* NewsApiClient(...), in NewsFetcher() *)
| CallNow                                  (* datetime.now() *)
| CallTopHeadlines (category : option string) (country : string)
    (page_size : Z)
| CallEverything (q : string) (from_day to_day : Z) (language sort_by : string)
    (page_size : Z)
| CallDDGS                                 (* DDGS(), in WebSearchTool() *)
| CallDdgsText (keywords region : string) (max_results : Z).

Definition Log := list Call.

(** The collaborators and the environment.  Each oracle sees the log of the
    calls made before it; a constructor answers [Ok tt] or raises.  A date
    is a day number. *)
Record World : Type := mk_world {
  news_api_key : string;                   (* settings.news_api_key *)
  new_ChatOpenAI : Log -> result unit;
  llm_invoke : Log -> string -> result string;
  chain_invoke : Log -> string -> list Message -> result string;
  json_loads : string -> result pyval;
  new_NewsApiClient : Log -> result unit;
  client_get_top_headlines :
    Log -> option string -> string -> Z -> result RawNewsResponse;
  client_get_everything :
    Log -> string -> Z -> Z -> string -> string -> Z -> result RawNewsResponse;
  datetime_now : Log -> Z;
  new_DDGS : Log -> result unit;
  ddgs_text : Log -> string -> string -> Z -> result (list RawHit)
}.

(** The store: the three module-level singletons of nodes.py ([true] once
    created), the log, and the state dict of the running node. *)
Record Store : Type := mk_store {
  chatbot_agent : bool;
  news_fetcher : bool;
  web_search_tool : bool;
  calls : Log;
  state : GraphState
}.

(** The store with another state dict. *)
Definition with_state (st : GraphState) (s : Store) : Store :=
  mk_store (chatbot_agent s) (news_fetcher s) (web_search_tool s) (calls s)
    st.

Definition M (A : Type) : Type := Store -> result A * Store.

Definition ret {A} (a : A) : M A := fun s => (Ok a, s).

Definition raise {A} (e : exn) : M A := fun s => (Raise e, s).

Definition bind {A B} (m : M A) (k : A -> M B) : M B :=
  fun s =>
    match m s with
    | (Ok a, s') => k a s'
    | (Raise e, s') => (Raise e, s')
    end.

(** [try: body except Exception as e: handler e].  What the body did to the
    store before it raised stays done. *)
Definition try_except {A} (body : M A) (handler : exn -> M A) : M A :=
  fun s =>
    match body s with
    | (Ok a, s') => (Ok a, s')
    | (Raise e, s') => handler e s'
    end.

Definition lift {A} (r : result A) : M A := fun s => (r, s).

Declare Scope py_scope.
Delimit Scope py_scope with py.
Notation "x <- m ;; k" := (bind m (fun x => k))
  (at level 61, m at next level, right associativity) : py_scope.
Notation "m ;;; k" := (bind m (fun _ => k))
  (at level 61, right associativity) : py_scope.
Local Open Scope py_scope.

(** Reading and writing the state dict. *)
Definition get_state : M GraphState := fun s => (Ok (state s), s).

Definition modify_state (f : GraphState -> GraphState) : M unit :=
  fun s => (Ok tt, with_state (f (state s)) s).

(** Appending a call to the log. *)
Definition log_call (c : Call) (s : Store) : Store :=
  mk_store (chatbot_agent s) (news_fetcher s) (web_search_tool s)
    (calls s ++ [c])%list (state s).

(** Asking an oracle: the oracle sees the log so far, and the call is
    logged whatever the answer. *)
Definition ask {A} (c : Call) (oracle : Log -> result A) : M A :=
  fun s => (oracle (calls s), log_call c s).

Definition set_chatbot_agent : M unit :=
  fun s =>
    (Ok tt, mk_store true (news_fetcher s) (web_search_tool s) (calls s)
              (state s)).

Definition set_news_fetcher : M unit :=
  fun s =>
    (Ok tt, mk_store (chatbot_agent s) true (web_search_tool s) (calls s)
              (state s)).

Definition set_web_search_tool : M unit :=
  fun s =>
    (Ok tt, mk_store (chatbot_agent s) (news_fetcher s) true (calls s)
              (state s)).

(** [x or default] for an optional int: None and 0 are falsy. *)
Definition or_default (x : option Z) (default : Z) : Z :=
  match x with
  | Some z => if (z =? 0)%Z then default else z
  | None => default
  end.

(** [enumerate(l, start)] *)
Fixpoint enumerate {A} (start : nat) (l : list A) : list (nat * A) :=
  match l with
  | [] => []
  | x :: r => (start, x) :: enumerate (S start) r
  end.

(* ===================================================================== *)
(** ** src/config.py *)
(* ===================================================================== *)

Module Settings.

Definition news_api_page_size : Z := 10.

Definition news_categories : list string :=
  [ "general";
    "business";
    "technology";
    "entertainment";
    "health";
    "science";
    "sports" ].

(** The dict [validate_api_keys] returns. *)
Record KeyValidation : Type := mk_key_validation {
  valid : bool;
  missing_keys : list string
}.

(** [Settings.validate_api_keys], for the two keys of the settings. *)
Definition validate_api_keys (openai_api_key news_api_key : string)
  : KeyValidation :=
  let missing_keys := [] in
  let missing_keys :=
    if negb (PyStr.truthy openai_api_key)
    then (missing_keys ++ ["OPENAI_API_KEY"])%list else missing_keys in
  let missing_keys :=
    if negb (PyStr.truthy news_api_key)
    then (missing_keys ++ ["NEWS_API_KEY"])%list else missing_keys in
  mk_key_validation (List.length missing_keys =? 0)%nat missing_keys.

End Settings.

(* ===================================================================== *)
(** ** src/agents/chatbot.py *)
(* ===================================================================== *)

Module NewsGenieAgent.
Section Agent.
Variable W : World.

Import PyStr.

(** [NewsGenieAgent()]: building the ChatOpenAI client is the only step
    that can fail. *)
Definition __init__ : M unit :=
  ask CallChatOpenAI (new_ChatOpenAI W).

Definition classification_prompt (query : string) : string :=
  join nl
    [ "Analyze this user query and determine if it's requesting news/current events or if it's a general question.";
      EmptyString;
      "User query: " ++ dquote ++ query ++ dquote;
      EmptyString;
      "Respond with ONLY a JSON object in this exact format:";
      "{";
      "    " ++ dquote ++ "is_news_request" ++ dquote ++ ": true or false,";
      "    " ++ dquote ++ "confidence" ++ dquote ++ ": 0.0 to 1.0,";
      "    " ++ dquote ++ "reasoning" ++ dquote ++ ": " ++ dquote
        ++ "brief explanation" ++ dquote;
      "}";
      EmptyString;
      "A query is news-related if it:";
      "- Asks about current events, recent news, or breaking news";
      "- Requests news in specific categories (business, tech, sports, etc.)";
      "- Asks " ++ dquote ++ "what's happening" ++ dquote ++ " or " ++ dquote
        ++ "latest news" ++ dquote;
      "- References recent/current events";
      EmptyString;
      "A query is general if it:";
      "- Asks for explanations, definitions, or how-to information";
      "- Requests recommendations or advice";
      "- Is conversational or personal";
      "- Asks about historical facts or timeless information" ].

(** The dict of the [except] branch of [classify_query]. *)
Definition default_classification : pyval :=
  PDict [ ("is_news_request", PBool false);
          ("confidence", PFloat 0.5%float);
          ("reasoning",
           PStr "Classification error, defaulting to general query") ].

(** Lines 100-107: the model's text without its markdown code fence. *)
Definition strip_code_fence (response_content : string) : string :=
  let content := strip response_content in
  let content :=
    if startswith content "```json" then drop 7 content else content in
  let content :=
    if startswith content "```" then drop 3 content else content in
  let content :=
    if endswith content "```" then drop_last 3 content else content in
  strip content.

Definition classify_query (query : string) : M pyval :=
  let classification_prompt := classification_prompt query in
  try_except
    (response_content <-
       ask (CallLlmInvoke classification_prompt)
           (fun log => llm_invoke W log classification_prompt) ;;
     let content := strip_code_fence response_content in
     result <- lift (json_loads W content) ;;
     ret result)
    (fun e => ret default_classification).

Definition chat (user_input : string) (chat_history : option (list Message))
  : M string :=
  let chat_history :=
    match chat_history with None => [] | Some h => h end in
  try_except
    (ask (CallChainInvoke user_input chat_history)
         (fun log => chain_invoke W log user_input chat_history))
    (fun e =>
       ret ("I apologize, but I encountered an error: " ++ exn_str e)).

Fixpoint format_chat_history (messages : list Turn) : list Message :=
  match messages with
  | [] => []
  | msg :: rest =>
      if String.eqb (role msg) "user"
      then HumanMessage (content msg) :: format_chat_history rest
      else if String.eqb (role msg) "assistant"
      then AIMessage (content msg) :: format_chat_history rest
      else format_chat_history rest
  end.

End Agent.
End NewsGenieAgent.

(* ===================================================================== *)
(** ** src/tools/news_fetcher.py *)
(* ===================================================================== *)

Module NewsFetcher.
Section Fetcher.
Variable W : World.

(** [NewsFetcher()] *)
Definition __init__ : M unit :=
  if negb (PyStr.truthy (news_api_key W))
  then raise (mk_exn "ValueError"
                "NEWS_API_KEY not found in environment variables")
  else ask CallNewsApiClient (new_NewsApiClient W).

(** [self.page_size] *)
Definition page_size_default : Z := Settings.news_api_page_size.

(** [d.get(key, default)] for a text field. *)
Definition get_text (field : option pytext) (default : string) : pytext :=
  match field with
  | Some t => t
  | None => TStr default
  end.

(** [article.get("source", {}).get("name", "Unknown")] *)
Definition source_name (src : option RawSource) : result pytext :=
  match src with
  | None => Ok (TStr "Unknown")
  | Some SourceNull => Raise (Py.AttributeError PNone "get")
  | Some (SourceObj name) => Ok (get_text name "Unknown")
  end.

Definition format_article (article : RawArticle) : result Article :=
  match source_name (raw_source article) with
  | Raise e => Raise e
  | Ok src =>
      Ok (mk_article
            (get_text (raw_title article) "No title")
            (get_text (raw_description article) "No description available")
            (get_text (raw_url article) EmptyString)
            src
            (get_text (raw_author article) "Unknown")
            (get_text (raw_publishedAt article) EmptyString)
            (get_text (raw_content article) EmptyString)
            (get_text (raw_urlToImage article) EmptyString))
  end.

(** The loop of [_format_response]: it stops at the first article that
    raises. *)
Fixpoint format_articles (articles : list RawArticle)
  : result (list Article) :=
  match articles with
  | [] => Ok []
  | article :: rest =>
      match format_article article with
      | Raise e => Raise e
      | Ok a =>
          match format_articles rest with
          | Raise e => Raise e
          | Ok r => Ok (a :: r)
          end
      end
  end.

Definition _format_response (response : RawNewsResponse)
  : result NewsResult :=
  if negb (match raw_status response with
           | Some s => String.eqb s "ok"
           | None => false
           end)
  then Ok (mk_news_result "error" None [] "Failed to fetch news")
  else
    let articles :=
      match raw_articles response with Some l => l | None => [] end in
    match format_articles articles with
    | Raise e => Raise e
    | Ok formatted_articles =>
        Ok (mk_news_result "success"
              (Some (match raw_totalResults response with
                     | Some n => n
                     | None => 0%Z
                     end))
              formatted_articles
              ("Found " ++ PyStr.of_nat (List.length formatted_articles)
               ++ " articles"))
    end.

Definition get_top_headlines (category : option string) (country : string)
    (page_size : option Z) : M NewsResult :=
  try_except
    (let page_size := or_default page_size page_size_default in
     response <-
       ask (CallTopHeadlines category country page_size)
           (fun log =>
              client_get_top_headlines W log category country page_size) ;;
     lift (_format_response response))
    (fun e =>
       ret (mk_news_result "error" None []
              ("Failed to fetch top headlines: " ++ exn_str e))).

Definition search_news (query : string) (from_date to_date : option Z)
    (language sort_by : string) (page_size : option Z) : M NewsResult :=
  try_except
    (let page_size := or_default page_size page_size_default in
     from_date <-
       match from_date with
       | Some d => ret d
       | None =>
           now <- ask CallNow (fun log => Ok (datetime_now W log)) ;;
           ret (now - 7)%Z
       end ;;
     to_date <-
       match to_date with
       | Some d => ret d
       | None => ask CallNow (fun log => Ok (datetime_now W log))
       end ;;
     response <-
       ask (CallEverything query from_date to_date language sort_by
              page_size)
           (fun log =>
              client_get_everything W log query from_date to_date language
                sort_by page_size) ;;
     lift (_format_response response))
    (fun e =>
       ret (mk_news_result "error" None []
              ("Failed to search news: " ++ exn_str e))).

Definition get_news_by_category (category : string) (country : string)
  : M NewsResult :=
  let valid_categories := Settings.news_categories in
  if negb (PyStr.mem (PyStr.lower category) valid_categories)
  then
    ret (mk_news_result "error" None []
           ("Invalid category. Valid options: "
            ++ PyStr.join ", " valid_categories))
  else get_top_headlines (Some (PyStr.lower category)) country None.

(** One entry of [format_articles_for_display]. *)
Definition display_article (item : nat * Article) : string :=
  let (i, article) := item in
  PyStr.nl ++ "**" ++ PyStr.of_nat i ++ ". " ++ text_str (art_title article)
  ++ "**" ++ PyStr.nl
  ++ "Source: " ++ text_str (art_source article) ++ PyStr.nl
  ++ "Published: " ++ text_str (art_published_at article) ++ PyStr.nl
  ++ text_str (art_description article) ++ PyStr.nl
  ++ "Read more: " ++ text_str (art_url article) ++ PyStr.nl.

Definition format_articles_for_display (articles : list Article) : string :=
  match articles with
  | [] => "No articles found."
  | _ => PyStr.join PyStr.nl (map display_article (enumerate 1 articles))
  end.

End Fetcher.
End NewsFetcher.

(* ===================================================================== *)
(** ** src/tools/web_search.py *)
(* ===================================================================== *)

Module WebSearchTool.
Section Tool.
Variable W : World.

(** [WebSearchTool()], with the default [max_results=5]. *)
Definition __init__ : M unit := ask CallDDGS (new_DDGS W).

(** [self.max_results] *)
Definition max_results_default : Z := 5.

Definition get_text (field : option pytext) (default : string) : pytext :=
  match field with
  | Some t => t
  | None => TStr default
  end.

(** [result.get("href", "").split("/")[2] if result.get("href")
     else "Unknown"] *)
Definition hit_source (href : option pytext) : result pytext :=
  match href with
  | Some (TStr s) =>
      if PyStr.truthy s
      then match nth_error (PyStr.split "/"%char s) 2 with
           | Some host => Ok (TStr host)
           | None => Raise (mk_exn "IndexError" "list index out of range")
           end
      else Ok (TStr "Unknown")
  | _ => Ok (TStr "Unknown")
  end.

Definition format_hit (hit : RawHit) : result WebItem :=
  match hit_source (hit_href hit) with
  | Raise e => Raise e
  | Ok src =>
      Ok (mk_web_item
            (get_text (hit_title hit) "No title")
            (get_text (hit_body hit) "No description available")
            (get_text (hit_href hit) EmptyString)
            src)
  end.

Fixpoint format_hits (results : list RawHit) : result (list WebItem) :=
  match results with
  | [] => Ok []
  | hit :: rest =>
      match format_hit hit with
      | Raise e => Raise e
      | Ok i =>
          match format_hits rest with
          | Raise e => Raise e
          | Ok r => Ok (i :: r)
          end
      end
  end.

Definition _format_response (results : list RawHit) (query : string)
  : result WebResult :=
  match results with
  | [] => Ok (mk_web_result "success" (Some query) (Some 0) []
                "No results found")
  | _ =>
      match format_hits results with
      | Raise e => Raise e
      | Ok formatted_results =>
          Ok (mk_web_result "success" (Some query)
                (Some (List.length formatted_results))
                formatted_results
                ("Found " ++ PyStr.of_nat (List.length formatted_results)
                 ++ " results"))
      end
  end.

Definition search (query : string) (max_results : option Z)
    (region : string) : M WebResult :=
  try_except
    (let max_results := or_default max_results max_results_default in
     results <-
       ask (CallDdgsText query region max_results)
           (fun log => ddgs_text W log query region max_results) ;;
     lift (_format_response results query))
    (fun e =>
       ret (mk_web_result "error" None None []
              ("Search failed: " ++ exn_str e))).

End Tool.
End WebSearchTool.

(* ===================================================================== *)
(** ** src/workflows/nodes.py *)
(* ===================================================================== *)

Module Nodes.
Section Nodes.
Variable W : World.

Import PyStr.

Definition get_chatbot_agent : M unit :=
  fun s =>
    if chatbot_agent s then ret tt s
    else (NewsGenieAgent.__init__ W ;;; set_chatbot_agent) s.

Definition get_news_fetcher : M unit :=
  fun s =>
    if news_fetcher s then ret tt s
    else (NewsFetcher.__init__ W ;;; set_news_fetcher) s.

Definition get_web_search_tool : M unit :=
  fun s =>
    if web_search_tool s then ret tt s
    else (WebSearchTool.__init__ W ;;; set_web_search_tool) s.

(** *** classify_query_node *)

Definition classify_query_body : M unit :=
  get_chatbot_agent ;;;
  st <- get_state ;;
  let user_input := user_input st in
  classification <- NewsGenieAgent.classify_query W user_input ;;
  modify_state (set_query_classification classification) ;;;
  confidence <- lift (Py.get classification "confidence" (PFloat 0%float)) ;;
  modify_state (set_metadata_item "classification_confidence" confidence) ;;;
  (* the two f-strings that are printed *)
  _ <- lift (Py.getitem classification "is_news_request") ;;
  c <- lift (Py.getitem classification "confidence") ;;
  lift (Py.format_2f c).

Definition classify_query_node : M unit :=
  try_except classify_query_body
    (fun e =>
       modify_state (set_error ("Classification error: " ++ exn_str e))).

(** *** fetch_news_node *)

(** Lines 93-99: the first category, in the order of the settings, that
    occurs in the lowercased query. *)
Fixpoint first_category (categories : list string) (query_lower : string)
  : option string :=
  match categories with
  | [] => None
  | cat :: rest =>
      if contains cat query_lower then Some cat
      else first_category rest query_lower
  end.

Definition fetch_news_body : M unit :=
  get_news_fetcher ;;;
  st <- get_state ;;
  let user_input := user_input st in
  let query_lower := lower user_input in
  let category := first_category Settings.news_categories query_lower in
  results <-
    (if match category with Some cat => truthy cat | None => false end
     then NewsFetcher.get_news_by_category W
            (match category with Some cat => cat | None => EmptyString end)
            "us"
     else NewsFetcher.search_news W user_input None None "en" "publishedAt"
            (Some 5%Z)) ;;
  modify_state (set_news_results results).

Definition fetch_news_node : M unit :=
  try_except fetch_news_body
    (fun e => modify_state (set_error ("News fetch error: " ++ exn_str e))).

(** *** web_search_node *)

Definition web_search_body : M unit :=
  get_web_search_tool ;;;
  st <- get_state ;;
  let user_input := user_input st in
  results <- WebSearchTool.search W user_input (Some 5%Z) "wt-wt" ;;
  modify_state (set_web_search_results results).

Definition web_search_node : M unit :=
  try_except web_search_body
    (fun e =>
       modify_state
         (set_web_search_results
            (mk_web_result "error" None None [] (exn_str e)))).

(** *** generate_response_node *)

Definition format_news_item (item : nat * Article) : string :=
  let (i, article) := item in
  of_nat i ++ ". " ++ text_str (art_title article) ++ nl
  ++ "   Source: " ++ text_str (art_source article) ++ nl
  ++ "   " ++ text_str (art_description article) ++ nl
  ++ "   URL: " ++ text_str (art_url article) ++ nl.

Definition format_web_item (item : nat * WebItem) : string :=
  let (i, result) := item in
  of_nat i ++ ". " ++ text_str (web_title result) ++ nl
  ++ "   " ++ text_str (web_snippet result) ++ nl
  ++ "   URL: " ++ text_str (web_url result) ++ nl.

(** Lines 181-193: what the news results add to [context_parts]. *)
Definition news_context_parts (news_results : option NewsResult)
  : list string :=
  match news_results with
  | Some nr =>
      if String.eqb (news_status nr) "success"
      then
        let articles := news_articles nr in
        match articles with
        | [] => []
        | _ =>
            ("**Recent News Articles:**" ++ nl)
              :: map format_news_item (enumerate 1 (firstn 5 articles))
        end
      else []
  | None => []
  end.

(** Lines 195-206: what the web results add to [context_parts].  The
    test [not news_results] is on the dict itself: a dict with keys is
    truthy whatever its status, only [None] is not. *)
Definition web_context_parts (news_results : option NewsResult)
    (web_results : option WebResult) : list string :=
  match web_results with
  | Some wr =>
      if String.eqb (ws_status wr) "success"
      then
        let results := ws_results wr in
        if match results with [] => false | _ => true end
           && negb (match news_results with Some _ => true | None => false end)
        then
          (nl ++ "**Additional Information:**" ++ nl)
            :: map format_web_item (enumerate 1 (firstn 3 results))
        else []
      else []
  | None => []
  end.

(** Lines 179-209: the context block. *)
Definition build_context (news_results : option NewsResult)
    (web_results : option WebResult) : string :=
  let context_parts :=
    (news_context_parts news_results
     ++ web_context_parts news_results web_results)%list in
  match context_parts with
  | [] => EmptyString
  | _ => join nl context_parts
  end.

(** Lines 212-221. *)
Definition enhanced_input (context user_input : string) : string :=
  if truthy context
  then
    "Based on the following information, please answer the user's question:"
    ++ nl ++ nl ++ context ++ nl ++ nl
    ++ "User's question: " ++ user_input ++ nl ++ nl
    ++ "Please provide a helpful, informative response that synthesizes the information above."
  else user_input.

Definition generate_response_body : M unit :=
  get_chatbot_agent ;;;
  st <- get_state ;;
  let user_input := user_input st in
  let chat_history := chat_history st in
  let context :=
    build_context (news_results st) (web_search_results st) in
  let enhanced_input := enhanced_input context user_input in
  let formatted_history :=
    NewsGenieAgent.format_chat_history chat_history in
  response <- NewsGenieAgent.chat W enhanced_input (Some formatted_history) ;;
  modify_state (set_final_response response).

Definition generate_response_node : M unit :=
  try_except generate_response_body
    (fun e =>
       modify_state
         (set_error ("Response generation error: " ++ exn_str e)) ;;;
       modify_state
         (set_final_response
            ("I apologize, but I encountered an error: " ++ exn_str e))).

(** *** handle_general_query_node *)

Definition handle_general_query_body : M unit :=
  get_chatbot_agent ;;;
  st <- get_state ;;
  let user_input := user_input st in
  let chat_history := chat_history st in
  let formatted_history :=
    NewsGenieAgent.format_chat_history chat_history in
  response <- NewsGenieAgent.chat W user_input (Some formatted_history) ;;
  modify_state (set_final_response response).

Definition handle_general_query_node : M unit :=
  try_except handle_general_query_body
    (fun e =>
       modify_state (set_error ("General query error: " ++ exn_str e)) ;;;
       modify_state
         (set_final_response
            ("I apologize, but I encountered an error: " ++ exn_str e))).

End Nodes.
End Nodes.

(* ===================================================================== *)
(** ** src/workflows/graph.py *)
(* ===================================================================== *)

Module Graph.

(** *** The two routers *)

(** [state.get("query_classification", {})]: the key is always in the
    state dict ([run_workflow] puts it there with the value None), so the
    default is never taken and the value may be None. *)
Definition should_fetch_news (state : GraphState) : result string :=
  let classification := query_classification state in
  match Py.get classification "is_news_request" (PBool false) with
  | Raise e => Raise e
  | Ok is_news =>
      match Py.get classification "confidence" (PFloat 0%float) with
      | Raise e => Raise e
      | Ok confidence =>
          (* is_news and confidence > 0.6 *)
          if Py.truthy is_news
          then match Py.gt_0_6 confidence with
               | Raise e => Raise e
               | Ok true => Ok "fetch_news"
               | Ok false => Ok "handle_general"
               end
          else Ok "handle_general"
      end
  end.

(** [state.get("news_results", {})]: as above, the key is always there,
    with the value None until [fetch_news_node] has stored a result. *)
Definition should_add_web_search (state : GraphState) : result string :=
  match news_results state with
  | None => Raise (Py.AttributeError PNone "get")
  | Some news_results =>
      if String.eqb (news_status news_results) "error"
      then Ok "web_search"
      else
        let articles := news_articles news_results in
        if (List.length articles <? 3)%nat
        then Ok "web_search"
        else Ok "generate_response"
  end.

(** *** The graph *)

Inductive NodeName : Type :=
| classify_query
| fetch_news
| web_search
| generate_response
| handle_general.

(** Where an edge leads: a node, or END. *)
Inductive Target : Type :=
| Goto (n : NodeName)
| END.

Inductive Edges : Type :=
| Edge (target : Target)
| ConditionalEdges (path : GraphState -> result string)
    (path_map : list (string * NodeName)).

Record StateGraph : Type := mk_graph {
  nodes : NodeName -> M unit;
  entry_point : NodeName;
  edges : NodeName -> Edges
}.

Fixpoint path_lookup (k : string) (m : list (string * NodeName))
  : option NodeName :=
  match m with
  | [] => None
  | (k', n) :: r => if String.eqb k k' then Some n else path_lookup k r
  end.

(** One node of the graph on the state [st]: the node works on its own
    copy of the state dict, and what it returns is written back key by
    key.  state.py declares the reducer [operator.add] for chat_history,
    so that key is added to the old value; every other key is replaced. *)
Definition run_node (node : M unit) (st : GraphState) : M GraphState :=
  fun s =>
    match node (with_state st s) with
    | (Ok _, s') =>
        let returned := state s' in
        (Ok (set_chat_history
               (chat_history st ++ chat_history returned)%list returned),
         s')
    | (Raise e, s') => (Raise e, s')
    end.

(** The executor: run the node, follow its edge, stop at END.  [fuel] is
    the recursion limit of [invoke]. *)
Fixpoint exec (g : StateGraph) (fuel : nat) (n : NodeName)
    (st : GraphState) : M GraphState :=
  match fuel with
  | O => raise (mk_exn "GraphRecursionError" "Recursion limit reached")
  | S fuel' =>
      st' <- run_node (nodes g n) st ;;
      match edges g n with
      | Edge END => ret st'
      | Edge (Goto n') => exec g fuel' n' st'
      | ConditionalEdges path path_map =>
          r <- lift (path st') ;;
          match path_lookup r path_map with
          | Some n' => exec g fuel' n' st'
          | None => raise (mk_exn "KeyError" ("'" ++ r ++ "'"))
          end
      end
  end.

Definition recursion_limit : nat := 25.

Definition invoke (g : StateGraph) (initial_state : GraphState)
  : M GraphState :=
  exec g recursion_limit (entry_point g) initial_state.

Section Workflow.
Variable W : World.

Definition create_workflow : StateGraph :=
  mk_graph
    (fun n =>
       match n with
       | classify_query => Nodes.classify_query_node W
       | fetch_news => Nodes.fetch_news_node W
       | web_search => Nodes.web_search_node W
       | generate_response => Nodes.generate_response_node W
       | handle_general => Nodes.handle_general_query_node W
       end)
    classify_query
    (fun n =>
       match n with
       | classify_query =>
           ConditionalEdges should_fetch_news
             [ ("fetch_news", fetch_news);
               ("handle_general", handle_general) ]
       | fetch_news =>
           ConditionalEdges should_add_web_search
             [ ("web_search", web_search);
               ("generate_response", generate_response) ]
       | web_search => Edge (Goto generate_response)
       | generate_response => Edge END
       | handle_general => Edge END
       end).

Definition run_workflow (user_input : string)
    (chat_history : option (list Turn)) : M GraphState :=
  let chat_history :=
    match chat_history with None => [] | Some h => h end in
  let initial_state :=
    mk_state user_input chat_history PNone None None EmptyString None [] in
  let workflow := create_workflow in
  invoke workflow initial_state.

End Workflow.
End Graph.

(* ===================================================================== *)
(** ** Console output *)
(* ===================================================================== *)

(** sys.stdout.  [print] writes one line to it, and the write raises when
    the stream cannot take the text: UnicodeEncodeError when the encoding
    of the stream lacks a character of the line, OSError on a closed pipe.
    Like every collaborator the stream sees the log of the calls made
    before.  [format_2f_text v] is the text of [f"{v:.2f}"] for a number
    [v]. *)
Record Stdout : Type := mk_stdout {
  stdout_write : Log -> string -> option exn;
  format_2f_text : pyval -> string
}.

(** [print(text)] *)
Definition print (out : Stdout) (text : string) : M unit :=
  fun s =>
    match stdout_write out (calls s) text with
    | None => (Ok tt, s)
    | Some e => (Raise e, s)
    end.

(** The functions of chatbot.py, nodes.py and graph.py that print, with
    their print statements, line for line.  The definitions of the same
    names in [NewsGenieAgent], [Nodes] and [Graph] are these functions with
    the console left out. *)
Module Console.
Section Console.
Variable W : World.
Variable out : Stdout.

Import PyStr.

(** *** chatbot.py *)

Definition classify_query (query : string) : M pyval :=
  let classification_prompt := NewsGenieAgent.classification_prompt query in
  try_except
    (response_content <-
       ask (CallLlmInvoke classification_prompt)
           (fun log => llm_invoke W log classification_prompt) ;;
     let content := NewsGenieAgent.strip_code_fence response_content in
     result <- lift (json_loads W content) ;;
     ret result)
    (fun e =>
       print out ("Error classifying query: " ++ exn_str e) ;;;
       ret NewsGenieAgent.default_classification).

(** *** nodes.py *)

Definition classify_query_node : M unit :=
  print out "🔍 Classifying query..." ;;;
  try_except
    (Nodes.get_chatbot_agent W ;;;
     st <- get_state ;;
     let user_input := user_input st in
     classification <- classify_query user_input ;;
     modify_state (set_query_classification classification) ;;;
     confidence <- lift (Py.get classification "confidence" (PFloat 0%float)) ;;
     modify_state (set_metadata_item "classification_confidence" confidence) ;;;
     is_news <- lift (Py.getitem classification "is_news_request") ;;
     print out
       ("   Classification: "
        ++ (if Py.truthy is_news then "News" else "General")) ;;;
     c <- lift (Py.getitem classification "confidence") ;;
     lift (Py.format_2f c) ;;;
     print out ("   Confidence: " ++ format_2f_text out c))
    (fun e =>
       modify_state (set_error ("Classification error: " ++ exn_str e)) ;;;
       print out ("❌ Error: " ++ exn_str e)).

Definition fetch_news_node : M unit :=
  print out "📰 Fetching news..." ;;;
  try_except
    (Nodes.get_news_fetcher W ;;;
     st <- get_state ;;
     let user_input := user_input st in
     let query_lower := lower user_input in
     let category :=
       Nodes.first_category Settings.news_categories query_lower in
     results <-
       (if match category with Some cat => truthy cat | None => false end
        then
          let category :=
            match category with Some cat => cat | None => EmptyString end in
          print out ("   Using category: " ++ category) ;;;
          NewsFetcher.get_news_by_category W category "us"
        else
          print out ("   Searching for: " ++ user_input) ;;;
          NewsFetcher.search_news W user_input None None "en" "publishedAt"
            (Some 5%Z)) ;;
     modify_state (set_news_results results) ;;;
     if String.eqb (news_status results) "success"
     then
       print out
         ("   ✅ Found " ++ of_nat (List.length (news_articles results))
          ++ " articles")
     else print out ("   ⚠️ " ++ news_message results))
    (fun e =>
       modify_state (set_error ("News fetch error: " ++ exn_str e)) ;;;
       print out ("❌ Error: " ++ exn_str e)).

Definition web_search_node : M unit :=
  print out "🔎 Performing web search..." ;;;
  try_except
    (Nodes.get_web_search_tool W ;;;
     st <- get_state ;;
     let user_input := user_input st in
     results <- WebSearchTool.search W user_input (Some 5%Z) "wt-wt" ;;
     modify_state (set_web_search_results results) ;;;
     if String.eqb (ws_status results) "success"
     then
       print out
         ("   ✅ Found " ++ of_nat (List.length (ws_results results))
          ++ " results")
     else print out ("   ⚠️ " ++ ws_message results))
    (fun e =>
       modify_state
         (set_web_search_results
            (mk_web_result "error" None None [] (exn_str e))) ;;;
       print out ("⚠️ Web search failed: " ++ exn_str e)).

Definition generate_response_node : M unit :=
  print out "💬 Generating response..." ;;;
  try_except
    (Nodes.get_chatbot_agent W ;;;
     st <- get_state ;;
     let user_input := user_input st in
     let chat_history := chat_history st in
     let context :=
       Nodes.build_context (news_results st) (web_search_results st) in
     let enhanced_input := Nodes.enhanced_input context user_input in
     let formatted_history :=
       NewsGenieAgent.format_chat_history chat_history in
     response <-
       NewsGenieAgent.chat W enhanced_input (Some formatted_history) ;;
     modify_state (set_final_response response) ;;;
     print out "   ✅ Response generated")
    (fun e =>
       modify_state
         (set_error ("Response generation error: " ++ exn_str e)) ;;;
       modify_state
         (set_final_response
            ("I apologize, but I encountered an error: " ++ exn_str e)) ;;;
       print out ("❌ Error: " ++ exn_str e)).

Definition handle_general_query_node : M unit :=
  print out "💭 Handling general query..." ;;;
  try_except
    (Nodes.get_chatbot_agent W ;;;
     st <- get_state ;;
     let user_input := user_input st in
     let chat_history := chat_history st in
     let formatted_history :=
       NewsGenieAgent.format_chat_history chat_history in
     response <- NewsGenieAgent.chat W user_input (Some formatted_history) ;;
     modify_state (set_final_response response) ;;;
     print out "   ✅ Response generated")
    (fun e =>
       modify_state (set_error ("General query error: " ++ exn_str e)) ;;;
       modify_state
         (set_final_response
            ("I apologize, but I encountered an error: " ++ exn_str e)) ;;;
       print out ("❌ Error: " ++ exn_str e)).

(** *** graph.py *)

(** The graph of [create_workflow]: the same entry point and edges, and
    the five nodes above. *)
Definition create_workflow : Graph.StateGraph :=
  Graph.mk_graph
    (fun n =>
       match n with
       | Graph.classify_query => classify_query_node
       | Graph.fetch_news => fetch_news_node
       | Graph.web_search => web_search_node
       | Graph.generate_response => generate_response_node
       | Graph.handle_general => handle_general_query_node
       end)
    Graph.classify_query
    (fun n =>
       match n with
       | Graph.classify_query =>
           Graph.ConditionalEdges Graph.should_fetch_news
             [ ("fetch_news", Graph.fetch_news);
               ("handle_general", Graph.handle_general) ]
       | Graph.fetch_news =>
           Graph.ConditionalEdges Graph.should_add_web_search
             [ ("web_search", Graph.web_search);
               ("generate_response", Graph.generate_response) ]
       | Graph.web_search => Graph.Edge (Graph.Goto Graph.generate_response)
       | Graph.generate_response => Graph.Edge Graph.END
       | Graph.handle_general => Graph.Edge Graph.END
       end).

(** ['='*60] *)
Definition rule : string :=
  "============================================================".

Definition run_workflow (user_input : string)
    (chat_history : option (list Turn)) : M GraphState :=
  let chat_history :=
    match chat_history with None => [] | Some h => h end in
  let initial_state :=
    mk_state user_input chat_history PNone None None EmptyString None [] in
  print out (nl ++ rule) ;;;
  print out ("Processing query: " ++ user_input) ;;;
  print out rule ;;;
  let workflow := create_workflow in
  final_state <- Graph.invoke workflow initial_state ;;
  print out rule ;;;
  print out "Workflow completed!" ;;;
  print out (rule ++ nl) ;;;
  ret final_state.

End Console.
End Console.

(* ===================================================================== *)
(** ** Sample worlds and states *)
(* ===================================================================== *)

Module Sample.

Definition empty_state : GraphState :=
  mk_state EmptyString [] PNone None None EmptyString None [].

(** A fresh process: no singleton created, nothing logged. *)
Definition fresh : Store := mk_store false false false [] empty_state.

Definition news_classification : pyval :=
  PDict [ ("is_news_request", PBool true);
          ("confidence", PFloat 0.9%float);
          ("reasoning", PStr "asks for recent news") ].

Definition article (n : string) : Article :=
  mk_article (TStr ("Title " ++ n)) (TStr ("Description " ++ n))
    (TStr ("https://news.example/" ++ n)) (TStr "Example Times")
    (TStr "Unknown") (TStr "2024-05-01") (TStr EmptyString)
    (TStr EmptyString).

Definition raw_article (n : string) : RawArticle :=
  mk_raw_article (Some (TStr ("Title " ++ n)))
    (Some (TStr ("Description " ++ n)))
    (Some (TStr ("https://news.example/" ++ n)))
    (Some (SourceObj (Some (TStr "Example Times"))))
    None (Some (TStr "2024-05-01")) None None.

Definition hit (n : string) : RawHit :=
  mk_raw_hit (Some (TStr ("Page " ++ n))) (Some (TStr ("Snippet " ++ n)))
    (Some (TStr ("https://web.example/" ++ n))).

Definition web_item (n : string) : WebItem :=
  mk_web_item (TStr ("Page " ++ n)) (TStr ("Snippet " ++ n))
    (TStr ("https://web.example/" ++ n)) (TStr "web.example").

Definition news_ok (articles : list Article) : NewsResult :=
  mk_news_result "success" (Some (Z.of_nat (List.length articles))) articles
    ("Found " ++ PyStr.of_nat (List.length articles) ++ " articles").

Definition news_error : NewsResult :=
  mk_news_result "error" None [] "Failed to fetch news".

Definition web_ok (items : list WebItem) : WebResult :=
  mk_web_result "success" (Some "q") (Some (List.length items)) items
    ("Found " ++ PyStr.of_nat (List.length items) ++ " results").

(** Everything works: the classifier sees a news request, NewsAPI has
    five articles, DuckDuckGo two hits, the model answers. *)
Definition healthy : World :=
  mk_world "key"
    (fun _ => Ok tt)
    (fun _ _ => Ok "{...}")
    (fun _ input _ => Ok ("Answer to: " ++ input))
    (fun _ => Ok news_classification)
    (fun _ => Ok tt)
    (fun _ _ _ _ =>
       Ok (mk_raw_news (Some "ok") (Some 5%Z)
             (Some (map raw_article ["1"; "2"; "3"; "4"; "5"]))))
    (fun _ _ _ _ _ _ _ =>
       Ok (mk_raw_news (Some "ok") (Some 5%Z)
             (Some (map raw_article ["1"; "2"; "3"; "4"; "5"]))))
    (fun _ => 19844%Z)
    (fun _ => Ok tt)
    (fun _ _ _ _ => Ok [hit "a"; hit "b"]).

(** [healthy], but the OpenAI client cannot be built. *)
Definition no_openai : World :=
  mk_world "key"
    (fun _ => Raise (mk_exn "OpenAIError" "The api_key client option must be set"))
    (llm_invoke healthy) (chain_invoke healthy) (json_loads healthy)
    (new_NewsApiClient healthy) (client_get_top_headlines healthy)
    (client_get_everything healthy) (datetime_now healthy)
    (new_DDGS healthy) (ddgs_text healthy).



(** [healthy], but NewsAPI is unreachable. *)
Definition news_down : World :=
  mk_world "key"
    (new_ChatOpenAI healthy) (llm_invoke healthy) (chain_invoke healthy)
    (json_loads healthy)
    (new_NewsApiClient healthy)
    (fun _ _ _ _ => Raise (mk_exn "ConnectionError" "Max retries exceeded"))
    (fun _ _ _ _ _ _ _ =>
       Raise (mk_exn "ConnectionError" "Max retries exceeded"))
    (datetime_now healthy)
    (new_DDGS healthy) (ddgs_text healthy).

(** [healthy], but DuckDuckGo finds nothing. *)
Definition no_hits : World :=
  mk_world "key"
    (new_ChatOpenAI healthy) (llm_invoke healthy) (chain_invoke healthy)
    (json_loads healthy)
    (new_NewsApiClient healthy) (client_get_top_headlines healthy)
    (client_get_everything healthy) (datetime_now healthy)
    (new_DDGS healthy) (fun _ _ _ _ => Ok []).


(** [healthy], but the model answers the classifier with the JSON text
    null, which [json.loads] turns into None. *)
Definition null_llm : World :=
  mk_world "key"
    (new_ChatOpenAI healthy)
    (fun _ _ => Ok "null")
    (chain_invoke healthy)
    (fun _ => Ok PNone)
    (new_NewsApiClient healthy) (client_get_top_headlines healthy)
    (client_get_everything healthy) (datetime_now healthy)
    (new_DDGS healthy) (ddgs_text healthy).

(** [healthy], but the second article NewsAPI sends has a null source. *)
Definition null_source : World :=
  mk_world "key"
    (new_ChatOpenAI healthy) (llm_invoke healthy) (chain_invoke healthy)
    (json_loads healthy)
    (new_NewsApiClient healthy)
    (fun _ _ _ _ =>
       Ok (mk_raw_news (Some "ok") (Some 2%Z)
             (Some [ raw_article "1";
                     mk_raw_article (Some (TStr "Title 2")) None None
                       (Some SourceNull) None None None None ])))
    (client_get_everything healthy) (datetime_now healthy)
    (new_DDGS healthy) (ddgs_text healthy).

(** [healthy], but one of the pages DuckDuckGo finds has an address
    without any slash. *)
Definition bare_href : World :=
  mk_world "key"
    (new_ChatOpenAI healthy) (llm_invoke healthy) (chain_invoke healthy)
    (json_loads healthy)
    (new_NewsApiClient healthy) (client_get_top_headlines healthy)
    (client_get_everything healthy) (datetime_now healthy)
    (new_DDGS healthy)
    (fun _ _ _ _ =>
       Ok [ hit "a";
            mk_raw_hit (Some (TStr "Page b")) (Some (TStr "Snippet b"))
              (Some (TStr "web.example")) ]).

(** [healthy], but DuckDuckGo cannot be reached. *)
Definition web_down : World :=
  mk_world "key"
    (new_ChatOpenAI healthy) (llm_invoke healthy) (chain_invoke healthy)
    (json_loads healthy)
    (new_NewsApiClient healthy) (client_get_top_headlines healthy)
    (client_get_everything healthy) (datetime_now healthy)
    (fun _ => Raise (mk_exn "DuckDuckGoSearchException" "unreachable"))
    (fun _ _ _ _ => Raise (mk_exn "DuckDuckGoSearchException" "unreachable")).


(** [healthy], but the classifier sees a general question. *)
Definition general_question : World :=
  mk_world "key"
    (new_ChatOpenAI healthy) (llm_invoke healthy) (chain_invoke healthy)
    (fun _ =>
       Ok (PDict [ ("is_news_request", PBool false);
                   ("confidence", PFloat 0.95%float);
                   ("reasoning", PStr "asks how to do something") ]))
    (new_NewsApiClient healthy) (client_get_top_headlines healthy)
    (client_get_everything healthy) (datetime_now healthy)
    (new_DDGS healthy) (ddgs_text healthy).

(** A console that takes every line. *)
Definition utf8_console : Stdout :=
  mk_stdout (fun _ _ => None) (fun _ => "0.90").

(** Whether every character of the text is ASCII. *)
Definition is_ascii (text : string) : bool :=
  forallb (fun c => (nat_of_ascii c <? 128)%nat) (list_ascii_of_string text).

(** A console whose encoding is ASCII: a line with any other character is
    refused.  (Python's message also names the character and where it
    stands in the line.) *)
Definition ascii_console : Stdout :=
  mk_stdout
    (fun _ text =>
       if is_ascii text then None
       else Some (mk_exn "UnicodeEncodeError"
                    "'ascii' codec can't encode character: ordinal not in range(128)"))
    (fun _ => "0.90").

End Sample.


(** The apology every [except] branch that writes final_response uses. *)
Definition apology (e : exn) : string :=
  "I apologize, but I encountered an error: " ++ exn_str e.


(** The state without its web-search results. *)
Definition clear_web_search_results (st : GraphState) : GraphState :=
  mk_state (user_input st) (chat_history st) (query_classification st)
    (news_results st) None (final_response st) (error st) (metadata st).

(** The context block built from news articles alone: the heading, then
    one numbered entry for each of the first five articles. *)
Definition news_only_context (articles : list Article) : string :=
  PyStr.join PyStr.nl
    (("**Recent News Articles:**" ++ PyStr.nl)
       :: map Nodes.format_news_item (enumerate 1 (firstn 5 articles))).

(** The context block built from web results alone: the heading, then one
    numbered entry for each of the first three results. *)
Definition web_only_context (results : list WebItem) : string :=
  PyStr.join PyStr.nl
    ((PyStr.nl ++ "**Additional Information:**" ++ PyStr.nl)
       :: map Nodes.format_web_item (enumerate 1 (firstn 3 results))).

(** The shape of every dict the [NewsFetcher] methods return: a success
    with its count and message, or an error without any article. *)
Definition news_result_shape (r : NewsResult) : Prop :=
  (news_status r = "success"
   /\ (exists n, news_total_results r = Some n)
   /\ news_message r
      = "Found " ++ PyStr.of_nat (List.length (news_articles r))
        ++ " articles")
  \/ (news_status r = "error"
      /\ news_total_results r = None
      /\ news_articles r = []).

(** The shape of every dict [WebSearchTool.search] returns. *)
Definition web_result_shape (query : string) (r : WebResult) : Prop :=
  (ws_status r = "success"
   /\ ws_query r = Some query
   /\ ws_total_results r = Some (List.length (ws_results r)))
  \/ (ws_status r = "error"
      /\ ws_query r = None
      /\ ws_total_results r = None
      /\ ws_results r = []).

(** The calls that go to NewsAPI or DuckDuckGo. *)
Definition is_retrieval_call (c : Call) : bool :=
  match c with
  | CallNewsApiClient | CallTopHeadlines _ _ _ | CallEverything _ _ _ _ _ _
  | CallDDGS | CallDdgsText _ _ _ => true
  | CallChatOpenAI | CallLlmInvoke _ | CallChainInvoke _ _ | CallNow => false
  end.

(** The calls that search the web. *)
Definition is_web_call (c : Call) : bool :=
  match c with
  | CallDDGS | CallDdgsText _ _ _ => true
  | _ => false
  end.

(** The roles [format_chat_history] keeps. *)
Definition known_role (t : Turn) : bool :=
  String.eqb (role t) "user" || String.eqb (role t) "assistant".

(** The text of a LangChain message. *)
Definition message_content (m : Message) : string :=
  match m with
  | HumanMessage c => c
  | AIMessage c => c
  end.

(** The role a LangChain message stands for. *)
Definition message_role (m : Message) : string :=
  match m with
  | HumanMessage _ => "user"
  | AIMessage _ => "assistant"
  end.

(** [m] leaves the part [f] of the state dict as it was. *)
Definition keeps {A T} (f : GraphState -> T) (m : M A) : Prop :=
  forall s, f (state (snd (m s))) = f (state s).

(** [m] only appends to the log, and only calls that [allowed] accepts. *)
Definition logs_only {A} (allowed : Call -> bool) (m : M A) : Prop :=
  forall s, exists l,
    calls (snd (m s)) = (calls s ++ l)%list /\ forallb allowed l = true.

(** The calls to the language model. *)
Definition is_model_call (c : Call) : bool :=
  match c with
  | CallChatOpenAI | CallLlmInvoke _ | CallChainInvoke _ _ => true
  | _ => false
  end.

(** The calls to NewsAPI, and the readings of the clock that go with
    them. *)
Definition is_news_call (c : Call) : bool :=
  match c with
  | CallNewsApiClient | CallNow | CallTopHeadlines _ _ _
  | CallEverything _ _ _ _ _ _ => true
  | _ => false
  end.

(** The graph of [create_workflow] written as the sequential program it
    amounts to: no executor, no fuel. *)
Definition sequential_workflow (W : World) (initial_state : GraphState)
  : M GraphState :=
  (st1 <- Graph.run_node (Nodes.classify_query_node W) initial_state ;;
   route <- lift (Graph.should_fetch_news st1) ;;
   if String.eqb route "fetch_news"
   then
     st2 <- Graph.run_node (Nodes.fetch_news_node W) st1 ;;
     route2 <- lift (Graph.should_add_web_search st2) ;;
     if String.eqb route2 "web_search"
     then
       st3 <- Graph.run_node (Nodes.web_search_node W) st2 ;;
       Graph.run_node (Nodes.generate_response_node W) st3
     else Graph.run_node (Nodes.generate_response_node W) st2
   else Graph.run_node (Nodes.handle_general_query_node W) st1)%py.

(** The state dict [run_workflow] starts from. *)
Definition initial_state_of (user_input : string)
    (chat_history : option (list Turn)) : GraphState :=
  mk_state user_input
    (match chat_history with None => [] | Some h => h end)
    PNone None None EmptyString None [].

(** [m] never drops the chatbot agent once it is built. *)
Definition agent_stays {A} (m : M A) : Prop :=
  forall s, chatbot_agent s = true -> chatbot_agent (snd (m s)) = true.

(** What the Respond stage sends to the model, given the state it runs
    on. *)
Definition respond_input (st : GraphState) : string :=
  Nodes.enhanced_input
    (Nodes.build_context (news_results st) (web_search_results st))
    (user_input st).

(** The console takes every line. *)
Definition quiet (out : Stdout) : Prop :=
  forall log text, stdout_write out log text = None.

(** The exception is one a write to the console raised, after the calls of
    [log]. *)
Definition from_console (out : Stdout) (log : Log) (e : exn) : Prop :=
  exists text, stdout_write out log text = Some e.


(** Two computations that do the same on every store. *)
Definition same {A} (m1 m2 : M A) : Prop := forall s, m1 s = m2 s.

(** How a function that prints relates to the same function with the
    console left out: they agree when the console takes every line; the
    printing one raises at once when its first line is refused; and
    whatever it raises, a write to the console raised it, as the last
    thing done. *)
Definition raises_only_through_console (out : Stdout) (first_line : string)
    (plain printing : M unit) : Prop :=
  (quiet out -> same printing plain)
  /\ (forall s e,
        stdout_write out (calls s) first_line = Some e ->
        printing s = (Raise e, s))
  /\ (forall s e s',
        printing s = (Raise e, s') -> from_console out (calls s') e).

(** [sub] occurs in [s]. *)
Definition occurs_in (sub s : string) : Prop :=
  exists pre post, s = pre ++ sub ++ post.

(* ===================================================================== *)
(** ** Facts about the string operations *)
(* ===================================================================== *)

Section StringFacts.
Import PyStr.

Lemma startswith_iff_prefix (p s : string) :
  startswith s p = true <-> exists post, s = p ++ post.
Proof.
  revert s; induction p as [|a p IH]; intros s; simpl.
  - split; [intros _; now exists s | reflexivity].
  - destruct s as [|b s]; simpl.
    + split; [discriminate | intros [post H]; discriminate].
    + rewrite andb_true_iff, Ascii.eqb_eq, IH. split.
      * intros [-> [post ->]]. now exists post.
      * intros [post H]. injection H as -> ->. split; [reflexivity|].
        now exists post.
Qed.

Lemma contains_iff_occurs (sub s : string) :
  contains sub s = true <-> occurs_in sub s.
Proof.
  unfold occurs_in. induction s as [|c s IH].
  - simpl. rewrite orb_false_r, startswith_iff_prefix. split.
    + intros [post H]. exists EmptyString, post. exact H.
    + intros [pre [post H]]. destruct pre; simpl in H.
      * now exists post.
      * discriminate.
  - cbn [contains]. rewrite orb_true_iff, startswith_iff_prefix, IH. split.
    + intros [[post H] | [pre [post H]]].
      * exists EmptyString, post. exact H.
      * exists (String c pre), post. simpl. now rewrite H.
    + intros [pre [post H]]. destruct pre as [|d pre]; simpl in H.
      * left. now exists post.
      * right. injection H as _ H. now exists pre, post.
Qed.

Lemma contains_false_iff (sub s : string) :
  contains sub s = false <-> ~ occurs_in sub s.
Proof.
  rewrite <- contains_iff_occurs.
  destruct (contains sub s); split; congruence.
Qed.

Lemma mem_iff_In (x : string) (l : list string) :
  mem x l = true <-> In x l.
Proof.
  unfold mem. rewrite existsb_exists. split.
  - intros [y [Hin Heq]]. apply String.eqb_eq in Heq. now subst.
  - intros Hin. exists x. split; [exact Hin | apply String.eqb_refl].
Qed.

Lemma lower_idempotent (s : string) : lower (lower s) = lower s.
Proof.
  induction s as [|c s IH]; simpl; [reflexivity|]. rewrite IH. f_equal.
  destruct c as [[] [] [] [] [] [] [] []]; reflexivity.
Qed.

(** The operations on a few inputs. *)
Example string_operations :
  strip ("  ab  c " ++ nl) = "ab  c"
  /\ lower "Latest SPORTS News!" = "latest sports news!"
  /\ contains "sports" "latest sports news!" = true
  /\ contains "sport s" "latest sports news!" = false
  /\ contains EmptyString "abc" = true
  /\ startswith "```json{}" "```" = true
  /\ endswith "{}```" "```" = true
  /\ endswith "``" "```" = false
  /\ drop 7 "```json{}" = "{}"
  /\ drop_last 3 "{}```" = "{}"
  /\ drop_last 3 "ab" = EmptyString
  /\ split "/" "https://web.example/a" = ["https:"; EmptyString; "web.example"; "a"]
  /\ split "/" "web.example" = ["web.example"]
  /\ join ", " ["a"; "b"; "c"] = "a, b, c"
  /\ of_nat 0 = "0" /\ of_nat 5 = "5" /\ of_nat 12 = "12"
  /\ mem "sports" Settings.news_categories = true
  /\ mem "Sports" Settings.news_categories = false.
Proof. repeat split; vm_compute; reflexivity. Qed.

End StringFacts.

(** The loop over the categories returns the first one that occurs in the
    query, and none when no category occurs. *)
Lemma first_category_first (categories : list string) (q : string) :
  forall pre cat post,
    categories = (pre ++ cat :: post)%list ->
    occurs_in cat q ->
    (forall c, In c pre -> ~ occurs_in c q) ->
    Nodes.first_category categories q = Some cat.
Proof.
  intros pre cat post -> Hcat Hpre. induction pre as [|c pre IH]; simpl.
  - apply contains_iff_occurs in Hcat. now rewrite Hcat.
  - assert (Hc : PyStr.contains c q = false).
    { apply contains_false_iff, Hpre. now left. }
    rewrite Hc. apply IH. intros c' Hin. apply Hpre. now right.
Qed.

Lemma first_category_none (categories : list string) (q : string) :
  (forall c, In c categories -> ~ occurs_in c q) ->
  Nodes.first_category categories q = None.
Proof.
  induction categories as [|c r IH]; intros H; simpl; [reflexivity|].
  assert (Hc : PyStr.contains c q = false).
  { apply contains_false_iff, H. now left. }
  rewrite Hc. apply IH. intros c' Hin. apply H. now right.
Qed.

(* ===================================================================== *)
(** ** The routers *)
(* ===================================================================== *)

(** The router on a classification dict that holds a flag and a float. *)
Lemma should_fetch_news_eval (st : GraphState) d (b : bool) (c : float) :
  query_classification st = PDict d ->
  Py.lookup "is_news_request" d = Some (PBool b) ->
  Py.lookup "confidence" d = Some (PFloat c) ->
  Graph.should_fetch_news st
  = Ok (if b && PrimFloat.ltb 0.6%float c then "fetch_news"
        else "handle_general").
Proof.
  intros Hq Hb Hc. unfold Graph.should_fetch_news. rewrite Hq. simpl.
  rewrite Hb, Hc. simpl. destruct b; simpl; [|reflexivity].
  destruct (PrimFloat.ltb _ c); reflexivity.
Qed.

(** C3.  For a classification with the flag [b] and the confidence [c],
    the router after Classify answers fetch_news exactly when [b] is true
    and [0.6 < c] (IEEE comparison, strict), and handle_general in every
    other case; in particular at [c = 0.6] and whenever [b] is false. *)
Theorem should_fetch_news_threshold
    (st : GraphState) d (b : bool) (c : float) :
  query_classification st = PDict d ->
  Py.lookup "is_news_request" d = Some (PBool b) ->
  Py.lookup "confidence" d = Some (PFloat c) ->
  (Graph.should_fetch_news st = Ok "fetch_news"
   <-> b = true /\ PrimFloat.ltb 0.6%float c = true)
  /\ (Graph.should_fetch_news st = Ok "handle_general"
      <-> ~ (b = true /\ PrimFloat.ltb 0.6%float c = true))
  /\ (c = 0.6%float -> Graph.should_fetch_news st = Ok "handle_general")
  /\ (b = false -> Graph.should_fetch_news st = Ok "handle_general").
Proof.
  intros Hq Hb Hc. rewrite (should_fetch_news_eval st d b c Hq Hb Hc).
  split; [|split; [|split]].
  - destruct b, (PrimFloat.ltb _ c); simpl; split;
      try (intros [? ?]); try intro; try split;
      try reflexivity; discriminate.
  - destruct b, (PrimFloat.ltb _ c); simpl; split; intros H;
      try reflexivity; try discriminate; try (intros [? ?]; discriminate);
      exfalso; apply H; now split.
  - intros ->. destruct b; reflexivity.
  - intros ->. reflexivity.
Qed.

Lemma should_fetch_news_threshold_witness :
  let st := set_query_classification Sample.news_classification
              Sample.empty_state in
  Graph.should_fetch_news st = Ok "fetch_news"
  <-> true = true /\ PrimFloat.ltb 0.6%float 0.9%float = true.
Proof.
  intros st.
  exact (proj1 (should_fetch_news_threshold st _ true 0.9%float
                  eq_refl eq_refl eq_refl)).
Defined.

(** Concrete confidences around the threshold, and values that are no
    float. *)
Example should_fetch_news_boundary :
  let route c :=
    Graph.should_fetch_news
      (set_query_classification
         (PDict [("is_news_request", PBool true); ("confidence", c)])
         Sample.empty_state) in
  route (PFloat 0.6%float) = Ok "handle_general"
  /\ route (PFloat 0.61%float) = Ok "fetch_news"
  /\ route (PFloat 0.59%float) = Ok "handle_general"
  /\ route (PFloat 1%float) = Ok "fetch_news"
  /\ route (PFloat nan) = Ok "handle_general"
  /\ route (PInt 1) = Ok "fetch_news"
  /\ route (PInt 0) = Ok "handle_general".
Proof. repeat split. Qed.

(** C4.  For a news result, the router after FetchNews answers web_search
    exactly when the status is error or fewer than three articles came
    back, and generate_response otherwise; a success with three or more
    articles goes straight to generate_response. *)
Theorem should_add_web_search_iff (st : GraphState) (nr : NewsResult) :
  news_results st = Some nr ->
  (Graph.should_add_web_search st = Ok "web_search"
   <-> news_status nr = "error" \/ List.length (news_articles nr) < 3)
  /\ (Graph.should_add_web_search st = Ok "generate_response"
      <-> ~ (news_status nr = "error" \/ List.length (news_articles nr) < 3))
  /\ (news_status nr = "success" -> 3 <= List.length (news_articles nr) ->
      Graph.should_add_web_search st = Ok "generate_response").
Proof.
  intros Hn. unfold Graph.should_add_web_search. rewrite Hn.
  destruct (String.eqb_spec (news_status nr) "error") as [He|He].
  - split; [|split].
    + split; [intros _; now left | reflexivity].
    + split; [discriminate | intros H; exfalso; apply H; now left].
    + intros Hs. rewrite Hs in He. discriminate.
  - destruct (Nat.ltb_spec (List.length (news_articles nr)) 3) as [Hl|Hl].
    + split; [|split].
      * split; [intros _; now right | reflexivity].
      * split; [discriminate | intros H; exfalso; apply H; now right].
      * intros _ H3. lia.
    + split; [|split].
      * split; [discriminate | intros [H|H]; [contradiction | lia]].
      * split; [intros _ [H|H]; [contradiction | lia] | reflexivity].
      * reflexivity.
Qed.

Lemma should_add_web_search_iff_witness :
  let nr := Sample.news_ok (map Sample.article ["1"; "2"; "3"]) in
  let st := set_news_results nr Sample.empty_state in
  Graph.should_add_web_search st = Ok "generate_response".
Proof.
  intros nr st.
  apply (proj2 (proj2 (should_add_web_search_iff st nr eq_refl)));
    [reflexivity | simpl; lia].
Defined.

(** The cases the specification lists: a success with 0, 1 or 2 articles
    calls for the web search, one with 3 does not, an error always does. *)
Example should_add_web_search_counts :
  let route nr :=
    Graph.should_add_web_search (set_news_results nr Sample.empty_state) in
  route (Sample.news_ok []) = Ok "web_search"
  /\ route (Sample.news_ok (map Sample.article ["1"])) = Ok "web_search"
  /\ route (Sample.news_ok (map Sample.article ["1"; "2"])) = Ok "web_search"
  /\ route (Sample.news_ok (map Sample.article ["1"; "2"; "3"]))
     = Ok "generate_response"
  /\ route Sample.news_error = Ok "web_search".
Proof. repeat split. Qed.

(* ===================================================================== *)
(** ** The context block of generate_response_node *)
(* ===================================================================== *)

(** Once a news result dict is in the state, whatever its status, the web
    results add nothing to the context. *)
Lemma web_context_parts_after_news (nr : NewsResult) wr :
  Nodes.web_context_parts (Some nr) wr = [].
Proof.
  unfold Nodes.web_context_parts. destruct wr as [wr|]; [|reflexivity].
  destruct (String.eqb _ _); [|reflexivity].
  now rewrite andb_false_r.
Qed.

Lemma build_context_ignores_web (nr : NewsResult) wr :
  Nodes.build_context (Some nr) wr = Nodes.build_context (Some nr) None.
Proof.
  unfold Nodes.build_context. now rewrite web_context_parts_after_news.
Qed.

Lemma build_context_news (nr : NewsResult) wr :
  news_status nr = "success" -> news_articles nr <> [] ->
  Nodes.build_context (Some nr) wr = news_only_context (news_articles nr).
Proof.
  intros Hs Ha. rewrite build_context_ignores_web.
  unfold Nodes.build_context, Nodes.news_context_parts. rewrite Hs. simpl.
  destruct (news_articles nr) as [|a l]; [contradiction|].
  rewrite app_nil_r. reflexivity.
Qed.

(** Only when no news result dict is in the state at all do the web
    results make the context. *)
Lemma build_context_web (wr : WebResult) :
  ws_status wr = "success" -> ws_results wr <> [] ->
  Nodes.build_context None (Some wr) = web_only_context (ws_results wr).
Proof.
  intros Hs Hr. unfold Nodes.build_context, Nodes.web_context_parts.
  rewrite Hs. simpl. destruct (ws_results wr) as [|w l]; [contradiction|].
  reflexivity.
Qed.

Lemma news_only_context_first_five (articles : list Article) :
  news_only_context articles = news_only_context (firstn 5 articles).
Proof.
  unfold news_only_context. now rewrite firstn_firstn.
Qed.

(* ===================================================================== *)
(** ** The singletons *)
(* ===================================================================== *)

Ltac unfold_monad :=
  unfold bind, ret, raise, lift, ask, try_except, modify_state, get_state,
    set_chatbot_agent, set_news_fetcher, set_web_search_tool in *.

Section Singletons.
Variable W : World.

Lemma get_chatbot_agent_eq (s : Store) :
  Nodes.get_chatbot_agent W s
  = if chatbot_agent s then (Ok tt, s)
    else match new_ChatOpenAI W (calls s) with
         | Ok _ =>
             (Ok tt,
              mk_store true (news_fetcher s) (web_search_tool s)
                (calls s ++ [CallChatOpenAI])%list (state s))
         | Raise e => (Raise e, log_call CallChatOpenAI s)
         end.
Proof.
  unfold Nodes.get_chatbot_agent, NewsGenieAgent.__init__. unfold_monad.
  destruct (chatbot_agent s); [reflexivity|].
  destruct (new_ChatOpenAI W (calls s)); reflexivity.
Qed.

Lemma get_news_fetcher_eq (s : Store) :
  Nodes.get_news_fetcher W s
  = if news_fetcher s then (Ok tt, s)
    else if PyStr.truthy (news_api_key W)
    then match new_NewsApiClient W (calls s) with
         | Ok _ =>
             (Ok tt,
              mk_store (chatbot_agent s) true (web_search_tool s)
                (calls s ++ [CallNewsApiClient])%list (state s))
         | Raise e => (Raise e, log_call CallNewsApiClient s)
         end
    else (Raise (mk_exn "ValueError"
                   "NEWS_API_KEY not found in environment variables"), s).
Proof.
  unfold Nodes.get_news_fetcher, NewsFetcher.__init__. unfold_monad.
  destruct (news_fetcher s); [reflexivity|].
  destruct (PyStr.truthy (news_api_key W)); simpl; [|reflexivity].
  unfold_monad. destruct (new_NewsApiClient W (calls s)); reflexivity.
Qed.

(** Getting a singleton never touches the state dict. *)
Lemma get_chatbot_agent_state (s : Store) :
  state (snd (Nodes.get_chatbot_agent W s)) = state s.
Proof.
  rewrite get_chatbot_agent_eq. destruct (chatbot_agent s); [reflexivity|].
  destruct (new_ChatOpenAI W (calls s)); reflexivity.
Qed.

Lemma get_news_fetcher_state (s : Store) :
  state (snd (Nodes.get_news_fetcher W s)) = state s.
Proof.
  rewrite get_news_fetcher_eq. destruct (news_fetcher s); [reflexivity|].
  destruct (PyStr.truthy (news_api_key W)); [|reflexivity].
  destruct (new_NewsApiClient W (calls s)); reflexivity.
Qed.

End Singletons.

(* ===================================================================== *)
(** ** generate_response_node *)
(* ===================================================================== *)

Section Respond.
Variable W : World.

(** What the node does, spelled out: with an agent at hand it asks the
    model once, with the enhanced input, and stores the answer (or the
    apology of [chat]); without one it stores the error and the apology. *)
Lemma generate_response_node_eq (s : Store) :
  Nodes.generate_response_node W s
  = match Nodes.get_chatbot_agent W s with
    | (Ok _, s1) =>
        let st := state s1 in
        let input :=
          Nodes.enhanced_input
            (Nodes.build_context (news_results st) (web_search_results st))
            (user_input st) in
        let history := NewsGenieAgent.format_chat_history (chat_history st) in
        let response :=
          match chain_invoke W (calls s1) input history with
          | Ok r => r
          | Raise e => apology e
          end in
        (Ok tt,
         with_state (set_final_response response st)
           (log_call (CallChainInvoke input history) s1))
    | (Raise e, s1) =>
        (Ok tt,
         with_state
           (set_final_response (apology e)
              (set_error ("Response generation error: " ++ exn_str e)
                 (state s1)))
           s1)
    end.
Proof.
  unfold Nodes.generate_response_node, Nodes.generate_response_body,
    NewsGenieAgent.chat.
  unfold_monad.
  destruct (Nodes.get_chatbot_agent W s) as [[[]|e] s1]; [|reflexivity].
  cbn [calls log_call state].
  destruct (chain_invoke W (calls s1) _ _); reflexivity.
Qed.

(** The body raises only when no agent can be had. *)
Lemma generate_response_body_raises (s : Store) e s1 :
  Nodes.generate_response_body W s = (Raise e, s1) <->
  Nodes.get_chatbot_agent W s = (Raise e, s1).
Proof.
  unfold Nodes.generate_response_body, NewsGenieAgent.chat. unfold_monad.
  destruct (Nodes.get_chatbot_agent W s) as [[[]|e'] s']; cbn [calls log_call state].
  - destruct (chain_invoke W (calls s') _ _); split; discriminate.
  - reflexivity.
Qed.

End Respond.

(** The node sends the same question and leaves the same answer whether
    or not web results sit next to a news result dict. *)
Lemma generate_response_node_ignores_web (W : World) (s : Store) nr :
  news_results (state s) = Some nr ->
  let out := Nodes.generate_response_node W s in
  let out' :=
    Nodes.generate_response_node W
      (with_state (clear_web_search_results (state s)) s) in
  fst out = fst out'
  /\ calls (snd out) = calls (snd out')
  /\ final_response (state (snd out)) = final_response (state (snd out'))
  /\ error (state (snd out)) = error (state (snd out')).
Proof.
  intros Hn. cbv zeta. rewrite !generate_response_node_eq.
  rewrite !get_chatbot_agent_eq. cbn [chatbot_agent with_state calls].
  destruct (chatbot_agent s).
  - cbn [state with_state clear_web_search_results news_results
           web_search_results user_input chat_history].
    rewrite Hn, (build_context_ignores_web nr (web_search_results (state s))).
    cbn. repeat split.
  - destruct (new_ChatOpenAI W (calls s)).
    + cbn [state with_state clear_web_search_results news_results
             web_search_results user_input chat_history].
      rewrite Hn,
        (build_context_ignores_web nr (web_search_results (state s))).
      cbn. repeat split.
    + cbn. repeat split.
Qed.

(** C5.  With a successful, non-empty news result and a successful,
    non-empty web result both in the state, the context block is built from
    the news alone: the heading and the first five articles at most.  It is
    the block that would be built with no web result at all, and the node
    asks the model that same question: no web-derived content reaches the
    Responder. *)
Theorem context_news_suppresses_web
    (W : World) (s : Store) (nr : NewsResult) (wr : WebResult) :
  news_results (state s) = Some nr ->
  web_search_results (state s) = Some wr ->
  news_status nr = "success" -> news_articles nr <> [] ->
  ws_status wr = "success" -> ws_results wr <> [] ->
  let context := Nodes.build_context (Some nr) (Some wr) in
  context = news_only_context (firstn 5 (news_articles nr))
  /\ context = Nodes.build_context (Some nr) None
  /\ List.length (firstn 5 (news_articles nr)) <= 5
  /\ (forall s1,
        Nodes.get_chatbot_agent W s = (Ok tt, s1) ->
        calls (snd (Nodes.generate_response_node W s))
        = (calls s1 ++
           [CallChainInvoke
              (Nodes.enhanced_input context (user_input (state s)))
              (NewsGenieAgent.format_chat_history (chat_history (state s)))])
          %list)
  /\ (let out := Nodes.generate_response_node W s in
      let out' :=
        Nodes.generate_response_node W
          (with_state (clear_web_search_results (state s)) s) in
      fst out = fst out'
      /\ calls (snd out) = calls (snd out')
      /\ final_response (state (snd out)) = final_response (state (snd out'))
      /\ error (state (snd out)) = error (state (snd out'))).
Proof.
  intros Hn Hw Hs Ha Hws Hwr context. subst context.
  split; [|split; [|split; [|split]]].
  - rewrite (build_context_news nr (Some wr) Hs Ha).
    apply news_only_context_first_five.
  - apply build_context_ignores_web.
  - apply firstn_le_length.
  - intros s1 Hag. rewrite generate_response_node_eq, Hag.
    pose proof (get_chatbot_agent_state W s) as Hst. rewrite Hag in Hst.
    simpl in Hst. cbn [snd calls with_state log_call]. rewrite Hst, Hn, Hw.
    reflexivity.
  - exact (generate_response_node_ignores_web W s nr Hn).
Qed.

Lemma context_news_suppresses_web_witness :
  let nr := Sample.news_ok (map Sample.article ["1"; "2"; "3"; "4"; "5"; "6"]) in
  let wr := Sample.web_ok [Sample.web_item "a"; Sample.web_item "b"] in
  Nodes.build_context (Some nr) (Some wr)
  = news_only_context (map Sample.article ["1"; "2"; "3"; "4"; "5"]).
Proof.
  intros nr wr.
  pose (st := set_web_search_results wr
                (set_news_results nr Sample.empty_state)).
  refine (proj1 (context_news_suppresses_web Sample.healthy
                   (with_state st Sample.fresh) nr wr
                   eq_refl eq_refl eq_refl _ eq_refl _));
    discriminate.
Defined.

(** A news result that is an error, or that has no article, next to a
    successful, non-empty web result: the context block is empty and the
    node asks the model the bare query.  The test [not news_results] looks
    at the dict, which has keys whatever its status. *)
Lemma web_context_dropped_after_failed_news
    (W : World) (s : Store) (nr : NewsResult) (wr : WebResult) :
  news_results (state s) = Some nr ->
  web_search_results (state s) = Some wr ->
  news_status nr = "error" \/ news_articles nr = [] ->
  ws_status wr = "success" -> ws_results wr <> [] ->
  Nodes.build_context (Some nr) (Some wr) = EmptyString
  /\ Nodes.build_context (Some nr) (Some wr)
     <> web_only_context (ws_results wr)
  /\ (forall s1,
        Nodes.get_chatbot_agent W s = (Ok tt, s1) ->
        calls (snd (Nodes.generate_response_node W s))
        = (calls s1 ++
           [CallChainInvoke (user_input (state s))
              (NewsGenieAgent.format_chat_history (chat_history (state s)))])
          %list).
Proof.
  intros Hn Hw Hbad Hws Hwr.
  assert (Hctx : Nodes.build_context (Some nr) (Some wr) = EmptyString).
  { rewrite build_context_ignores_web.
    unfold Nodes.build_context, Nodes.news_context_parts.
    destruct Hbad as [He|He]; rewrite He.
    - reflexivity.
    - destruct (String.eqb _ _); reflexivity. }
  split; [exact Hctx|split].
  - rewrite Hctx. unfold web_only_context, PyStr.join. cbn [String.concat].
    destruct (map _ _); discriminate.
  - intros s1 Hag. rewrite generate_response_node_eq, Hag.
    pose proof (get_chatbot_agent_state W s) as Hst. rewrite Hag in Hst.
    simpl in Hst. cbn [snd calls with_state log_call]. rewrite Hst, Hn, Hw.
    rewrite Hctx. reflexivity.
Qed.

(** Two articles are too few for the router, which sends the run through
    the web search; the web search succeeds with two pages; and the context
    block is the news block: it has neither the heading of the web part
    nor any of the web items. *)
Lemma few_articles_keep_web_out :
  let nr := Sample.news_ok (map Sample.article ["1"; "2"]) in
  let wr := Sample.web_ok (map Sample.web_item ["a"; "b"]) in
  let st := set_web_search_results wr
              (set_news_results nr Sample.empty_state) in
  let context :=
    Nodes.build_context (news_results st) (web_search_results st) in
  Graph.should_add_web_search st = Ok "web_search"
  /\ context = news_only_context (map Sample.article ["1"; "2"])
  /\ PyStr.contains "**Additional Information:**" context = false
  /\ PyStr.contains "Page a" context = false
  /\ PyStr.contains "Snippet a" context = false
  /\ PyStr.contains "https://web.example/a" context = false
  /\ context <> web_only_context (ws_results wr).
Proof.
  cbv zeta. repeat split; try (vm_compute; reflexivity).
  vm_compute. discriminate.
Qed.

(** A whole run with NewsAPI unreachable: the router sends the run through
    the web search, which finds two pages, and the model is then asked the
    bare query. *)
Example run_with_news_down :
  let out := Graph.run_workflow Sample.news_down "latest sports news" None
               Sample.fresh in
  (exists st,
      fst out = Ok st
      /\ option_map news_status (news_results st) = Some "error"
      /\ option_map ws_status (web_search_results st) = Some "success"
      /\ option_map (fun r => List.length (ws_results r))
           (web_search_results st) = Some 2
      /\ final_response st = "Answer to: latest sports news")
  /\ calls (snd out)
     = [ CallChatOpenAI;
         CallLlmInvoke
           (NewsGenieAgent.classification_prompt "latest sports news");
         CallNewsApiClient;
         CallTopHeadlines (Some "sports") "us" 10;
         CallDDGS;
         CallDdgsText "latest sports news" "wt-wt" 5;
         CallChainInvoke "latest sports news" [] ].
Proof.
  cbv zeta. split; [eexists; split; [vm_compute; reflexivity|]|].
  - repeat split.
  - vm_compute. reflexivity.
Qed.

(* ===================================================================== *)
(** ** classify_query *)
(* ===================================================================== *)

(** The model's text loses its fence before it is parsed. *)
Example strip_code_fence_examples :
  let fence := "```" in
  let body := "{ }" in
  NewsGenieAgent.strip_code_fence
    (fence ++ "json" ++ PyStr.nl ++ body ++ PyStr.nl ++ fence) = body
  /\ NewsGenieAgent.strip_code_fence
       ("  " ++ fence ++ PyStr.nl ++ body ++ PyStr.nl ++ fence ++ PyStr.nl)
     = body
  /\ NewsGenieAgent.strip_code_fence (" " ++ body ++ PyStr.nl) = body.
Proof. cbv zeta. repeat split; vm_compute; reflexivity. Qed.

(** What [classify_query] returns, case by case; it logs the one call to
    the model and nothing else. *)
Lemma classify_query_eq (W : World) (query : string) (s : Store) :
  NewsGenieAgent.classify_query W query s
  = (Ok (match llm_invoke W (calls s)
                 (NewsGenieAgent.classification_prompt query) with
         | Raise _ => NewsGenieAgent.default_classification
         | Ok text =>
             match json_loads W (NewsGenieAgent.strip_code_fence text) with
             | Raise _ => NewsGenieAgent.default_classification
             | Ok r => r
             end
         end),
     log_call (CallLlmInvoke (NewsGenieAgent.classification_prompt query)) s).
Proof.
  unfold NewsGenieAgent.classify_query. unfold_monad.
  destruct (llm_invoke W (calls s) _) as [text|e]; [|reflexivity].
  destruct (json_loads W _); reflexivity.
Qed.



(* ===================================================================== *)
(** ** A run whose Classify stage fails *)
(* ===================================================================== *)

(** One step of the executor. *)
Lemma exec_step (g : Graph.StateGraph) (fuel : nat) (n : Graph.NodeName)
    (st : GraphState) :
  Graph.exec g (S fuel) n st
  = (st' <- Graph.run_node (Graph.nodes g n) st ;;
     match Graph.edges g n with
     | Graph.Edge Graph.END => ret st'
     | Graph.Edge (Graph.Goto n') => Graph.exec g fuel n' st'
     | Graph.ConditionalEdges path path_map =>
         r <- lift (path st') ;;
         match Graph.path_lookup r path_map with
         | Some n' => Graph.exec g fuel n' st'
         | None => raise (mk_exn "KeyError" ("'" ++ r ++ "'"))
         end
     end)%py.
Proof. reflexivity. Qed.

Section ClassifyFails.
Variable W : World.

(** Without an agent the Classify stage records the error and leaves the
    classification as it was. *)
Lemma classify_query_node_without_agent (s : Store) (e : exn) :
  chatbot_agent s = false ->
  new_ChatOpenAI W (calls s) = Raise e ->
  Nodes.classify_query_node W s
  = (Ok tt,
     with_state (set_error ("Classification error: " ++ exn_str e) (state s))
       (log_call CallChatOpenAI s)).
Proof.
  intros Hag He.
  unfold Nodes.classify_query_node, Nodes.classify_query_body.
  unfold try_except, bind at 1.
  rewrite get_chatbot_agent_eq, Hag. cbn [chatbot_agent with_state calls].
  rewrite He. reflexivity.
Qed.

(** The router after Classify cannot read a classification that is no
    dict. *)
Lemma should_fetch_news_not_a_dict (st : GraphState) :
  (forall d, query_classification st <> PDict d) ->
  Graph.should_fetch_news st
  = Raise (Py.AttributeError (query_classification st) "get").
Proof.
  intros H. unfold Graph.should_fetch_news.
  destruct (query_classification st); try reflexivity.
  now contradiction (H d).
Qed.

End ClassifyFails.

(** The Classify stage when the model's JSON is not an object: the value
    is stored, reading its confidence raises, and the stage records the
    error. *)
Lemma classify_query_node_not_a_dict
    (W : World) (s s1 : Store) (text : string) (v : pyval) :
  Nodes.get_chatbot_agent W s = (Ok tt, s1) ->
  llm_invoke W (calls s1)
    (NewsGenieAgent.classification_prompt (user_input (state s))) = Ok text ->
  json_loads W (NewsGenieAgent.strip_code_fence text) = Ok v ->
  (forall d, v <> PDict d) ->
  Nodes.classify_query_node W s
  = (Ok tt,
     with_state
       (set_error
          ("Classification error: " ++ exn_str (Py.AttributeError v "get"))
          (set_query_classification v (state s)))
       (log_call
          (CallLlmInvoke
             (NewsGenieAgent.classification_prompt (user_input (state s))))
          s1)).
Proof.
  intros Hag Hllm Hjson Hv. pose proof (get_chatbot_agent_state W s) as Hst.
  rewrite Hag in Hst. simpl in Hst.
  unfold Nodes.classify_query_node, Nodes.classify_query_body.
  unfold try_except. unfold bind at 1. rewrite Hag.
  unfold bind at 1, get_state. rewrite Hst.
  unfold bind at 1. rewrite classify_query_eq, Hllm, Hjson.
  unfold bind at 1, modify_state. cbn [state log_call with_state].
  unfold bind at 1, lift.
  assert (Hget : Py.get v "confidence" (PFloat 0%float)
                 = Raise (Py.AttributeError v "get")).
  { destruct v; try reflexivity. now contradiction (Hv d). }
  rewrite Hget, Hst. reflexivity.
Qed.

(** C2.  What the code does in the case the claim singles out: the
    Classify stage catches an exception and leaves the classification
    null.  That happens when the OpenAI client cannot be built, and when
    the model answers with JSON that is no object (the text null gives
    None).  The stage itself returns, with the error set; the router that
    follows then raises AttributeError, and [run_workflow] lets it through
    instead of going on to the general-query path and returning a terminal
    state. *)
Theorem run_workflow_raises_after_failed_classify
    (W : World) (user_input : string) (chat_history : option (list Turn))
    (s : Store) :
  let initial_state :=
    mk_state user_input
      (match chat_history with None => [] | Some h => h end)
      PNone None None EmptyString None [] in
  (forall e,
      chatbot_agent s = false ->
      new_ChatOpenAI W (calls s) = Raise e ->
      (exists st1 s1,
          Graph.run_node (Nodes.classify_query_node W) initial_state s
          = (Ok st1, s1)
          /\ query_classification st1 = PNone
          /\ error st1 = Some ("Classification error: " ++ exn_str e))
      /\ fst (Graph.run_workflow W user_input chat_history s)
         = Raise (mk_exn "AttributeError"
                    "'NoneType' object has no attribute 'get'"))
  /\ (forall s1 text v,
        Nodes.get_chatbot_agent W (with_state initial_state s) = (Ok tt, s1) ->
        llm_invoke W (calls s1)
          (NewsGenieAgent.classification_prompt user_input) = Ok text ->
        json_loads W (NewsGenieAgent.strip_code_fence text) = Ok v ->
        (forall d, v <> PDict d) ->
        (exists st1 s2,
            Graph.run_node (Nodes.classify_query_node W) initial_state s
            = (Ok st1, s2)
            /\ query_classification st1 = v
            /\ error st1
               = Some ("Classification error: '" ++ Py.type_name v
                       ++ "' object has no attribute 'get'"))
        /\ fst (Graph.run_workflow W user_input chat_history s)
           = Raise (mk_exn "AttributeError"
                      ("'" ++ Py.type_name v
                       ++ "' object has no attribute 'get'"))).
Proof.
  intros initial_state. split.
  - intros e Hag He. split.
    + unfold Graph.run_node.
      rewrite (classify_query_node_without_agent W _ e);
        [|exact Hag|exact He].
      eexists _, _. split; [reflexivity|]. split; reflexivity.
    + unfold Graph.run_workflow, Graph.invoke, Graph.recursion_limit.
      rewrite exec_step.
      cbn [Graph.entry_point Graph.create_workflow Graph.nodes Graph.edges].
      unfold bind at 1. unfold Graph.run_node.
      rewrite (classify_query_node_without_agent W _ e);
        [|exact Hag|exact He].
      unfold bind, lift.
      rewrite should_fetch_news_not_a_dict; [reflexivity|].
      intros d. discriminate.
  - intros s1 text v Hag Hllm Hjson Hv.
    pose proof (classify_query_node_not_a_dict W
                  (with_state initial_state s) s1 text v Hag Hllm Hjson Hv)
      as Hnode.
    split.
    + unfold Graph.run_node. rewrite Hnode.
      eexists _, _. split; [reflexivity|]. split; reflexivity.
    + unfold Graph.run_workflow, Graph.invoke, Graph.recursion_limit.
      rewrite exec_step.
      cbn [Graph.entry_point Graph.create_workflow Graph.nodes Graph.edges].
      unfold bind at 1. unfold Graph.run_node.
      fold initial_state. rewrite Hnode.
      unfold bind, lift.
      rewrite should_fetch_news_not_a_dict; [reflexivity|].
      exact Hv.
Qed.

Lemma run_workflow_raises_after_failed_classify_witness :
  fst (Graph.run_workflow Sample.no_openai "How do I learn Python?" None
         Sample.fresh)
  = Raise (mk_exn "AttributeError"
             "'NoneType' object has no attribute 'get'")
  /\ fst (Graph.run_workflow Sample.null_llm "How do I learn Python?" None
            Sample.fresh)
     = Raise (mk_exn "AttributeError"
                "'NoneType' object has no attribute 'get'").
Proof.
  split.
  - exact (proj2 (proj1 (run_workflow_raises_after_failed_classify
                           Sample.no_openai "How do I learn Python?" None
                           Sample.fresh)
                    (mk_exn "OpenAIError"
                       "The api_key client option must be set")
                    eq_refl eq_refl)).
  - refine (proj2 (proj2 (run_workflow_raises_after_failed_classify
                            Sample.null_llm "How do I learn Python?" None
                            Sample.fresh)
                     _ "null" PNone eq_refl eq_refl eq_refl _)).
    intros d. discriminate.
Defined.

(* ===================================================================== *)
(** ** The two tools *)
(* ===================================================================== *)

Section Tools.
Variable W : World.

(** [get_top_headlines] makes one call and always returns a result dict. *)
Lemma get_top_headlines_eq (category : option string) (country : string)
    (page_size : option Z) (s : Store) :
  let size := or_default page_size Settings.news_api_page_size in
  NewsFetcher.get_top_headlines W category country page_size s
  = (Ok (match client_get_top_headlines W (calls s) category country size with
         | Raise e =>
             mk_news_result "error" None []
               ("Failed to fetch top headlines: " ++ exn_str e)
         | Ok response =>
             match NewsFetcher._format_response response with
             | Ok r => r
             | Raise e =>
                 mk_news_result "error" None []
                   ("Failed to fetch top headlines: " ++ exn_str e)
             end
         end),
     log_call (CallTopHeadlines category country size) s).
Proof.
  unfold NewsFetcher.get_top_headlines, NewsFetcher.page_size_default.
  unfold_monad. cbv zeta.
  destruct (client_get_top_headlines W (calls s) _ _ _) as [response|e];
    [|reflexivity].
  destruct (NewsFetcher._format_response response); reflexivity.
Qed.

(** [search_news] without dates reads the clock twice, makes one call and
    always returns a result dict. *)
Lemma search_news_eq (query language sort_by : string)
    (page_size : option Z) (s : Store) :
  let size := or_default page_size Settings.news_api_page_size in
  let s1 := log_call CallNow s in
  let s2 := log_call CallNow s1 in
  let from_day := (datetime_now W (calls s) - 7)%Z in
  let to_day := datetime_now W (calls s1) in
  NewsFetcher.search_news W query None None language sort_by page_size s
  = (Ok (match client_get_everything W (calls s2) query from_day to_day
                 language sort_by size with
         | Raise e =>
             mk_news_result "error" None []
               ("Failed to search news: " ++ exn_str e)
         | Ok response =>
             match NewsFetcher._format_response response with
             | Ok r => r
             | Raise e =>
                 mk_news_result "error" None []
                   ("Failed to search news: " ++ exn_str e)
             end
         end),
     log_call (CallEverything query from_day to_day language sort_by size)
       s2).
Proof.
  unfold NewsFetcher.search_news, NewsFetcher.page_size_default.
  unfold_monad. cbv zeta. cbn [calls log_call].
  destruct (client_get_everything W _ _ _ _ _ _ _) as [response|e];
    [|reflexivity].
  destruct (NewsFetcher._format_response response); reflexivity.
Qed.

End Tools.

(** C9.  When DuckDuckGo completes and yields no hit, [search] returns
    the dict with status success, an empty result list, total_results 0
    and the message No results found. *)
Theorem search_without_hits_is_success
    (W : World) (query : string) (max_results : option Z) (region : string)
    (s : Store) :
  ddgs_text W (calls s) query region
    (or_default max_results WebSearchTool.max_results_default) = Ok [] ->
  fst (WebSearchTool.search W query max_results region s)
  = Ok (mk_web_result "success" (Some query) (Some 0) [] "No results found")
  /\ WebSearchTool._format_response [] query
     = Ok (mk_web_result "success" (Some query) (Some 0) []
             "No results found")
  /\ (forall r,
        fst (WebSearchTool.search W query max_results region s) = Ok r ->
        ws_status r = "success" /\ ws_status r <> "error"
        /\ ws_results r = [] /\ ws_total_results r = Some 0
        /\ ws_message r = "No results found").
Proof.
  intros Hd.
  assert (Hs : fst (WebSearchTool.search W query max_results region s)
               = Ok (mk_web_result "success" (Some query) (Some 0) []
                       "No results found")).
  { unfold WebSearchTool.search. unfold_monad. cbv zeta.
    rewrite Hd. reflexivity. }
  split; [exact Hs|split; [reflexivity|]].
  intros r Hr. rewrite Hs in Hr. injection Hr as <-. cbn.
  repeat split. discriminate.
Qed.

Lemma search_without_hits_is_success_witness :
  fst (WebSearchTool.search Sample.no_hits "quantum knitting" (Some 5%Z)
         "wt-wt" Sample.fresh)
  = Ok (mk_web_result "success" (Some "quantum knitting") (Some 0) []
          "No results found").
Proof.
  exact (proj1 (search_without_hits_is_success Sample.no_hits
                  "quantum knitting" (Some 5%Z) "wt-wt" Sample.fresh
                  eq_refl)).
Defined.

(** C10.  A category whose lowercased form is not among the seven
    configured ones gets the error dict, with no article and the message
    that lists the valid options, and nothing is fetched: the store, log
    included, is unchanged.  A valid category, in any letter case, is
    handed to [get_top_headlines] lowercased. *)
Theorem get_news_by_category_validates
    (W : World) (category country : string) (s : Store) :
  (~ In (PyStr.lower category) Settings.news_categories ->
   NewsFetcher.get_news_by_category W category country s
   = (Ok (mk_news_result "error" None []
            "Invalid category. Valid options: general, business, technology, entertainment, health, science, sports"),
      s))
  /\ (In (PyStr.lower category) Settings.news_categories ->
      NewsFetcher.get_news_by_category W category country s
      = NewsFetcher.get_top_headlines W (Some (PyStr.lower category)) country
          None s).
Proof.
  unfold NewsFetcher.get_news_by_category. split; intros H.
  - assert (Hm : PyStr.mem (PyStr.lower category) Settings.news_categories
                 = false).
    { destruct (PyStr.mem _ _) eqn:E; [|reflexivity].
      apply mem_iff_In in E. contradiction. }
    rewrite Hm. reflexivity.
  - apply mem_iff_In in H. rewrite H. reflexivity.
Qed.

Lemma get_news_by_category_validates_witness :
  NewsFetcher.get_news_by_category Sample.healthy "Politics" "us"
    Sample.fresh
  = (Ok (mk_news_result "error" None []
           "Invalid category. Valid options: general, business, technology, entertainment, health, science, sports"),
     Sample.fresh)
  /\ NewsFetcher.get_news_by_category Sample.healthy "SPORTS" "us"
       Sample.fresh
     = NewsFetcher.get_top_headlines Sample.healthy (Some "sports") "us" None
         Sample.fresh.
Proof.
  split.
  - apply (proj1 (get_news_by_category_validates Sample.healthy "Politics"
                    "us" Sample.fresh)).
    simpl. intuition discriminate.
  - apply (proj2 (get_news_by_category_validates Sample.healthy "SPORTS"
                    "us" Sample.fresh)).
    simpl. intuition.
Defined.

(* ===================================================================== *)
(** ** fetch_news_node *)
(* ===================================================================== *)

(** The configured categories are lowercase and non-empty. *)
Lemma news_categories_plain (c : string) :
  In c Settings.news_categories ->
  PyStr.lower c = c /\ PyStr.truthy c = true
  /\ PyStr.mem c Settings.news_categories = true.
Proof.
  intros H. assert (Hm := proj2 (mem_iff_In c _) H). simpl in H.
  repeat (destruct H as [<-|H]; [repeat split; exact Hm|]).
  contradiction.
Qed.

(** Either some category occurs in the query, or none does. *)
Lemma first_category_cases (categories : list string) (q : string) :
  (exists pre cat post,
      categories = (pre ++ cat :: post)%list
      /\ occurs_in cat q
      /\ (forall c, In c pre -> ~ occurs_in c q))
  \/ (forall c, In c categories -> ~ occurs_in c q).
Proof.
  induction categories as [|c r IH].
  - right. intros c [].
  - destruct (PyStr.contains c q) eqn:E.
    + left. exists [], c, r. split; [reflexivity|]. split.
      * now apply contains_iff_occurs.
      * intros c' [].
    + apply contains_false_iff in E. destruct IH as [[pre [cat [post H]]]|H].
      * left. exists (c :: pre), cat, post. destruct H as [-> [Hc Hp]].
        split; [reflexivity|]. split; [exact Hc|].
        intros c' [<-|Hin]; [exact E | now apply Hp].
      * right. intros c' [<-|Hin]; [exact E | now apply H].
Qed.

Section FetchNews.
Variable W : World.

(** The body raises only when no fetcher can be had, and then the state
    dict is untouched. *)
Lemma fetch_news_body_raises (s : Store) e s1 :
  Nodes.fetch_news_body W s = (Raise e, s1) ->
  Nodes.get_news_fetcher W s = (Raise e, s1) /\ state s1 = state s.
Proof.
  intros H. pose proof (get_news_fetcher_state W s) as Hst.
  unfold Nodes.fetch_news_body in H. unfold bind at 1 in H.
  destruct (Nodes.get_news_fetcher W s) as [[[]|e'] s'].
  - exfalso. unfold bind at 1, get_state in H. unfold bind, modify_state in H.
    destruct (match Nodes.first_category _ _ with
              | Some cat => PyStr.truthy cat
              | None => false
              end).
    + unfold NewsFetcher.get_news_by_category in H.
      destruct (negb _); [discriminate H|].
      rewrite get_top_headlines_eq in H. discriminate H.
    + rewrite search_news_eq in H. discriminate H.
  - injection H as <- <-. split; [reflexivity | exact Hst].
Qed.

Lemma fetch_news_node_by_category (s s1 : Store) (cat : string) :
  Nodes.get_news_fetcher W s = (Ok tt, s1) ->
  Nodes.first_category Settings.news_categories
    (PyStr.lower (user_input (state s))) = Some cat ->
  In cat Settings.news_categories ->
  exists results,
    NewsFetcher.get_news_by_category W cat "us" s1
    = (Ok results, log_call (CallTopHeadlines (Some cat) "us" 10) s1)
    /\ Nodes.fetch_news_node W s
       = (Ok tt,
          with_state (set_news_results results (state s))
            (log_call (CallTopHeadlines (Some cat) "us" 10) s1)).
Proof.
  intros Hf Hc Hin. pose proof (get_news_fetcher_state W s) as Hst.
  rewrite Hf in Hst. simpl in Hst.
  destruct (news_categories_plain cat Hin) as [Hl [Ht Hm]].
  assert (Hcat : NewsFetcher.get_news_by_category W cat "us" s1
                 = NewsFetcher.get_top_headlines W (Some cat) "us" None s1).
  { unfold NewsFetcher.get_news_by_category. rewrite Hl, Hm. reflexivity. }
  rewrite Hcat, get_top_headlines_eq. cbv zeta.
  change (or_default None Settings.news_api_page_size) with 10%Z.
  eexists. split; [reflexivity|].
  unfold Nodes.fetch_news_node, Nodes.fetch_news_body.
  unfold try_except. unfold bind at 1. rewrite Hf.
  unfold bind at 1, get_state. rewrite Hst, Hc, Ht.
  unfold bind. rewrite Hcat, get_top_headlines_eq. cbv zeta.
  change (or_default None Settings.news_api_page_size) with 10%Z.
  unfold modify_state. cbn [state log_call with_state calls chatbot_agent
                              news_fetcher web_search_tool].
  rewrite Hst. reflexivity.
Qed.

Lemma fetch_news_node_by_search (s s1 : Store) :
  Nodes.get_news_fetcher W s = (Ok tt, s1) ->
  Nodes.first_category Settings.news_categories
    (PyStr.lower (user_input (state s))) = None ->
  let query := user_input (state s) in
  exists results s2,
    NewsFetcher.search_news W query None None "en" "publishedAt" (Some 5%Z) s1
    = (Ok results, s2)
    /\ calls s2
       = (calls s1 ++
          [ CallNow; CallNow;
            CallEverything query (datetime_now W (calls s1) - 7)
              (datetime_now W (calls s1 ++ [CallNow])) "en" "publishedAt"
              5 ])%list
    /\ Nodes.fetch_news_node W s
       = (Ok tt, with_state (set_news_results results (state s)) s2).
Proof.
  intros Hf Hc query. pose proof (get_news_fetcher_state W s) as Hst.
  rewrite Hf in Hst. simpl in Hst. subst query.
  rewrite search_news_eq. cbv zeta.
  change (or_default (Some 5%Z) Settings.news_api_page_size) with 5%Z.
  eexists _, _. split; [reflexivity|]. split.
  - cbn [calls log_call]. rewrite <- !app_assoc. reflexivity.
  - unfold Nodes.fetch_news_node, Nodes.fetch_news_body.
    unfold try_except. unfold bind at 1. rewrite Hf.
    unfold bind at 1, get_state. rewrite Hst, Hc.
    unfold bind. rewrite search_news_eq. cbv zeta.
    change (or_default (Some 5%Z) Settings.news_api_page_size) with 5%Z.
    unfold modify_state. cbn [state log_call with_state calls chatbot_agent
                                news_fetcher web_search_tool].
    rewrite Hst. reflexivity.
Qed.

End FetchNews.

(** C8.  With a fetcher at hand, the FetchNews stage looks for the seven
    category words in the lowercased query, in the order of the settings.
    The first one that occurs decides: the fetch is the one by category,
    for that word (top headlines, country us, the default page size).
    When none occurs the fetch is the free-text search of the query as
    typed, page size 5.  One of the two cases always applies. *)
Theorem fetch_news_node_selects_category (W : World) (s s1 : Store) :
  Nodes.get_news_fetcher W s = (Ok tt, s1) ->
  let query := user_input (state s) in
  let query_lower := PyStr.lower query in
  Settings.news_categories
  = [ "general"; "business"; "technology"; "entertainment"; "health";
      "science"; "sports" ]
  /\ (forall pre cat post,
        Settings.news_categories = (pre ++ cat :: post)%list ->
        occurs_in cat query_lower ->
        (forall c, In c pre -> ~ occurs_in c query_lower) ->
        exists results,
          NewsFetcher.get_news_by_category W cat "us" s1
          = (Ok results, log_call (CallTopHeadlines (Some cat) "us" 10) s1)
          /\ Nodes.fetch_news_node W s
             = (Ok tt,
                with_state (set_news_results results (state s))
                  (log_call (CallTopHeadlines (Some cat) "us" 10) s1)))
  /\ ((forall c, In c Settings.news_categories -> ~ occurs_in c query_lower) ->
      exists results s2,
        NewsFetcher.search_news W query None None "en" "publishedAt"
          (Some 5%Z) s1
        = (Ok results, s2)
        /\ calls s2
           = (calls s1 ++
              [ CallNow; CallNow;
                CallEverything query (datetime_now W (calls s1) - 7)
                  (datetime_now W (calls s1 ++ [CallNow])) "en"
                  "publishedAt" 5 ])%list
        /\ Nodes.fetch_news_node W s
           = (Ok tt, with_state (set_news_results results (state s)) s2))
  /\ ((exists pre cat post,
          Settings.news_categories = (pre ++ cat :: post)%list
          /\ occurs_in cat query_lower
          /\ (forall c, In c pre -> ~ occurs_in c query_lower))
      \/ (forall c, In c Settings.news_categories ->
                    ~ occurs_in c query_lower)).
Proof.
  intros Hf query query_lower. split; [reflexivity|]. split; [|split].
  - intros pre cat post Hsplit Hcat Hpre.
    apply (fetch_news_node_by_category W s s1 cat Hf).
    + exact (first_category_first _ _ pre cat post Hsplit Hcat Hpre).
    + rewrite Hsplit. apply in_or_app. right. now left.
  - intros Hnone. apply (fetch_news_node_by_search W s s1 Hf).
    now apply first_category_none.
  - apply first_category_cases.
Qed.

Lemma fetch_news_node_selects_category_witness :
  let st :=
    mk_state "Latest TECHNOLOGY and Business news" [] PNone None None
      EmptyString None [] in
  let s := with_state st Sample.fresh in
  let s1 := mk_store false true false [CallNewsApiClient] st in
  exists results,
    Nodes.fetch_news_node Sample.healthy s
    = (Ok tt,
       with_state (set_news_results results st)
         (log_call (CallTopHeadlines (Some "business") "us" 10) s1)).
Proof.
  intros st s s1.
  destruct (proj1 (proj2 (fetch_news_node_selects_category Sample.healthy
                            s s1 eq_refl))
              ["general"] "business"
              ["technology"; "entertainment"; "health"; "science"; "sports"]
              eq_refl) as [results [_ H]].
  - apply contains_iff_occurs. vm_compute. reflexivity.
  - intros c [<-|[]]. apply contains_false_iff. vm_compute. reflexivity.
  - exists results. exact H.
Defined.

(** A query without any category word goes to the free-text search. *)
Example fetch_news_node_free_text :
  let st :=
    mk_state "What happened in Paris today?" [] PNone None None EmptyString
      None [] in
  calls (snd (Nodes.fetch_news_node Sample.healthy
                (with_state st Sample.fresh)))
  = [ CallNewsApiClient; CallNow; CallNow;
      CallEverything "What happened in Paris today?" 19837 19844 "en"
        "publishedAt" 5 ].
Proof. vm_compute. reflexivity. Qed.

(* ===================================================================== *)
(** ** A stage that catches an exception *)
(* ===================================================================== *)


(* ===================================================================== *)
(** ** Settings, history and singletons *)
(* ===================================================================== *)

(** X1.  [validate_api_keys] reports valid exactly when both keys are
    non-empty, which is exactly when it lists no missing key; each key
    name is listed exactly when that key is empty, OPENAI_API_KEY first;
    and a NEWS_API_KEY that is not reported missing lets [NewsFetcher()]
    get past its own check, to the construction of the client. *)
Theorem validate_api_keys_sound (openai_key news_key : string) :
  let v := Settings.validate_api_keys openai_key news_key in
  (Settings.valid v = true
   <-> openai_key <> EmptyString /\ news_key <> EmptyString)
  /\ (Settings.valid v = true <-> Settings.missing_keys v = [])
  /\ (In "OPENAI_API_KEY" (Settings.missing_keys v)
      <-> openai_key = EmptyString)
  /\ (In "NEWS_API_KEY" (Settings.missing_keys v)
      <-> news_key = EmptyString)
  /\ (openai_key = EmptyString -> news_key = EmptyString ->
      Settings.missing_keys v = ["OPENAI_API_KEY"; "NEWS_API_KEY"])
  /\ (forall W s,
        news_api_key W = news_key ->
        ~ In "NEWS_API_KEY" (Settings.missing_keys v) ->
        NewsFetcher.__init__ W s
        = ask CallNewsApiClient (new_NewsApiClient W) s).
Proof.
  unfold Settings.validate_api_keys, NewsFetcher.__init__.
  destruct openai_key as [|a o], news_key as [|b n]; cbn;
    (split; [|split; [|split; [|split; [|split]]]]).
  all: try (split; [discriminate | intros [H1 H2]; congruence]).
  all: try (split; discriminate).
  all: try (split; reflexivity).
  all: try (split; [intros _; split; discriminate | reflexivity]).
  all: try (split; [reflexivity | intros _; now left]).
  all: try (split; [reflexivity | intros _; right; now left]).
  all: try (split; [intros [H|[H|[]]]; discriminate | discriminate]).
  all: try (split; [intros [H|[]]; discriminate | discriminate]).
  all: try (split; [intros [] | discriminate]).
  all: try (intros; discriminate).
  all: try reflexivity.
  all: try (intros W s HW Hin; exfalso; apply Hin; cbn; tauto).
  all: try (intros W s HW _; rewrite HW; reflexivity).
Qed.

(** X2.  [format_chat_history] keeps the turns of the roles user and
    assistant, in their order, with their text and their role, and drops
    every other turn; so the result is never longer than the history, and
    as long when every role is known. *)
Theorem format_chat_history_keeps_known_roles (messages : list Turn) :
  let formatted := NewsGenieAgent.format_chat_history messages in
  map message_content formatted = map content (filter known_role messages)
  /\ map message_role formatted = map role (filter known_role messages)
  /\ List.length formatted <= List.length messages
  /\ (forallb known_role messages = true ->
      List.length formatted = List.length messages).
Proof.
  cbv zeta. induction messages as [|msg rest IH]; [repeat split; auto|].
  destruct IH as [IHc [IHr [IHl IHa]]].
  cbn [NewsGenieAgent.format_chat_history filter forallb].
  destruct (String.eqb (role msg) "user") eqn:Eu.
  - assert (Hk : known_role msg = true)
      by (unfold known_role; now rewrite Eu).
    apply String.eqb_eq in Eu. rewrite Hk.
    cbn [map List.length message_content message_role andb].
    rewrite IHc, IHr, Eu. repeat split; try lia.
    intros H. f_equal. now apply IHa.
  - destruct (String.eqb (role msg) "assistant") eqn:Ea.
    + assert (Hk : known_role msg = true)
        by (unfold known_role; now rewrite Eu, Ea).
      apply String.eqb_eq in Ea. rewrite Hk.
      cbn [map List.length message_content message_role andb].
      rewrite IHc, IHr, Ea. repeat split; try lia.
      intros H. f_equal. now apply IHa.
    + assert (Hk : known_role msg = false)
        by (unfold known_role; now rewrite Eu, Ea).
      rewrite Hk. cbn [List.length andb]. repeat split; auto.
      discriminate.
Qed.

Lemma format_chat_history_keeps_known_roles_witness :
  List.length
    (NewsGenieAgent.format_chat_history
       [mk_turn "user" "hi"; mk_turn "assistant" "hello"])
  = 2.
Proof.
  exact (proj2 (proj2 (proj2 (format_chat_history_keeps_known_roles
                                [mk_turn "user" "hi";
                                 mk_turn "assistant" "hello"])))
           eq_refl).
Defined.

Section SingletonsOnce.
Variable W : World.

Lemma get_web_search_tool_eq (s : Store) :
  Nodes.get_web_search_tool W s
  = if web_search_tool s then (Ok tt, s)
    else match new_DDGS W (calls s) with
         | Ok _ =>
             (Ok tt,
              mk_store (chatbot_agent s) (news_fetcher s) true
                (calls s ++ [CallDDGS])%list (state s))
         | Raise e => (Raise e, log_call CallDDGS s)
         end.
Proof.
  unfold Nodes.get_web_search_tool, WebSearchTool.__init__. unfold_monad.
  destruct (web_search_tool s); [reflexivity|].
  destruct (new_DDGS W (calls s)); reflexivity.
Qed.

Lemma get_web_search_tool_state (s : Store) :
  state (snd (Nodes.get_web_search_tool W s)) = state s.
Proof.
  rewrite get_web_search_tool_eq. destruct (web_search_tool s); [reflexivity|].
  destruct (new_DDGS W (calls s)); reflexivity.
Qed.

End SingletonsOnce.

(** X3.  Each of the three singletons is built at most once: after a
    getter has succeeded, the same getter succeeds again without any call
    and without changing the store.  A construction that raised is not
    remembered: the singleton is still missing afterwards. *)
Theorem singletons_built_once (W : World) (s s1 : Store) :
  (Nodes.get_chatbot_agent W s = (Ok tt, s1) ->
   chatbot_agent s1 = true /\ Nodes.get_chatbot_agent W s1 = (Ok tt, s1))
  /\ (Nodes.get_news_fetcher W s = (Ok tt, s1) ->
      news_fetcher s1 = true /\ Nodes.get_news_fetcher W s1 = (Ok tt, s1))
  /\ (Nodes.get_web_search_tool W s = (Ok tt, s1) ->
      web_search_tool s1 = true
      /\ Nodes.get_web_search_tool W s1 = (Ok tt, s1))
  /\ (forall e,
        Nodes.get_chatbot_agent W s = (Raise e, s1) ->
        chatbot_agent s1 = false)
  /\ (forall e,
        Nodes.get_news_fetcher W s = (Raise e, s1) ->
        news_fetcher s1 = false)
  /\ (forall e,
        Nodes.get_web_search_tool W s = (Raise e, s1) ->
        web_search_tool s1 = false).
Proof.
  split; [|split; [|split; [|split; [|split]]]].
  - rewrite !get_chatbot_agent_eq. destruct (chatbot_agent s) eqn:E.
    + intros H. injection H as <-. now rewrite E.
    + destruct (new_ChatOpenAI W (calls s)); intros H; [|discriminate].
      injection H as <-. split; reflexivity.
  - rewrite !get_news_fetcher_eq. destruct (news_fetcher s) eqn:E.
    + intros H. injection H as <-. now rewrite E.
    + destruct (PyStr.truthy (news_api_key W)); [|discriminate].
      destruct (new_NewsApiClient W (calls s)); intros H; [|discriminate].
      injection H as <-. split; reflexivity.
  - rewrite !get_web_search_tool_eq. destruct (web_search_tool s) eqn:E.
    + intros H. injection H as <-. now rewrite E.
    + destruct (new_DDGS W (calls s)); intros H; [|discriminate].
      injection H as <-. split; reflexivity.
  - intros e. rewrite get_chatbot_agent_eq. destruct (chatbot_agent s) eqn:E.
    + discriminate.
    + destruct (new_ChatOpenAI W (calls s)); intros H; [discriminate|].
      injection H as _ <-. exact E.
  - intros e. rewrite get_news_fetcher_eq. destruct (news_fetcher s) eqn:E.
    + discriminate.
    + destruct (PyStr.truthy (news_api_key W)).
      * destruct (new_NewsApiClient W (calls s)); intros H; [discriminate|].
        injection H as _ <-. exact E.
      * intros H. injection H as _ <-. exact E.
  - intros e. rewrite get_web_search_tool_eq.
    destruct (web_search_tool s) eqn:E.
    + discriminate.
    + destruct (new_DDGS W (calls s)); intros H; [discriminate|].
      injection H as _ <-. exact E.
Qed.

Lemma singletons_built_once_witness :
  let s1 := mk_store true false false [CallChatOpenAI] Sample.empty_state in
  Nodes.get_chatbot_agent Sample.healthy s1 = (Ok tt, s1).
Proof.
  intros s1.
  exact (proj2 (proj1 (singletons_built_once Sample.healthy Sample.fresh s1)
                  eq_refl)).
Defined.

(* ===================================================================== *)
(** ** NewsFetcher *)
(* ===================================================================== *)

(** The loop over the raw articles either formats every article, in
    order, or stops at one whose source is null. *)
Lemma format_articles_ok (raws : list RawArticle) (articles : list Article) :
  NewsFetcher.format_articles raws = Ok articles ->
  List.length articles = List.length raws
  /\ forall i raw,
       nth_error raws i = Some raw ->
       exists a,
         nth_error articles i = Some a
         /\ NewsFetcher.format_article raw = Ok a.
Proof.
  revert articles. induction raws as [|raw rest IH]; intros articles H.
  - injection H as <-. split; [reflexivity|]. intros [|i] r Hr; discriminate.
  - cbn [NewsFetcher.format_articles] in H.
    destruct (NewsFetcher.format_article raw) as [a|e] eqn:Ea; [|discriminate].
    destruct (NewsFetcher.format_articles rest) as [r|e]; [|discriminate].
    injection H as <-. destruct (IH r eq_refl) as [Hl Hn].
    split; [cbn; now rewrite Hl|].
    intros [|i] raw' Hr.
    + injection Hr as <-. exists a. now split.
    + cbn in Hr. destruct (Hn i raw' Hr) as [a' [H1 H2]]. exists a'. now split.
Qed.

Lemma format_articles_raises (raws : list RawArticle) :
  (exists raw, In raw raws /\ raw_source raw = Some SourceNull) ->
  NewsFetcher.format_articles raws = Raise (Py.AttributeError PNone "get").
Proof.
  induction raws as [|raw rest IH]; intros [bad [Hin Hbad]]; [contradiction|].
  cbn [NewsFetcher.format_articles].
  destruct (NewsFetcher.format_article raw) as [a|e] eqn:Ea.
  - destruct Hin as [<-|Hin].
    + unfold NewsFetcher.format_article, NewsFetcher.source_name in Ea.
      rewrite Hbad in Ea. discriminate.
    + rewrite IH; [reflexivity|]. now exists bad.
  - unfold NewsFetcher.format_article, NewsFetcher.source_name in Ea.
    destruct (raw_source raw) as [[|name]|]; try discriminate.
    now injection Ea as <-.
Qed.

Lemma format_response_shape (response : RawNewsResponse) (r : NewsResult) :
  NewsFetcher._format_response response = Ok r -> news_result_shape r.
Proof.
  unfold NewsFetcher._format_response.
  destruct (negb _).
  - intros H. injection H as <-. right. repeat split.
  - destruct (NewsFetcher.format_articles _) as [l|e]; [|discriminate].
    intros H. injection H as <-. left. cbn. repeat split. eexists. reflexivity.
Qed.

(** X4.  The three fetching methods of [NewsFetcher] never raise, and
    what they return always has one of two shapes: status success with a
    total and the message Found n articles, n being the number of articles
    returned; or status error with no total and no article. *)
Theorem news_fetcher_results_shaped
    (W : World) (category : option string) (country query language sort_by
     name : string) (from_date to_date page_size : option Z) (s : Store) :
  (exists r s',
      NewsFetcher.get_top_headlines W category country page_size s
      = (Ok r, s') /\ news_result_shape r)
  /\ (exists r s',
         NewsFetcher.search_news W query from_date to_date language sort_by
           page_size s
         = (Ok r, s') /\ news_result_shape r)
  /\ (exists r s',
         NewsFetcher.get_news_by_category W name country s = (Ok r, s')
         /\ news_result_shape r).
Proof.
  assert (Herr : forall m, news_result_shape (mk_news_result "error" None [] m)).
  { intros m. right. repeat split. }
  assert (Htop : forall c p,
             exists r s',
               NewsFetcher.get_top_headlines W c country p s = (Ok r, s')
               /\ news_result_shape r).
  { intros c p. rewrite get_top_headlines_eq. cbv zeta.
    eexists _, _. split; [reflexivity|].
    destruct (client_get_top_headlines W _ _ _ _) as [response|e];
      [|apply Herr].
    destruct (NewsFetcher._format_response response) as [r|e] eqn:E;
      [|apply Herr].
    exact (format_response_shape response r E). }
  split; [apply Htop|split].
  - unfold NewsFetcher.search_news. unfold_monad.
    destruct from_date, to_date; cbn [calls log_call];
      (destruct (client_get_everything W _ _ _ _ _ _ _) as [response|e];
       [destruct (NewsFetcher._format_response response) as [r|e] eqn:E|]);
      eexists _, _; (split; [reflexivity|]);
      try apply Herr; exact (format_response_shape response r E).
  - unfold NewsFetcher.get_news_by_category. destruct (negb _).
    + eexists _, _. split; [reflexivity|]. apply Herr.
    + apply Htop.
Qed.

(** X5.  What [_format_response] makes of a NewsAPI response.  A status
    other than ok gives the error dict Failed to fetch news.  With the
    status ok the articles are formatted one by one, in order and none
    dropped: every absent key gets its default (No title, No description
    available, Unknown, or the empty string), a null value stays None, and
    an absent totalResults counts as 0. *)
Theorem format_response_keeps_articles
    (response : RawNewsResponse) (r : NewsResult) :
  NewsFetcher._format_response response = Ok r ->
  (raw_status response <> Some "ok" ->
   r = mk_news_result "error" None [] "Failed to fetch news")
  /\ (raw_status response = Some "ok" ->
      let raws :=
        match raw_articles response with Some l => l | None => [] end in
      news_status r = "success"
      /\ news_total_results r
         = Some (match raw_totalResults response with
                 | Some n => n
                 | None => 0%Z
                 end)
      /\ List.length (news_articles r) = List.length raws
      /\ forall i raw,
           nth_error raws i = Some raw ->
           exists a,
             nth_error (news_articles r) i = Some a
             /\ art_title a
                = match raw_title raw with
                  | Some t => t
                  | None => TStr "No title"
                  end
             /\ art_description a
                = match raw_description raw with
                  | Some t => t
                  | None => TStr "No description available"
                  end
             /\ art_url a
                = match raw_url raw with
                  | Some t => t
                  | None => TStr EmptyString
                  end
             /\ art_source a
                = match raw_source raw with
                  | Some (SourceObj (Some t)) => t
                  | _ => TStr "Unknown"
                  end
             /\ art_published_at a
                = match raw_publishedAt raw with
                  | Some t => t
                  | None => TStr EmptyString
                  end).
Proof.
  unfold NewsFetcher._format_response. intros H. split.
  - intros Hs. destruct (raw_status response) as [st|].
    + destruct (String.eqb st "ok") eqn:E.
      * apply String.eqb_eq in E. congruence.
      * cbn in H. now injection H as <-.
    + cbn in H. now injection H as <-.
  - intros Hs. cbv zeta.
    set (raws := match raw_articles response with
                 | Some l => l
                 | None => []
                 end) in *.
    rewrite Hs in H. cbn in H.
    destruct (NewsFetcher.format_articles raws) as [l|e] eqn:E;
      [|discriminate].
    injection H as <-. cbn. destruct (format_articles_ok raws l E) as [Hl Hn].
    repeat split; [exact Hl|]. intros i raw Hr.
    destruct (Hn i raw Hr) as [a [Ha Hf]]. exists a. split; [exact Ha|].
    unfold NewsFetcher.format_article, NewsFetcher.source_name in Hf.
    destruct (raw_source raw) as [[|name]|]; try discriminate;
      injection Hf as <-; cbn; repeat split; try reflexivity;
      destruct name; reflexivity.
Qed.

Lemma format_response_keeps_articles_witness :
  exists r,
    NewsFetcher._format_response
      (mk_raw_news (Some "ok") None
         (Some [Sample.raw_article "1"; Sample.raw_article "2"]))
    = Ok r
    /\ news_total_results r = Some 0%Z
    /\ List.length (news_articles r) = 2.
Proof.
  eexists. split; [reflexivity|].
  destruct (proj2 (format_response_keeps_articles
                     (mk_raw_news (Some "ok") None
                        (Some [Sample.raw_article "1";
                               Sample.raw_article "2"]))
                     _ eq_refl) eq_refl) as [_ [Ht [Hl _]]].
  split; [exact Ht | exact Hl].
Defined.

(** X6.  One article whose source is null spoils the whole response:
    [get_top_headlines] then returns the error dict, without any article,
    whatever else NewsAPI sent. *)
Theorem null_source_voids_headlines
    (W : World) (category : option string) (country : string)
    (page_size : option Z) (s : Store) (response : RawNewsResponse)
    (raws : list RawArticle) (raw : RawArticle) :
  client_get_top_headlines W (calls s) category country
    (or_default page_size Settings.news_api_page_size) = Ok response ->
  raw_status response = Some "ok" ->
  raw_articles response = Some raws ->
  In raw raws -> raw_source raw = Some SourceNull ->
  fst (NewsFetcher.get_top_headlines W category country page_size s)
  = Ok (mk_news_result "error" None []
          "Failed to fetch top headlines: 'NoneType' object has no attribute 'get'").
Proof.
  intros Hc Hs Ha Hin Hnull. rewrite get_top_headlines_eq. cbv zeta.
  rewrite Hc. unfold NewsFetcher._format_response. rewrite Hs, Ha. cbn [fst].
  cbn [String.eqb Ascii.eqb Bool.eqb negb andb].
  rewrite (format_articles_raises raws); [reflexivity|].
  now exists raw.
Qed.

Lemma null_source_voids_headlines_witness :
  fst (NewsFetcher.get_top_headlines Sample.null_source (Some "sports") "us"
         None Sample.fresh)
  = Ok (mk_news_result "error" None []
          "Failed to fetch top headlines: 'NoneType' object has no attribute 'get'").
Proof.
  refine (null_source_voids_headlines Sample.null_source (Some "sports") "us"
            None Sample.fresh _ _
            (mk_raw_article (Some (TStr "Title 2")) None None
               (Some SourceNull) None None None None)
            eq_refl eq_refl eq_refl _ eq_refl).
  right. now left.
Defined.

(* ===================================================================== *)
(** ** WebSearchTool *)
(* ===================================================================== *)

Section SplitFacts.
Import PyStr.

Lemma occurs_in_tail (sub : string) (c : ascii) (s : string) :
  occurs_in sub s -> occurs_in sub (String c s).
Proof.
  intros [pre [post ->]]. now exists (String c pre), post.
Qed.

Lemma occurs_in_head (c : ascii) (s : string) :
  occurs_in (String c EmptyString) (String c s).
Proof. now exists EmptyString, s. Qed.

(** Without the separator there is one piece. *)
Lemma split_without_separator (sep : ascii) (s : string) :
  ~ occurs_in (String sep EmptyString) s -> split sep s = [s].
Proof.
  induction s as [|c r IH]; intros H; [reflexivity|].
  cbn [split]. destruct (Ascii.eqb_spec c sep) as [->|Hc].
  - exfalso. apply H, occurs_in_head.
  - rewrite IH; [reflexivity|]. intros Ho. apply H. now apply occurs_in_tail.
Qed.

(** The first piece ends at the first separator. *)
Lemma split_at_separator (sep : ascii) (a b : string) :
  ~ occurs_in (String sep EmptyString) a ->
  split sep (a ++ String sep b) = a :: split sep b.
Proof.
  induction a as [|c r IH]; intros H.
  - cbn. now rewrite Ascii.eqb_refl.
  - cbn [append split]. destruct (Ascii.eqb_spec c sep) as [->|Hc].
    + exfalso. apply H, occurs_in_head.
    + rewrite IH; [reflexivity|]. intros Ho. apply H.
      now apply occurs_in_tail.
Qed.

End SplitFacts.

(** X7.  The source of a web hit is the host of its address: for an
    address made of a scheme, two slashes and a host, with or without a
    path behind the host, [hit_source] returns the host.  A hit without an
    address, or with a null or empty one, has the source Unknown.  An
    address without any slash is an IndexError. *)
Theorem hit_source_is_host (scheme host path : string) :
  ~ occurs_in "/" scheme -> ~ occurs_in "/" host ->
  WebSearchTool.hit_source (Some (TStr (scheme ++ "//" ++ host)))
  = Ok (TStr host)
  /\ WebSearchTool.hit_source
       (Some (TStr (scheme ++ "//" ++ host ++ "/" ++ path)))
     = Ok (TStr host)
  /\ WebSearchTool.hit_source None = Ok (TStr "Unknown")
  /\ WebSearchTool.hit_source (Some TNone) = Ok (TStr "Unknown")
  /\ WebSearchTool.hit_source (Some (TStr EmptyString)) = Ok (TStr "Unknown")
  /\ (host <> EmptyString ->
      WebSearchTool.hit_source (Some (TStr host))
      = Raise (mk_exn "IndexError" "list index out of range")).
Proof.
  intros Hs Hh.
  assert (Hne : forall rest, PyStr.truthy (scheme ++ "//" ++ rest) = true).
  { intros rest. destruct scheme; reflexivity. }
  split; [|split; [|split; [|split; [|split]]]]; try reflexivity.
  - unfold WebSearchTool.hit_source. rewrite Hne.
    change (scheme ++ "//" ++ host)
      with (scheme ++ String "/" (String "/" host)).
    rewrite (split_at_separator "/" scheme _ Hs).
    cbn [PyStr.split Ascii.eqb Bool.eqb andb].
    rewrite (split_without_separator "/" host Hh). reflexivity.
  - unfold WebSearchTool.hit_source. rewrite Hne.
    change (scheme ++ "//" ++ host ++ "/" ++ path)
      with (scheme ++ String "/" (String "/" (host ++ String "/" path))).
    rewrite (split_at_separator "/" scheme _ Hs).
    cbn [PyStr.split Ascii.eqb Bool.eqb andb].
    rewrite (split_at_separator "/" host _ Hh). reflexivity.
  - intros Hn. unfold WebSearchTool.hit_source.
    rewrite (split_without_separator "/" host Hh).
    destruct host; [contradiction|reflexivity].
Qed.

Lemma hit_source_is_host_witness :
  WebSearchTool.hit_source (Some (TStr "https://web.example/a/b"))
  = Ok (TStr "web.example").
Proof.
  refine (proj1 (proj2 (hit_source_is_host "https:" "web.example" "a/b"
                          _ _)));
    apply contains_false_iff; vm_compute; reflexivity.
Defined.

(** The loop over the hits either formats every hit, in order, or stops
    with the IndexError of [hit_source]. *)
Lemma format_hits_ok (hits : list RawHit) (items : list WebItem) :
  WebSearchTool.format_hits hits = Ok items ->
  List.length items = List.length hits.
Proof.
  revert items. induction hits as [|h rest IH]; intros items H.
  - now injection H as <-.
  - cbn [WebSearchTool.format_hits] in H.
    destruct (WebSearchTool.format_hit h); [|discriminate].
    destruct (WebSearchTool.format_hits rest) as [r|e]; [|discriminate].
    injection H as <-. cbn. now rewrite (IH r eq_refl).
Qed.

Lemma format_hit_raises (h : RawHit) (e : exn) :
  WebSearchTool.format_hit h = Raise e ->
  e = mk_exn "IndexError" "list index out of range".
Proof.
  unfold WebSearchTool.format_hit, WebSearchTool.hit_source.
  destruct (hit_href h) as [[|s]|]; try discriminate.
  destruct (PyStr.truthy s); [|discriminate].
  destruct (nth_error _ 2); [discriminate|]. now intros H; injection H as <-.
Qed.

Lemma format_hits_raises (hits : list RawHit) :
  (exists h e, In h hits /\ WebSearchTool.format_hit h = Raise e) ->
  WebSearchTool.format_hits hits
  = Raise (mk_exn "IndexError" "list index out of range").
Proof.
  induction hits as [|h rest IH]; intros [bad [e [Hin Hbad]]];
    [contradiction|].
  cbn [WebSearchTool.format_hits].
  destruct (WebSearchTool.format_hit h) as [i|e'] eqn:Eh.
  - destruct Hin as [<-|Hin]; [congruence|].
    rewrite IH; [reflexivity|]. now exists bad, e.
  - now rewrite (format_hit_raises h e' Eh).
Qed.

(** [search] makes one call and always returns a result dict of one of
    the two shapes. *)
Lemma search_outcome
    (W : World) (query : string) (max_results : option Z) (region : string)
    (s : Store) :
  let asked := or_default max_results WebSearchTool.max_results_default in
  exists r,
    WebSearchTool.search W query max_results region s
    = (Ok r, log_call (CallDdgsText query region asked) s)
    /\ web_result_shape query r
    /\ (forall hits,
          ddgs_text W (calls s) query region asked = Ok hits ->
          ws_status r = "success" ->
          List.length (ws_results r) = List.length hits)
    /\ (forall e,
          ddgs_text W (calls s) query region asked = Raise e ->
          r = mk_web_result "error" None None []
                ("Search failed: " ++ exn_str e)).
Proof.
  cbv zeta. unfold WebSearchTool.search. unfold_monad. cbv zeta.
  destruct (ddgs_text W (calls s) query region _) as [hits|e].
  - unfold WebSearchTool._format_response. destruct hits as [|h rest].
    + eexists. split; [reflexivity|]. split; [left; repeat split|].
      split; [|discriminate]. intros hits H _. now injection H as <-.
    + destruct (WebSearchTool.format_hits (h :: rest)) as [items|e] eqn:E.
      * eexists. split; [reflexivity|]. split; [left; repeat split|].
        split; [|discriminate]. intros hits H _. injection H as <-.
        exact (format_hits_ok _ _ E).
      * eexists. split; [reflexivity|]. split; [right; repeat split|].
        split; [|discriminate]. intros hits _ H. discriminate H.
  - eexists. split; [reflexivity|]. split; [right; repeat split|].
    split; [discriminate|]. intros e' H. now injection H as <-.
Qed.

(** X8.  [WebSearchTool.search] never raises and makes exactly one call
    to DuckDuckGo.  What it returns is either a success that names the
    query and whose total_results is the number of results it carries, one
    for each hit found; or an error without query, total or results. *)
Theorem web_search_results_shaped
    (W : World) (query : string) (max_results : option Z) (region : string)
    (s : Store) :
  let asked := or_default max_results WebSearchTool.max_results_default in
  exists r,
    WebSearchTool.search W query max_results region s
    = (Ok r, log_call (CallDdgsText query region asked) s)
    /\ web_result_shape query r
    /\ (forall hits,
          ddgs_text W (calls s) query region asked = Ok hits ->
          ws_status r = "success" ->
          List.length (ws_results r) = List.length hits)
    /\ (forall e,
          ddgs_text W (calls s) query region asked = Raise e ->
          r = mk_web_result "error" None None []
                ("Search failed: " ++ exn_str e)).
Proof.
  cbv zeta.
  destruct (search_outcome W query max_results region s)
    as [r [Heq [Hshape [Hhits Herr]]]].
  exists r. split; [exact Heq|]. split; [exact Hshape|].
  split; [exact Hhits | exact Herr].
Qed.

(** X9.  One hit whose address is non-empty and has no slash spoils the
    whole search: [search] returns the error dict Search failed: list
    index out of range, and the other hits are lost. *)
Theorem bare_address_voids_search
    (W : World) (query : string) (max_results : option Z) (region : string)
    (s : Store) (hits : list RawHit) (h : RawHit) (address : string) :
  ddgs_text W (calls s) query region
    (or_default max_results WebSearchTool.max_results_default) = Ok hits ->
  In h hits ->
  hit_href h = Some (TStr address) ->
  address <> EmptyString -> ~ occurs_in "/" address ->
  fst (WebSearchTool.search W query max_results region s)
  = Ok (mk_web_result "error" None None []
          "Search failed: list index out of range").
Proof.
  intros Hd Hin Hh Hne Hns.
  unfold WebSearchTool.search. unfold_monad. cbv zeta. rewrite Hd.
  unfold WebSearchTool._format_response.
  assert (Hbad : WebSearchTool.format_hit h
                 = Raise (mk_exn "IndexError" "list index out of range")).
  { unfold WebSearchTool.format_hit, WebSearchTool.hit_source.
    rewrite Hh, (split_without_separator "/" address Hns).
    destruct address; [contradiction|reflexivity]. }
  rewrite (format_hits_raises hits); [|eexists h, _; split; eassumption].
  destruct hits; [contradiction|reflexivity].
Qed.

Lemma bare_address_voids_search_witness :
  fst (WebSearchTool.search Sample.bare_href "rocq" None "wt-wt"
         Sample.fresh)
  = Ok (mk_web_result "error" None None []
          "Search failed: list index out of range").
Proof.
  refine (bare_address_voids_search Sample.bare_href "rocq" None "wt-wt"
            Sample.fresh _
            (mk_raw_hit (Some (TStr "Page b")) (Some (TStr "Snippet b"))
               (Some (TStr "web.example")))
            "web.example" eq_refl _ eq_refl _ _).
  - right. now left.
  - discriminate.
  - apply contains_false_iff. vm_compute. reflexivity.
Defined.

(* ===================================================================== *)
(** ** The graph as a sequential program *)
(* ===================================================================== *)

(** A handler that returns makes the whole [try] return. *)
Lemma try_except_returns (body : M unit) (handler : exn -> M unit) (s : Store) :
  (forall e s1, exists s2, handler e s1 = (Ok tt, s2)) ->
  exists s', try_except body handler s = (Ok tt, s').
Proof.
  intros H. unfold try_except.
  destruct (body s) as [[[]|e] s1]; [now exists s1 | apply H].
Qed.

Lemma node_returns (W : World) (n : Graph.NodeName) (s : Store) :
  exists s', Graph.nodes (Graph.create_workflow W) n s = (Ok tt, s').
Proof.
  destruct n; cbn [Graph.create_workflow Graph.nodes];
    apply try_except_returns; intros e s1; eexists; reflexivity.
Qed.

Lemma run_node_returns (W : World) (n : Graph.NodeName) (st : GraphState)
    (s : Store) :
  exists st' s',
    Graph.run_node (Graph.nodes (Graph.create_workflow W) n) st s
    = (Ok st', s').
Proof.
  destruct (node_returns W n (with_state st s)) as [s' H].
  unfold Graph.run_node. rewrite H. eexists _, _. reflexivity.
Qed.

(** The routers answer with a name of the path map, or raise. *)
Lemma should_fetch_news_routes (st : GraphState) (r : string) :
  Graph.should_fetch_news st = Ok r ->
  r = "fetch_news" \/ r = "handle_general".
Proof.
  unfold Graph.should_fetch_news.
  destruct (Py.get _ "is_news_request" _) as [b|]; [|discriminate].
  destruct (Py.get _ "confidence" _) as [c|]; [|discriminate].
  destruct (Py.truthy b).
  - destruct (Py.gt_0_6 c) as [[]|]; intros H; try discriminate;
      injection H as <-; auto.
  - intros H. injection H as <-. auto.
Qed.

Lemma should_add_web_search_routes (st : GraphState) (r : string) :
  Graph.should_add_web_search st = Ok r ->
  r = "web_search" \/ r = "generate_response".
Proof.
  unfold Graph.should_add_web_search.
  destruct (news_results st) as [nr|]; [|discriminate].
  destruct (String.eqb _ _); [intros H; injection H as <-; auto|].
  destruct (_ <? _)%nat; intros H; injection H as <-; auto.
Qed.

(** Four steps of the executor, spelled out. *)
Lemma exec_sequential (W : World) (extra : nat) (st : GraphState) (s : Store) :
  Graph.exec (Graph.create_workflow W) (4 + extra) Graph.classify_query st s
  = sequential_workflow W st s.
Proof.
  unfold sequential_workflow. cbn [Nat.add].
  rewrite exec_step. unfold bind, lift, ret.
  cbn [Graph.create_workflow Graph.nodes Graph.edges].
  destruct (Graph.run_node (Nodes.classify_query_node W) st s)
    as [[st1|e] s1]; [|reflexivity].
  destruct (Graph.should_fetch_news st1) as [r|e] eqn:Er; [|reflexivity].
  destruct (should_fetch_news_routes st1 r Er) as [-> | ->];
    cbn [Graph.path_lookup String.eqb Ascii.eqb Bool.eqb andb].
  - rewrite exec_step. unfold bind, lift, ret.
    cbn [Graph.create_workflow Graph.nodes Graph.edges].
    destruct (Graph.run_node (Nodes.fetch_news_node W) st1 s1)
      as [[st2|e] s2]; [|reflexivity].
    destruct (Graph.should_add_web_search st2) as [r2|e] eqn:Er2;
      [|reflexivity].
    destruct (should_add_web_search_routes st2 r2 Er2) as [-> | ->];
      cbn [Graph.path_lookup String.eqb Ascii.eqb Bool.eqb andb].
    + rewrite exec_step. unfold bind, lift, ret.
      cbn [Graph.create_workflow Graph.nodes Graph.edges].
      destruct (Graph.run_node (Nodes.web_search_node W) st2 s2)
        as [[st3|e] s3]; [|reflexivity].
      rewrite exec_step. unfold bind, lift, ret.
      cbn [Graph.create_workflow Graph.nodes Graph.edges].
      destruct (Graph.run_node (Nodes.generate_response_node W) st3 s3)
        as [[st4|e] s4]; reflexivity.
    + rewrite exec_step. unfold bind, lift, ret.
      cbn [Graph.create_workflow Graph.nodes Graph.edges].
      destruct (Graph.run_node (Nodes.generate_response_node W) st2 s2)
        as [[st4|e] s4]; reflexivity.
  - rewrite exec_step. unfold bind, lift, ret.
    cbn [Graph.create_workflow Graph.nodes Graph.edges].
    destruct (Graph.run_node (Nodes.handle_general_query_node W) st1 s1)
      as [[st4|e] s4]; reflexivity.
Qed.

Lemma run_workflow_sequential
    (W : World) (query : string) (history : option (list Turn)) (s : Store) :
  Graph.run_workflow W query history s
  = sequential_workflow W (initial_state_of query history) s.
Proof.
  unfold Graph.run_workflow, Graph.invoke, Graph.recursion_limit.
  cbn [Graph.entry_point Graph.create_workflow].
  exact (exec_sequential W 21 _ s).
Qed.

(** X11.  The executor on the graph of [create_workflow] is the
    sequential program: Classify, the first router, then either the
    general node, or FetchNews, the second router, the web search if asked
    for, and Respond.  Four steps are always enough, so the recursion
    limit of 25 is never reached and the path maps never miss. *)
Theorem run_workflow_is_sequential
    (W : World) (user_input : string) (chat_history : option (list Turn))
    (s : Store) :
  Graph.run_workflow W user_input chat_history s
  = sequential_workflow W (initial_state_of user_input chat_history) s
  /\ forall extra st,
       Graph.exec (Graph.create_workflow W) (4 + extra) Graph.classify_query
         st s
       = sequential_workflow W st s.
Proof.
  split.
  - apply run_workflow_sequential.
  - intros extra st. apply exec_sequential.
Qed.

(* ===================================================================== *)
(** ** What a node leaves alone *)
(* ===================================================================== *)

Section Keeps.
Context {T : Type} (f : GraphState -> T).

Lemma keeps_ret {A} (a : A) : keeps f (ret a).
Proof. intros s. reflexivity. Qed.

Lemma keeps_raise {A} (e : exn) : keeps f (@raise A e).
Proof. intros s. reflexivity. Qed.

Lemma keeps_lift {A} (r : result A) : keeps f (lift r).
Proof. intros s. reflexivity. Qed.

Lemma keeps_ask {A} (c : Call) (oracle : Log -> result A) :
  keeps f (ask c oracle).
Proof. intros s. reflexivity. Qed.

Lemma keeps_get_state : keeps f get_state.
Proof. intros s. reflexivity. Qed.

Lemma keeps_modify_state (g : GraphState -> GraphState) :
  (forall st, f (g st) = f st) -> keeps f (modify_state g).
Proof. intros H s. apply H. Qed.

Lemma keeps_bind {A B} (m : M A) (k : A -> M B) :
  keeps f m -> (forall a, keeps f (k a)) -> keeps f (bind m k).
Proof.
  intros Hm Hk s. unfold bind. specialize (Hm s).
  destruct (m s) as [[a|e] s1]; cbn [snd] in *; [|exact Hm].
  now rewrite (Hk a s1).
Qed.

Lemma keeps_try_except {A} (body : M A) (handler : exn -> M A) :
  keeps f body -> (forall e, keeps f (handler e)) ->
  keeps f (try_except body handler).
Proof.
  intros Hb Hh s. unfold try_except. specialize (Hb s).
  destruct (body s) as [[a|e] s1]; cbn [snd] in *; [exact Hb|].
  now rewrite (Hh e s1).
Qed.

End Keeps.

Ltac keeps_step :=
  first
    [ apply keeps_bind | apply keeps_try_except | apply keeps_ret
    | apply keeps_raise | apply keeps_lift | apply keeps_ask
    | apply keeps_get_state
    | apply keeps_modify_state; intros; reflexivity
    | match goal with
      | |- keeps _ (if ?b then _ else _) => destruct b
      | |- keeps _ (match ?x with _ => _ end) => destruct x
      | |- forall _, _ => intro
      end ].

Section KeepsTools.
Variable W : World.
Context {T : Type} (f : GraphState -> T).

Lemma keeps_get_chatbot_agent : keeps f (Nodes.get_chatbot_agent W).
Proof. intros s. now rewrite get_chatbot_agent_state. Qed.

Lemma keeps_get_news_fetcher : keeps f (Nodes.get_news_fetcher W).
Proof. intros s. now rewrite get_news_fetcher_state. Qed.

Lemma keeps_get_web_search_tool : keeps f (Nodes.get_web_search_tool W).
Proof. intros s. now rewrite get_web_search_tool_state. Qed.

Lemma keeps_classify_query (q : string) :
  keeps f (NewsGenieAgent.classify_query W q).
Proof. unfold NewsGenieAgent.classify_query. repeat keeps_step. Qed.

Lemma keeps_chat (input : string) (h : option (list Message)) :
  keeps f (NewsGenieAgent.chat W input h).
Proof. unfold NewsGenieAgent.chat. repeat keeps_step. Qed.

Lemma keeps_get_top_headlines c country p :
  keeps f (NewsFetcher.get_top_headlines W c country p).
Proof. unfold NewsFetcher.get_top_headlines. repeat keeps_step. Qed.

Lemma keeps_search_news q fd td l sb p :
  keeps f (NewsFetcher.search_news W q fd td l sb p).
Proof. unfold NewsFetcher.search_news. repeat keeps_step. Qed.

Lemma keeps_get_news_by_category c country :
  keeps f (NewsFetcher.get_news_by_category W c country).
Proof.
  unfold NewsFetcher.get_news_by_category.
  destruct (negb _); [apply keeps_ret | apply keeps_get_top_headlines].
Qed.

Lemma keeps_search q m r : keeps f (WebSearchTool.search W q m r).
Proof. unfold WebSearchTool.search. repeat keeps_step. Qed.

End KeepsTools.

Lemma classify_query_node_keeps (W : World) :
  keeps (fun st => (user_input st, chat_history st, news_results st,
                    web_search_results st, final_response st))
    (Nodes.classify_query_node W).
Proof.
  unfold Nodes.classify_query_node, Nodes.classify_query_body.
  repeat first [ apply keeps_get_chatbot_agent | apply keeps_classify_query
               | keeps_step ].
Qed.

Lemma fetch_news_node_keeps (W : World) :
  keeps (fun st => (user_input st, chat_history st,
                    query_classification st, web_search_results st,
                    final_response st, metadata st))
    (Nodes.fetch_news_node W).
Proof.
  unfold Nodes.fetch_news_node, Nodes.fetch_news_body.
  repeat first [ apply keeps_get_news_fetcher
               | apply keeps_get_news_by_category | apply keeps_search_news
               | keeps_step ].
Qed.

Lemma web_search_node_keeps (W : World) :
  keeps (fun st => (user_input st, chat_history st,
                    query_classification st, news_results st,
                    final_response st, error st, metadata st))
    (Nodes.web_search_node W).
Proof.
  unfold Nodes.web_search_node, Nodes.web_search_body.
  repeat first [ apply keeps_get_web_search_tool | apply keeps_search
               | keeps_step ].
Qed.

Lemma generate_response_node_keeps (W : World) :
  keeps (fun st => (user_input st, chat_history st,
                    query_classification st, news_results st,
                    web_search_results st, metadata st))
    (Nodes.generate_response_node W).
Proof.
  unfold Nodes.generate_response_node, Nodes.generate_response_body.
  repeat first [ apply keeps_get_chatbot_agent | apply keeps_chat
               | keeps_step ].
Qed.

Lemma handle_general_query_node_keeps (W : World) :
  keeps (fun st => (user_input st, chat_history st,
                    query_classification st, news_results st,
                    web_search_results st, metadata st))
    (Nodes.handle_general_query_node W).
Proof.
  unfold Nodes.handle_general_query_node, Nodes.handle_general_query_body.
  repeat first [ apply keeps_get_chatbot_agent | apply keeps_chat
               | keeps_step ].
Qed.

(** X12.  Each node writes only its own keys of the state dict.  None
    touches user_input or chat_history.  Classify leaves the results and
    the response alone; FetchNews leaves the classification, the web
    results, the response and the metadata alone; the web search changes
    nothing but web_search_results (the error key included); Respond
    and the general node leave the classification, both results and the
    metadata alone. *)
Theorem nodes_write_their_own_keys (W : World) :
  keeps (fun st => (user_input st, chat_history st, news_results st,
                    web_search_results st, final_response st))
    (Nodes.classify_query_node W)
  /\ keeps (fun st => (user_input st, chat_history st,
                       query_classification st, web_search_results st,
                       final_response st, metadata st))
       (Nodes.fetch_news_node W)
  /\ keeps (fun st => (user_input st, chat_history st,
                       query_classification st, news_results st,
                       final_response st, error st, metadata st))
       (Nodes.web_search_node W)
  /\ keeps (fun st => (user_input st, chat_history st,
                       query_classification st, news_results st,
                       web_search_results st, metadata st))
       (Nodes.generate_response_node W)
  /\ keeps (fun st => (user_input st, chat_history st,
                       query_classification st, news_results st,
                       web_search_results st, metadata st))
       (Nodes.handle_general_query_node W).
Proof.
  split; [|split; [|split; [|split]]].
  - apply classify_query_node_keeps.
  - apply fetch_news_node_keeps.
  - apply web_search_node_keeps.
  - apply generate_response_node_keeps.
  - apply handle_general_query_node_keeps.
Qed.

(* ===================================================================== *)
(** ** Whom a node calls *)
(* ===================================================================== *)

Section LogsOnly.
Variable allowed : Call -> bool.

Lemma logs_nothing {A} (m : M A) :
  (forall s, calls (snd (m s)) = calls s) -> logs_only allowed m.
Proof.
  intros H s. exists []. rewrite H, app_nil_r. now split.
Qed.

Lemma logs_only_ret {A} (a : A) : logs_only allowed (ret a).
Proof. now apply logs_nothing. Qed.

Lemma logs_only_raise {A} (e : exn) : logs_only allowed (@raise A e).
Proof. now apply logs_nothing. Qed.

Lemma logs_only_lift {A} (r : result A) : logs_only allowed (lift r).
Proof. now apply logs_nothing. Qed.

Lemma logs_only_get_state : logs_only allowed get_state.
Proof. now apply logs_nothing. Qed.

Lemma logs_only_modify_state g : logs_only allowed (modify_state g).
Proof. now apply logs_nothing. Qed.

Lemma logs_only_ask {A} (c : Call) (oracle : Log -> result A) :
  allowed c = true -> logs_only allowed (ask c oracle).
Proof.
  intros H s. exists [c]. split; [reflexivity|]. cbn. now rewrite H.
Qed.

Lemma logs_only_bind {A B} (m : M A) (k : A -> M B) :
  logs_only allowed m -> (forall a, logs_only allowed (k a)) ->
  logs_only allowed (bind m k).
Proof.
  intros Hm Hk s. unfold bind. destruct (Hm s) as [l [Hl Ha]].
  destruct (m s) as [[a|e] s1]; cbn [snd] in *; [|now exists l].
  destruct (Hk a s1) as [l' [Hl' Ha']]. exists (l ++ l')%list.
  rewrite Hl', Hl, app_assoc, forallb_app, Ha, Ha'. now split.
Qed.

Lemma logs_only_try_except {A} (body : M A) (handler : exn -> M A) :
  logs_only allowed body -> (forall e, logs_only allowed (handler e)) ->
  logs_only allowed (try_except body handler).
Proof.
  intros Hb Hh s. unfold try_except. destruct (Hb s) as [l [Hl Ha]].
  destruct (body s) as [[a|e] s1]; cbn [snd] in *; [now exists l|].
  destruct (Hh e s1) as [l' [Hl' Ha']]. exists (l ++ l')%list.
  rewrite Hl', Hl, app_assoc, forallb_app, Ha, Ha'. now split.
Qed.

End LogsOnly.

Ltac logs_step :=
  first
    [ apply logs_only_bind | apply logs_only_try_except | apply logs_only_ret
    | apply logs_only_raise | apply logs_only_lift
    | apply logs_only_get_state | apply logs_only_modify_state
    | apply logs_only_ask; reflexivity
    | match goal with
      | |- logs_only _ (if ?b then _ else _) => destruct b
      | |- logs_only _ (match ?x with _ => _ end) => destruct x
      | |- forall _, _ => intro
      end ].

Section LogsTools.
Variable W : World.

Lemma logs_get_chatbot_agent :
  logs_only is_model_call (Nodes.get_chatbot_agent W).
Proof.
  intros s. rewrite get_chatbot_agent_eq. destruct (chatbot_agent s).
  - exists []. now rewrite app_nil_r.
  - exists [CallChatOpenAI].
    destruct (new_ChatOpenAI W (calls s)); now split.
Qed.

Lemma logs_get_news_fetcher :
  logs_only is_news_call (Nodes.get_news_fetcher W).
Proof.
  intros s. rewrite get_news_fetcher_eq. destruct (news_fetcher s).
  - exists []. now rewrite app_nil_r.
  - destruct (PyStr.truthy (news_api_key W)).
    + exists [CallNewsApiClient].
      destruct (new_NewsApiClient W (calls s)); now split.
    + exists []. now rewrite app_nil_r.
Qed.

Lemma logs_get_web_search_tool :
  logs_only is_web_call (Nodes.get_web_search_tool W).
Proof.
  intros s. rewrite get_web_search_tool_eq. destruct (web_search_tool s).
  - exists []. now rewrite app_nil_r.
  - exists [CallDDGS]. destruct (new_DDGS W (calls s)); now split.
Qed.

Lemma logs_classify_query (q : string) :
  logs_only is_model_call (NewsGenieAgent.classify_query W q).
Proof. unfold NewsGenieAgent.classify_query. repeat logs_step. Qed.

Lemma logs_chat (input : string) (h : option (list Message)) :
  logs_only is_model_call (NewsGenieAgent.chat W input h).
Proof. unfold NewsGenieAgent.chat. repeat logs_step. Qed.

Lemma logs_get_top_headlines c country p :
  logs_only is_news_call (NewsFetcher.get_top_headlines W c country p).
Proof. unfold NewsFetcher.get_top_headlines. repeat logs_step. Qed.

Lemma logs_search_news q fd td l sb p :
  logs_only is_news_call (NewsFetcher.search_news W q fd td l sb p).
Proof. unfold NewsFetcher.search_news. repeat logs_step. Qed.

Lemma logs_get_news_by_category c country :
  logs_only is_news_call (NewsFetcher.get_news_by_category W c country).
Proof.
  unfold NewsFetcher.get_news_by_category.
  destruct (negb _); [apply logs_only_ret | apply logs_get_top_headlines].
Qed.

Lemma logs_search q m r :
  logs_only is_web_call (WebSearchTool.search W q m r).
Proof. unfold WebSearchTool.search. repeat logs_step. Qed.

End LogsTools.

Lemma classify_query_node_logs (W : World) :
  logs_only is_model_call (Nodes.classify_query_node W).
Proof.
  unfold Nodes.classify_query_node, Nodes.classify_query_body.
  repeat first [ apply logs_get_chatbot_agent | apply logs_classify_query
               | logs_step ].
Qed.

Lemma fetch_news_node_logs (W : World) :
  logs_only is_news_call (Nodes.fetch_news_node W).
Proof.
  unfold Nodes.fetch_news_node, Nodes.fetch_news_body.
  repeat first [ apply logs_get_news_fetcher
               | apply logs_get_news_by_category | apply logs_search_news
               | logs_step ].
Qed.

Lemma web_search_node_logs (W : World) :
  logs_only is_web_call (Nodes.web_search_node W).
Proof.
  unfold Nodes.web_search_node, Nodes.web_search_body.
  repeat first [ apply logs_get_web_search_tool | apply logs_search
               | logs_step ].
Qed.

Lemma generate_response_node_logs (W : World) :
  logs_only is_model_call (Nodes.generate_response_node W).
Proof.
  unfold Nodes.generate_response_node, Nodes.generate_response_body.
  repeat first [ apply logs_get_chatbot_agent | apply logs_chat
               | logs_step ].
Qed.

Lemma handle_general_query_node_logs (W : World) :
  logs_only is_model_call (Nodes.handle_general_query_node W).
Proof.
  unfold Nodes.handle_general_query_node, Nodes.handle_general_query_body.
  repeat first [ apply logs_get_chatbot_agent | apply logs_chat
               | logs_step ].
Qed.

(** X13.  Each node talks to its own collaborator only.  Classify,
    Respond and the general node call nothing but the language model;
    FetchNews calls nothing but NewsAPI (and reads the clock); the web
    search calls nothing but DuckDuckGo.  Every node only appends to the
    log of calls. *)
Theorem nodes_call_their_own_collaborator (W : World) :
  logs_only is_model_call (Nodes.classify_query_node W)
  /\ logs_only is_news_call (Nodes.fetch_news_node W)
  /\ logs_only is_web_call (Nodes.web_search_node W)
  /\ logs_only is_model_call (Nodes.generate_response_node W)
  /\ logs_only is_model_call (Nodes.handle_general_query_node W).
Proof.
  split; [|split; [|split; [|split]]].
  - apply classify_query_node_logs.
  - apply fetch_news_node_logs.
  - apply web_search_node_logs.
  - apply generate_response_node_logs.
  - apply handle_general_query_node_logs.
Qed.

(* ===================================================================== *)
(** ** Whole runs *)
(* ===================================================================== *)

(** What [run_node] hands on: the node ran on its own copy of the state,
    and only chat_history differs from what the node returned. *)
Lemma run_node_inv (node : M unit) (st st' : GraphState) (s s' : Store) :
  Graph.run_node node st s = (Ok st', s') ->
  fst (node (with_state st s)) = Ok tt
  /\ snd (node (with_state st s)) = s'
  /\ st' = set_chat_history
             (chat_history st ++ chat_history (state s'))%list (state s').
Proof.
  unfold Graph.run_node.
  destruct (node (with_state st s)) as [[[]|e] s1]; [|discriminate].
  intros H. injection H as <- <-. repeat split.
Qed.

Lemma keeps_part {A T U} (f : GraphState -> T) (g : T -> U) (m : M A) :
  keeps f m -> keeps (fun st => g (f st)) m.
Proof. intros H s. now rewrite (H s). Qed.

Lemma run_node_keeps {T} (f : GraphState -> T) (node : M unit)
    (st st' : GraphState) (s s' : Store) :
  keeps f node ->
  (forall h x, f (set_chat_history h x) = f x) ->
  Graph.run_node node st s = (Ok st', s') ->
  f st' = f st.
Proof.
  intros Hk Hf H. destruct (run_node_inv node st st' s s' H) as [_ [Hs ->]].
  rewrite Hf, <- Hs. exact (Hk (with_state st s)).
Qed.

Lemma run_node_logs (allowed : Call -> bool) (node : M unit)
    (st st' : GraphState) (s s' : Store) :
  logs_only allowed node ->
  Graph.run_node node st s = (Ok st', s') ->
  exists l, calls s' = (calls s ++ l)%list /\ forallb allowed l = true.
Proof.
  intros Hl H. destruct (run_node_inv node st st' s s' H) as [_ [Hs _]].
  destruct (Hl (with_state st s)) as [l Hl']. rewrite Hs in Hl'.
  now exists l.
Qed.

(** [evaluate t as H]: the equation of [t] with its value. *)
Tactic Notation "evaluate" constr(t) "as" ident(H) :=
  let v := eval vm_compute in t in
  assert (H : t = v) by (vm_compute; reflexivity).

(* ===================================================================== *)
(** ** The stages of a run that returns *)
(* ===================================================================== *)

(** A [try] around a sequence: the first step either hands over to the
    rest, still inside the [try], or goes to the handler. *)
Lemma try_bind_split {A B} (m : M A) (k : A -> M B) (h : exn -> M B)
    (s : Store) :
  try_except (bind m k) h s
  = match m s with
    | (Ok a, s1) => try_except (k a) h s1
    | (Raise e, s1) => h e s1
    end.
Proof.
  unfold try_except, bind. destruct (m s) as [[a|e] s1]; reflexivity.
Qed.

Section AgentStays.

Lemma agent_stays_ret {A} (a : A) : agent_stays (ret a).
Proof. intros s H. exact H. Qed.

Lemma agent_stays_raise {A} (e : exn) : agent_stays (@raise A e).
Proof. intros s H. exact H. Qed.

Lemma agent_stays_lift {A} (r : result A) : agent_stays (lift r).
Proof. intros s H. exact H. Qed.

Lemma agent_stays_ask {A} (c : Call) (oracle : Log -> result A) :
  agent_stays (ask c oracle).
Proof. intros s H. exact H. Qed.

Lemma agent_stays_get_state : agent_stays get_state.
Proof. intros s H. exact H. Qed.

Lemma agent_stays_modify_state (g : GraphState -> GraphState) :
  agent_stays (modify_state g).
Proof. intros s H. exact H. Qed.

Lemma agent_stays_bind {A B} (m : M A) (k : A -> M B) :
  agent_stays m -> (forall a, agent_stays (k a)) -> agent_stays (bind m k).
Proof.
  intros Hm Hk s H. unfold bind. specialize (Hm s H).
  destruct (m s) as [[a|e] s1]; cbn [snd] in *; [|exact Hm].
  exact (Hk a s1 Hm).
Qed.

Lemma agent_stays_try_except {A} (body : M A) (handler : exn -> M A) :
  agent_stays body -> (forall e, agent_stays (handler e)) ->
  agent_stays (try_except body handler).
Proof.
  intros Hb Hh s H. unfold try_except. specialize (Hb s H).
  destruct (body s) as [[a|e] s1]; cbn [snd] in *; [exact Hb|].
  exact (Hh e s1 Hb).
Qed.

End AgentStays.

Ltac agent_step :=
  first
    [ apply agent_stays_bind | apply agent_stays_try_except
    | apply agent_stays_ret | apply agent_stays_raise
    | apply agent_stays_lift | apply agent_stays_ask
    | apply agent_stays_get_state | apply agent_stays_modify_state
    | match goal with
      | |- agent_stays (if ?b then _ else _) => destruct b
      | |- agent_stays (match ?x with _ => _ end) => destruct x
      | |- forall _, _ => intro
      end ].

Section AgentTools.
Variable W : World.

Lemma agent_stays_get_chatbot_agent : agent_stays (Nodes.get_chatbot_agent W).
Proof. intros s H. rewrite get_chatbot_agent_eq, H. exact H. Qed.

Lemma agent_stays_get_news_fetcher : agent_stays (Nodes.get_news_fetcher W).
Proof.
  intros s H. rewrite get_news_fetcher_eq.
  destruct (news_fetcher s); [exact H|].
  destruct (PyStr.truthy _); [|exact H].
  destruct (new_NewsApiClient W (calls s)); exact H.
Qed.

Lemma agent_stays_get_web_search_tool :
  agent_stays (Nodes.get_web_search_tool W).
Proof.
  intros s H. rewrite get_web_search_tool_eq.
  destruct (web_search_tool s); [exact H|].
  destruct (new_DDGS W (calls s)); exact H.
Qed.

Lemma agent_stays_get_news_by_category c country :
  agent_stays (NewsFetcher.get_news_by_category W c country).
Proof.
  unfold NewsFetcher.get_news_by_category, NewsFetcher.get_top_headlines.
  repeat agent_step.
Qed.

Lemma agent_stays_search_news q fd td l sb p :
  agent_stays (NewsFetcher.search_news W q fd td l sb p).
Proof. unfold NewsFetcher.search_news. repeat agent_step. Qed.

Lemma agent_stays_search q m r : agent_stays (WebSearchTool.search W q m r).
Proof. unfold WebSearchTool.search. repeat agent_step. Qed.

Lemma agent_stays_classify_query q :
  agent_stays (NewsGenieAgent.classify_query W q).
Proof. unfold NewsGenieAgent.classify_query. repeat agent_step. Qed.

(** A call of [get_chatbot_agent] that returns leaves the agent built. *)
Lemma get_chatbot_agent_ok (s s1 : Store) :
  Nodes.get_chatbot_agent W s = (Ok tt, s1) -> chatbot_agent s1 = true.
Proof.
  rewrite get_chatbot_agent_eq. destruct (chatbot_agent s) eqn:E.
  - intros H. injection H as <-. exact E.
  - destruct (new_ChatOpenAI W (calls s)); [|discriminate].
    intros H. injection H as <-. reflexivity.
Qed.

Lemma fetch_news_node_agent : agent_stays (Nodes.fetch_news_node W).
Proof.
  unfold Nodes.fetch_news_node, Nodes.fetch_news_body.
  repeat first [ apply agent_stays_get_news_fetcher
               | apply agent_stays_get_news_by_category
               | apply agent_stays_search_news | agent_step ].
Qed.

Lemma web_search_node_agent : agent_stays (Nodes.web_search_node W).
Proof.
  unfold Nodes.web_search_node, Nodes.web_search_body.
  repeat first [ apply agent_stays_get_web_search_tool
               | apply agent_stays_search | agent_step ].
Qed.

(** The Classify stage leaves the error key alone, or records its own
    error there. *)
Lemma classify_query_node_error (s : Store) :
  let st' := state (snd (Nodes.classify_query_node W s)) in
  error st' = error (state s)
  \/ exists e, error st' = Some ("Classification error: " ++ exn_str e).
Proof.
  cbv zeta. unfold Nodes.classify_query_node, try_except.
  assert (K : keeps error (Nodes.classify_query_body W)).
  { unfold Nodes.classify_query_body.
    repeat first [ apply keeps_get_chatbot_agent | apply keeps_classify_query
                 | keeps_step ]. }
  specialize (K s).
  destruct (Nodes.classify_query_body W s) as [[[]|e] s1]; cbn [snd] in *.
  - now left.
  - right. exists e. reflexivity.
Qed.

(** A Classify stage after which the router finds its way has built the
    agent: without one the classification stays None and the router
    raises. *)
Lemma classify_query_node_agent (s : Store) (r : string) :
  query_classification (state s) = PNone ->
  Graph.should_fetch_news (state (snd (Nodes.classify_query_node W s)))
  = Ok r ->
  chatbot_agent (snd (Nodes.classify_query_node W s)) = true.
Proof.
  intros Hq. unfold Nodes.classify_query_node, Nodes.classify_query_body.
  rewrite try_bind_split.
  pose proof (get_chatbot_agent_state W s) as Hst.
  destruct (Nodes.get_chatbot_agent W s) as [[[]|e] sa] eqn:Hag;
    cbn [snd] in Hst.
  - intros _. apply agent_stays_try_except.
    + repeat first [ apply agent_stays_classify_query | agent_step ].
    + intros e. apply agent_stays_modify_state.
    + exact (get_chatbot_agent_ok s sa Hag).
  - unfold modify_state. cbn [snd state with_state].
    unfold Graph.should_fetch_news.
    cbn [query_classification set_error]. rewrite Hst, Hq. discriminate.
Qed.

(** The FetchNews stage either stored nothing (its handler ran) or left
    the error key alone. *)
Lemma fetch_news_node_cases (s : Store) :
  let st' := state (snd (Nodes.fetch_news_node W s)) in
  news_results st' = news_results (state s)
  \/ error st' = error (state s).
Proof.
  cbv zeta. unfold Nodes.fetch_news_node, try_except.
  assert (K : keeps error (Nodes.fetch_news_body W)).
  { unfold Nodes.fetch_news_body.
    repeat first [ apply keeps_get_news_fetcher
                 | apply keeps_get_news_by_category | apply keeps_search_news
                 | keeps_step ]. }
  specialize (K s).
  destruct (Nodes.fetch_news_body W s) as [[[]|e] s1] eqn:Hb; cbn [snd] in *.
  - now right.
  - left. destruct (fetch_news_body_raises W s e s1 Hb) as [_ Hst].
    unfold modify_state. cbn [snd state with_state]. now rewrite Hst.
Qed.

(** The Respond stage with the agent at hand: one question to the model,
    whose answer, or the apology of [chat] when the call fails, becomes
    the final response.  Nothing else changes. *)
Lemma generate_response_node_with_agent (s : Store) :
  chatbot_agent s = true ->
  let st := state s in
  let input := respond_input st in
  let history := NewsGenieAgent.format_chat_history (chat_history st) in
  Nodes.generate_response_node W s
  = (Ok tt,
     with_state
       (set_final_response
          match chain_invoke W (calls s) input history with
          | Ok r => r
          | Raise e => apology e
          end st)
       (log_call (CallChainInvoke input history) s)).
Proof.
  intros H. cbv zeta. rewrite generate_response_node_eq.
  rewrite get_chatbot_agent_eq, H. reflexivity.
Qed.

End AgentTools.

(** A run that returns went one of three ways. *)
Lemma run_workflow_returns
    (W : World) (query : string) (history : option (list Turn))
    (s s' : Store) (final : GraphState) :
  Graph.run_workflow W query history s = (Ok final, s') ->
  exists st1 s1,
    Graph.run_node (Nodes.classify_query_node W)
      (initial_state_of query history) s = (Ok st1, s1)
    /\ ((Graph.should_fetch_news st1 = Ok "handle_general"
         /\ Graph.run_node (Nodes.handle_general_query_node W) st1 s1
            = (Ok final, s'))
        \/ (Graph.should_fetch_news st1 = Ok "fetch_news"
            /\ exists st2 s2 st3 s3,
                 Graph.run_node (Nodes.fetch_news_node W) st1 s1
                 = (Ok st2, s2)
                 /\ ((Graph.should_add_web_search st2 = Ok "generate_response"
                      /\ st3 = st2 /\ s3 = s2)
                     \/ (Graph.should_add_web_search st2 = Ok "web_search"
                         /\ Graph.run_node (Nodes.web_search_node W) st2 s2
                            = (Ok st3, s3)))
                 /\ Graph.run_node (Nodes.generate_response_node W) st3 s3
                    = (Ok final, s'))).
Proof.
  rewrite (run_workflow_sequential W query history s).
  unfold sequential_workflow, bind, lift.
  destruct (Graph.run_node (Nodes.classify_query_node W) _ s)
    as [[st1|e1] s1]; [|discriminate].
  destruct (Graph.should_fetch_news st1) as [r|e] eqn:Er; [|discriminate].
  intros H. exists st1, s1. split; [reflexivity|].
  destruct (should_fetch_news_routes st1 r Er) as [-> | ->];
    cbn [String.eqb Ascii.eqb Bool.eqb andb] in H.
  - right. split; [exact Er|].
    destruct (Graph.run_node (Nodes.fetch_news_node W) st1 s1)
      as [[st2|e2] s2]; [|discriminate].
    destruct (Graph.should_add_web_search st2) as [r2|e] eqn:Er2;
      [|discriminate].
    destruct (should_add_web_search_routes st2 r2 Er2) as [-> | ->];
      cbn [String.eqb Ascii.eqb Bool.eqb andb] in H.
    + destruct (Graph.run_node (Nodes.web_search_node W) st2 s2)
        as [[st3|e3] s3] eqn:H3; [|discriminate].
      exists st2, s2, st3, s3. split; [reflexivity|].
      split; [right; split; [exact Er2 | exact H3]|exact H].
    + exists st2, s2, st2, s2. split; [reflexivity|].
      split; [left; repeat split; exact Er2|exact H].
  - left. split; [exact Er | exact H].
Qed.

(** What a run that went through FetchNews and returned leaves behind.
    A news result dict is in the terminal state; if the web search ran,
    that result was an error or had fewer than three articles.  The last
    call of the run is the question of the Respond stage, and the final
    response is the model's answer to it or, when that call failed, the
    apology [chat] returns.  No stage after Classify has written the
    error key. *)
Lemma news_path_run
    (W : World) (query : string) (history : option (list Turn))
    (s s' : Store) (final : GraphState) :
  Graph.run_workflow W query history s = (Ok final, s') ->
  news_results final <> None \/ web_search_results final <> None ->
  exists nr log hist,
    news_results final = Some nr
    /\ (web_search_results final <> None ->
        news_status nr = "error" \/ List.length (news_articles nr) < 3)
    /\ user_input final = query
    /\ calls s' = (log ++ [CallChainInvoke (respond_input final) hist])%list
    /\ final_response final
       = match chain_invoke W log (respond_input final) hist with
         | Ok r => r
         | Raise e => apology e
         end
    /\ (error final = None
        \/ exists msg, error final = Some ("Classification error: " ++ msg)).
Proof.
  intros Hrun Hsome.
  destruct (run_workflow_returns W query history s s' final Hrun)
    as [st1 [s1 [H1 [[Hr H5] | [Hr [st2 [s2 [st3 [s3 [H2 [Hmid H4]]]]]]]]]]].
  - (* the general path stores no result *)
    exfalso.
    pose proof (run_node_keeps
                  (fun st => (news_results st, web_search_results st))
                  _ _ _ _ _
                  (keeps_part _ (fun '(_, _, n, w, _) => (n, w)) _
                     (classify_query_node_keeps W))
                  (fun _ _ => eq_refl) H1) as E1.
    pose proof (run_node_keeps
                  (fun st => (news_results st, web_search_results st))
                  _ _ _ _ _
                  (keeps_part _ (fun '(_, _, _, n, w, _) => (n, w)) _
                     (handle_general_query_node_keeps W))
                  (fun _ _ => eq_refl) H5) as E5.
    cbn in E1, E5. rewrite E1 in E5. injection E5 as En Ew.
    destruct Hsome as [Hn|Hw]; [now apply Hn | now apply Hw].
  - (* Classify *)
    destruct (run_node_inv _ _ _ _ _ H1) as [_ [Hs1 Hst1]].
    pose proof (run_node_keeps
                  (fun st => (user_input st, news_results st,
                              web_search_results st))
                  _ _ _ _ _
                  (keeps_part _ (fun '(u, _, n, w, _) => (u, n, w)) _
                     (classify_query_node_keeps W))
                  (fun _ _ => eq_refl) H1) as E1.
    cbn in E1. injection E1 as Eu1 En1 Ew1.
    assert (Hag1 : chatbot_agent s1 = true).
    { rewrite <- Hs1.
      apply (classify_query_node_agent W _ "fetch_news"); [reflexivity|].
      rewrite Hs1. rewrite Hst1 in Hr. exact Hr. }
    assert (Herr1 : error st1 = None
                    \/ exists msg,
                         error st1 = Some ("Classification error: " ++ msg)).
    { pose proof (classify_query_node_error W
                    (with_state (initial_state_of query history) s)) as He.
      cbv zeta in He. rewrite Hs1 in He. rewrite Hst1.
      cbn [error set_chat_history].
      destruct He as [He|[e He]]; [left; exact He|right].
      exists (exn_str e). exact He. }
    (* FetchNews *)
    destruct (run_node_inv _ _ _ _ _ H2) as [_ [Hs2 Hst2]].
    pose proof (run_node_keeps
                  (fun st => (user_input st, web_search_results st))
                  _ _ _ _ _
                  (keeps_part _ (fun '(u, _, _, w, _, _) => (u, w)) _
                     (fetch_news_node_keeps W))
                  (fun _ _ => eq_refl) H2) as E2.
    injection E2 as Eu2 Ew2.
    assert (Hag2 : chatbot_agent s2 = true).
    { rewrite <- Hs2. apply fetch_news_node_agent. exact Hag1. }
    assert (Hroute : exists r2, Graph.should_add_web_search st2 = Ok r2).
    { destruct Hmid as [[Hx _]|[Hx _]]; eexists; exact Hx. }
    destruct Hroute as [r2 Hr2].
    assert (Hnews2 : exists nr, news_results st2 = Some nr).
    { unfold Graph.should_add_web_search in Hr2.
      destruct (news_results st2) as [nr|]; [now exists nr | discriminate]. }
    destruct Hnews2 as [nr Hnr].
    assert (Herr2 : error st2 = error st1).
    { pose proof (fetch_news_node_cases W (with_state st1 s1)) as Hc.
      cbv zeta in Hc. rewrite Hs2 in Hc. cbn [state with_state] in Hc.
      rewrite Hst2. cbn [error set_chat_history].
      destruct Hc as [Hc|Hc]; [|exact Hc]. exfalso.
      rewrite Hst2 in Hnr. cbn [news_results set_chat_history] in Hnr.
      rewrite Hc, En1 in Hnr. discriminate Hnr. }
    (* the web search, if any *)
    assert (Hat3 : chatbot_agent s3 = true
                   /\ user_input st3 = query
                   /\ news_results st3 = Some nr
                   /\ error st3 = error st1
                   /\ (web_search_results st3 <> None ->
                       news_status nr = "error"
                       \/ List.length (news_articles nr) < 3)).
    { destruct Hmid as [[Hx [-> ->]] | [Hx H3]].
      - split; [exact Hag2|]. split; [congruence|]. split; [exact Hnr|].
        split; [exact Herr2|].
        intros Hw. exfalso. apply Hw. rewrite Ew2. exact Ew1.
      - destruct (run_node_inv _ _ _ _ _ H3) as [_ [Hs3 _]].
        pose proof (run_node_keeps
                      (fun st => (user_input st, news_results st, error st))
                      _ _ _ _ _
                      (keeps_part _
                         (fun '(u, _, _, n, _, e, _) => (u, n, e)) _
                         (web_search_node_keeps W))
                      (fun _ _ => eq_refl) H3) as E3.
        injection E3 as Eu3 En3 Ee3.
        split; [rewrite <- Hs3; apply web_search_node_agent; exact Hag2|].
        split; [congruence|]. split; [congruence|]. split; [congruence|].
        intros _. unfold Graph.should_add_web_search in Hx. rewrite Hnr in Hx.
        destruct (String.eqb_spec (news_status nr) "error") as [He|He];
          [now left|].
        right. destruct (Nat.ltb_spec (List.length (news_articles nr)) 3);
          [assumption | discriminate Hx]. }
    destruct Hat3 as [Hag3 [Hu3 [Hn3 [He3 Hw3]]]].
    (* Respond *)
    destruct (run_node_inv _ _ _ _ _ H4) as [_ [Hs4 Hst4]].
    pose proof (generate_response_node_with_agent W (with_state st3 s3) Hag3)
      as Hnode.
    cbv zeta in Hnode. cbn [state with_state calls] in Hnode.
    rewrite Hnode in Hs4. cbn [snd] in Hs4.
    assert (Hin : respond_input final = respond_input st3).
    { rewrite Hst4, <- Hs4. reflexivity. }
    exists nr, (calls s3),
      (NewsGenieAgent.format_chat_history (chat_history st3)).
    rewrite Hin. rewrite Hst4, <- Hs4.
    cbn [state with_state log_call calls news_results web_search_results
           user_input final_response error set_chat_history
           set_final_response].
    split; [exact Hn3|]. split; [exact Hw3|]. split; [exact Hu3|].
    split; [reflexivity|]. split; [reflexivity|].
    rewrite He3. exact Herr1.
Qed.

(* ===================================================================== *)
(** ** Web results and the context block in a run *)
(* ===================================================================== *)

(** A joined list starts with the first character of its first part. *)
Lemma join_head (sep : string) (c : ascii) (x : string) (l : list string) :
  exists rest, PyStr.join sep (String c x :: l) = String c rest.
Proof.
  unfold PyStr.join. cbn [String.concat].
  destruct l; eexists; reflexivity.
Qed.

(** The context block built next to a news result dict is never the block
    of the web results: it is empty, or it starts with the heading of the
    news articles. *)
Lemma news_context_is_not_web_context
    (nr : NewsResult) (results : list WebItem) :
  Nodes.build_context (Some nr) None <> web_only_context results.
Proof.
  unfold web_only_context.
  destruct (join_head PyStr.nl (ascii_of_nat 10)
              ("**Additional Information:**" ++ PyStr.nl)
              (map Nodes.format_web_item (enumerate 1 (firstn 3 results))))
    as [rest Hweb].
  change (PyStr.nl ++ "**Additional Information:**" ++ PyStr.nl)
    with (String (ascii_of_nat 10)
            ("**Additional Information:**" ++ PyStr.nl)).
  rewrite Hweb.
  unfold Nodes.build_context, Nodes.news_context_parts.
  cbn [Nodes.web_context_parts]. rewrite app_nil_r.
  destruct (String.eqb _ _); [|discriminate].
  destruct (news_articles nr) as [|a l]; [discriminate|].
  destruct (join_head PyStr.nl "*"%char
              ("*Recent News Articles:**" ++ PyStr.nl)
              (map Nodes.format_news_item (enumerate 1 (firstn 5 (a :: l)))))
    as [rest' Hnews].
  change ("**Recent News Articles:**" ++ PyStr.nl)
    with (String "*"%char ("*Recent News Articles:**" ++ PyStr.nl)).
  cbv zeta. rewrite Hnews. discriminate.
Qed.

(** C1.  What the code does in the case the claim is about.  In every run
    that returns with a web result in its terminal state, a news result
    dict sits next to it: the web search only runs after FetchNews has
    stored one that is an error or has fewer than three articles.  The
    test [not news_results] of generate_response_node looks at that dict,
    which has keys whatever its status, so the web results add nothing to
    the context block, whatever they hold: the block is the one that would
    be built without any web result, it is never the block of the web
    items, and the question the Respond stage sends to the model is built
    from it.  When the news result is an error or has no article the
    block is empty and the model is asked the bare query, although the web
    search ran, and also when it succeeded with results. *)
Theorem web_results_never_reach_the_context
    (W : World) (query : string) (history : option (list Turn))
    (s s' : Store) (final : GraphState) (wr : WebResult) :
  Graph.run_workflow W query history s = (Ok final, s') ->
  web_search_results final = Some wr ->
  let context :=
    Nodes.build_context (news_results final) (web_search_results final) in
  exists nr log hist,
    news_results final = Some nr
    /\ (news_status nr = "error" \/ List.length (news_articles nr) < 3)
    /\ Nodes.web_context_parts (news_results final)
         (web_search_results final) = []
    /\ context = Nodes.build_context (Some nr) None
    /\ context <> web_only_context (ws_results wr)
    /\ calls s' = (log ++ [CallChainInvoke (respond_input final) hist])%list
    /\ respond_input final = Nodes.enhanced_input context query
    /\ respond_input final = respond_input (clear_web_search_results final)
    /\ (news_status nr = "error" \/ news_articles nr = [] ->
        context = EmptyString /\ respond_input final = query).
Proof.
  intros Hrun Hw context. subst context.
  destruct (news_path_run W query history s s' final Hrun)
    as [nr [log [hist [Hn [Hbad [Hu [Hcalls _]]]]]]].
  { right. rewrite Hw. discriminate. }
  exists nr, log, hist.
  assert (Hctx : Nodes.build_context (news_results final)
                   (web_search_results final)
                 = Nodes.build_context (Some nr) None).
  { rewrite Hn. apply build_context_ignores_web. }
  split; [exact Hn|]. split; [apply Hbad; rewrite Hw; discriminate|].
  split; [rewrite Hn; apply web_context_parts_after_news|].
  split; [exact Hctx|].
  split; [rewrite Hctx; apply news_context_is_not_web_context|].
  split; [exact Hcalls|].
  split; [unfold respond_input; now rewrite Hu|].
  split.
  - unfold respond_input, clear_web_search_results.
    cbn [news_results web_search_results user_input]. now rewrite Hctx, Hn.
  - intros Hempty.
    assert (He : Nodes.build_context (Some nr) None = EmptyString).
    { unfold Nodes.build_context, Nodes.news_context_parts.
      destruct Hempty as [He|He]; rewrite He.
      - reflexivity.
      - destruct (String.eqb _ _); reflexivity. }
    split; [now rewrite Hctx|].
    unfold respond_input. rewrite Hctx, He, Hu. reflexivity.
Qed.

Lemma web_results_never_reach_the_context_witness :
  exists final s' nr wr,
    Graph.run_workflow Sample.news_down "latest sports news" None
      Sample.fresh
    = (Ok final, s')
    /\ news_results final = Some nr
    /\ news_status nr = "error"
    /\ web_search_results final = Some wr
    /\ ws_status wr = "success"
    /\ List.length (ws_results wr) = 2
    /\ Nodes.build_context (news_results final) (web_search_results final)
       = EmptyString
    /\ respond_input final = "latest sports news".
Proof.
  evaluate (Graph.run_workflow Sample.news_down "latest sports news" None
              Sample.fresh) as E.
  lazymatch type of E with
  | _ = (Ok ?final, ?s') =>
      destruct (web_results_never_reach_the_context Sample.news_down
                  "latest sports news" None Sample.fresh s' final _
                  E eq_refl)
        as [nr [log [hist [Hn [_ [_ [_ [_ [_ [_ [_ Hempty]]]]]]]]]]];
      exists final, s', nr
  end.
  eexists. split; [exact E|]. split; [exact Hn|].
  injection Hn as <-.
  split; [reflexivity|]. split; [reflexivity|].
  split; [reflexivity|]. split; [reflexivity|].
  exact (Hempty (or_introl eq_refl)).
Defined.

(* ===================================================================== *)
(** ** A stage that catches an exception *)
(* ===================================================================== *)



(** X14.  A run that the first router sends to the general path returns
    a terminal state, calls nothing but the language model on its way, and
    ends with neither news nor web results: no retriever is ever
    touched. *)
Theorem general_route_skips_retrieval
    (W : World) (query : string) (history : option (list Turn))
    (s s1 : Store) (st1 : GraphState) :
  Graph.run_node (Nodes.classify_query_node W)
    (initial_state_of query history) s = (Ok st1, s1) ->
  Graph.should_fetch_news st1 = Ok "handle_general" ->
  exists final s2 l,
    Graph.run_workflow W query history s = (Ok final, s2)
    /\ calls s2 = (calls s ++ l)%list
    /\ forallb is_model_call l = true
    /\ (forall c, In c l -> is_retrieval_call c = false)
    /\ news_results final = None
    /\ web_search_results final = None
    /\ query_classification final = query_classification st1
    /\ user_input final = query.
Proof.
  intros H1 Hr.
  rewrite (run_workflow_sequential W query history s).
  unfold sequential_workflow, bind, lift. rewrite H1, Hr.
  cbn [String.eqb Ascii.eqb Bool.eqb andb].
  destruct (run_node_returns W Graph.handle_general st1 s1)
    as [final [s2 H2]].
  cbn [Graph.create_workflow Graph.nodes] in H2.
  pose proof (classify_query_node_keeps W) as K1.
  pose proof (handle_general_query_node_keeps W) as K5.
  pose proof (classify_query_node_logs W) as L1.
  pose proof (handle_general_query_node_logs W) as L5.
  destruct (run_node_logs _ _ _ _ _ _ L1 H1) as [l1 [Hl1 Ha1]].
  destruct (run_node_logs _ _ _ _ _ _ L5 H2) as [l2 [Hl2 Ha2]].
  pose proof (run_node_keeps
                (fun st => (user_input st, news_results st,
                            web_search_results st))
                _ _ _ _ _
                (keeps_part _ (fun '(u, _, n, w, _) => (u, n, w)) _ K1)
                (fun _ _ => eq_refl) H1) as E1.
  pose proof (run_node_keeps
                (fun st => (user_input st, query_classification st,
                            news_results st, web_search_results st))
                _ _ _ _ _
                (keeps_part _ (fun '(u, _, q, n, w, _) => (u, q, n, w)) _ K5)
                (fun _ _ => eq_refl) H2) as E5.
  cbn in E1. injection E1 as Eu1 En1 Ew1.
  injection E5 as Eu5 Eq5 En5 Ew5.
  exists final, s2, (l1 ++ l2)%list. rewrite H2.
  split; [reflexivity|]. split; [now rewrite Hl2, Hl1, app_assoc|].
  assert (Hall : forallb is_model_call (l1 ++ l2) = true)
    by now rewrite forallb_app, Ha1, Ha2.
  split; [exact Hall|]. split.
  - intros c Hc. rewrite forallb_forall in Hall. specialize (Hall c Hc).
    destruct c; try discriminate; reflexivity.
  - repeat split; congruence.
Qed.

Lemma general_route_skips_retrieval_witness :
  exists final s2 l,
    Graph.run_workflow Sample.general_question "How do I learn Python?" None
      Sample.fresh
    = (Ok final, s2)
    /\ calls s2 = l
    /\ forallb is_model_call l = true
    /\ news_results final = None.
Proof.
  destruct (general_route_skips_retrieval Sample.general_question
              "How do I learn Python?" None Sample.fresh _ _
              eq_refl eq_refl)
    as [final [s2 [l [H1 [H2 [H3 [_ [H4 _]]]]]]]].
  exists final, s2, l. repeat split; assumption.
Defined.

(** X15.  A run on the news path whose fetch stored a result the second
    router accepts (three articles or more, and no error) goes straight
    to Respond: it returns a terminal state that keeps that news result,
    has no web result, and no call to DuckDuckGo was made. *)
Theorem sufficient_news_skips_web_search
    (W : World) (query : string) (history : option (list Turn))
    (s s1 s2 : Store) (st1 st2 : GraphState) :
  Graph.run_node (Nodes.classify_query_node W)
    (initial_state_of query history) s = (Ok st1, s1) ->
  Graph.should_fetch_news st1 = Ok "fetch_news" ->
  Graph.run_node (Nodes.fetch_news_node W) st1 s1 = (Ok st2, s2) ->
  Graph.should_add_web_search st2 = Ok "generate_response" ->
  exists final s3 l,
    Graph.run_workflow W query history s = (Ok final, s3)
    /\ calls s3 = (calls s ++ l)%list
    /\ (forall c, In c l -> is_web_call c = false)
    /\ news_results final = news_results st2
    /\ web_search_results final = None
    /\ query_classification final = query_classification st1.
Proof.
  intros H1 Hr1 H2 Hr2.
  rewrite (run_workflow_sequential W query history s).
  unfold sequential_workflow, bind, lift. rewrite H1, Hr1.
  cbn [String.eqb Ascii.eqb Bool.eqb andb]. rewrite H2, Hr2.
  cbn [String.eqb Ascii.eqb Bool.eqb andb].
  destruct (run_node_returns W Graph.generate_response st2 s2)
    as [final [s3 H3]].
  cbn [Graph.create_workflow Graph.nodes] in H3.
  pose proof (classify_query_node_keeps W) as K1.
  pose proof (fetch_news_node_keeps W) as K2.
  pose proof (generate_response_node_keeps W) as K4.
  pose proof (classify_query_node_logs W) as L1.
  pose proof (fetch_news_node_logs W) as L2.
  pose proof (generate_response_node_logs W) as L4.
  destruct (run_node_logs _ _ _ _ _ _ L1 H1) as [l1 [Hl1 Ha1]].
  destruct (run_node_logs _ _ _ _ _ _ L2 H2) as [l2 [Hl2 Ha2]].
  destruct (run_node_logs _ _ _ _ _ _ L4 H3) as [l3 [Hl3 Ha3]].
  pose proof (run_node_keeps (fun st => web_search_results st)
                _ _ _ _ _
                (keeps_part _ (fun '(_, _, _, w, _) => w) _ K1)
                (fun _ _ => eq_refl) H1) as E1.
  pose proof (run_node_keeps
                (fun st => (query_classification st, web_search_results st))
                _ _ _ _ _
                (keeps_part _ (fun '(_, _, q, w, _, _) => (q, w)) _ K2)
                (fun _ _ => eq_refl) H2) as E2.
  pose proof (run_node_keeps
                (fun st => (query_classification st, news_results st,
                            web_search_results st))
                _ _ _ _ _
                (keeps_part _ (fun '(_, _, q, n, w, _) => (q, n, w)) _ K4)
                (fun _ _ => eq_refl) H3) as E3.
  cbn in E1. injection E2 as Eq2 Ew2. injection E3 as Eq3 En3 Ew3.
  exists final, s3, (l1 ++ l2 ++ l3)%list. rewrite H3.
  split; [reflexivity|].
  split; [now rewrite Hl3, Hl2, Hl1, <- !app_assoc|]. split.
  - intros c Hc. rewrite forallb_forall in Ha1, Ha2, Ha3.
    apply in_app_or in Hc. destruct Hc as [Hc|Hc];
      [|apply in_app_or in Hc; destruct Hc as [Hc|Hc]].
    + specialize (Ha1 c Hc). destruct c; try discriminate; reflexivity.
    + specialize (Ha2 c Hc). destruct c; try discriminate; reflexivity.
    + specialize (Ha3 c Hc). destruct c; try discriminate; reflexivity.
  - repeat split; congruence.
Qed.

Lemma sufficient_news_skips_web_search_witness :
  exists final s3,
    Graph.run_workflow Sample.healthy "What's the latest technology news?"
      None Sample.fresh
    = (Ok final, s3)
    /\ web_search_results final = None
    /\ (forall c, In c (calls s3) -> is_web_call c = false).
Proof.
  evaluate (Graph.run_node (Nodes.classify_query_node Sample.healthy)
              (initial_state_of "What's the latest technology news?" None)
              Sample.fresh) as E1.
  lazymatch type of E1 with
  | _ = (Ok ?st1, ?s1) =>
      evaluate (Graph.run_node (Nodes.fetch_news_node Sample.healthy) st1 s1)
        as E2
  end.
  destruct (sufficient_news_skips_web_search Sample.healthy
              "What's the latest technology news?" None Sample.fresh
              _ _ _ _ E1 ltac:(vm_compute; reflexivity) E2
              ltac:(vm_compute; reflexivity))
    as [final [s3 [l [H1 [H2 [H3 [_ [H4 _]]]]]]]].
  exists final, s3. repeat split; [exact H1 | exact H4 |].
  rewrite H2. exact H3.
Defined.

(** X16.  A run on the news path whose fetch stored a result the second
    router finds wanting (an error, or fewer than three articles) goes
    through the web search and then always on to Respond, whether the web
    search worked or not: the run returns a terminal state with a web
    result stored, the news result kept, and the web search node has not
    touched the error key. *)
Theorem insufficient_news_runs_web_search
    (W : World) (query : string) (history : option (list Turn))
    (s s1 s2 : Store) (st1 st2 : GraphState) :
  Graph.run_node (Nodes.classify_query_node W)
    (initial_state_of query history) s = (Ok st1, s1) ->
  Graph.should_fetch_news st1 = Ok "fetch_news" ->
  Graph.run_node (Nodes.fetch_news_node W) st1 s1 = (Ok st2, s2) ->
  Graph.should_add_web_search st2 = Ok "web_search" ->
  exists st3 s3 final s4 r,
    Graph.run_node (Nodes.web_search_node W) st2 s2 = (Ok st3, s3)
    /\ web_search_results st3 = Some r
    /\ (ws_status r = "success" \/ ws_status r = "error")
    /\ error st3 = error st2
    /\ Graph.run_workflow W query history s = (Ok final, s4)
    /\ Graph.run_node (Nodes.generate_response_node W) st3 s3
       = (Ok final, s4)
    /\ web_search_results final = Some r
    /\ news_results final = news_results st2.
Proof.
  intros H1 Hr1 H2 Hr2.
  rewrite (run_workflow_sequential W query history s).
  unfold sequential_workflow, bind, lift. rewrite H1, Hr1.
  cbn [String.eqb Ascii.eqb Bool.eqb andb]. rewrite H2, Hr2.
  cbn [String.eqb Ascii.eqb Bool.eqb andb].
  destruct (run_node_returns W Graph.web_search st2 s2) as [st3 [s3 H3']].
  cbn [Graph.create_workflow Graph.nodes] in H3'.
  destruct (run_node_returns W Graph.generate_response st3 s3)
    as [final [s4 H4']].
  cbn [Graph.create_workflow Graph.nodes] in H4'.
  pose proof (web_search_node_keeps W) as K3.
  pose proof (generate_response_node_keeps W) as K4.
  pose proof (run_node_keeps
                (fun st => (news_results st, error st))
                _ _ _ _ _
                (keeps_part _ (fun '(_, _, _, n, _, e, _) => (n, e)) _ K3)
                (fun _ _ => eq_refl) H3') as E3.
  pose proof (run_node_keeps
                (fun st => (news_results st, web_search_results st))
                _ _ _ _ _
                (keeps_part _ (fun '(_, _, _, n, w, _) => (n, w)) _ K4)
                (fun _ _ => eq_refl) H4') as E4.
  injection E3 as En3 Ee3. injection E4 as En4 Ew4.
  assert (Hweb : exists r, web_search_results st3 = Some r
                           /\ (ws_status r = "success"
                               \/ ws_status r = "error")).
  { destruct (run_node_inv _ _ _ _ _ H3') as [_ [Hs ->]].
    cbn [web_search_results set_chat_history]. rewrite <- Hs.
    unfold Nodes.web_search_node, Nodes.web_search_body, try_except.
    unfold bind at 1.
    destruct (Nodes.get_web_search_tool W (with_state st2 s2))
      as [[[]|e] sa].
    - unfold bind at 1, get_state. unfold bind.
      destruct (search_outcome W
                  (user_input (state sa)) (Some 5%Z) "wt-wt" sa)
        as [r [Hsr [Hshape _]]].
      rewrite Hsr. cbn. exists r. split; [reflexivity|].
      destruct Hshape as [[Hx _]|[Hx _]]; auto.
    - cbn. eexists. split; [reflexivity|]. now right. }
  destruct Hweb as [r [Hr Hst]].
  exists st3, s3, final, s4, r. rewrite H3', H4'.
  repeat split; try assumption; congruence.
Qed.

Lemma insufficient_news_runs_web_search_witness :
  exists final s4 r,
    Graph.run_workflow Sample.news_down "latest sports news" None
      Sample.fresh
    = (Ok final, s4)
    /\ web_search_results final = Some r.
Proof.
  evaluate (Graph.run_node (Nodes.classify_query_node Sample.news_down)
              (initial_state_of "latest sports news" None) Sample.fresh)
    as E1.
  lazymatch type of E1 with
  | _ = (Ok ?st1, ?s1) =>
      evaluate (Graph.run_node (Nodes.fetch_news_node Sample.news_down)
                  st1 s1) as E2
  end.
  destruct (insufficient_news_runs_web_search Sample.news_down
              "latest sports news" None Sample.fresh
              _ _ _ _ E1 ltac:(vm_compute; reflexivity) E2
              ltac:(vm_compute; reflexivity))
    as [st3 [s3 [final [s4 [r [_ [_ [_ [_ [H1 [_ [H2 _]]]]]]]]]]]].
  exists final, s4, r. split; assumption.
Defined.


(* ===================================================================== *)
(** ** Failures that are absorbed *)
(* ===================================================================== *)




(** X19.  The web search node absorbs every failure into the web result
    it stores.  When the tool cannot be built the result is the error
    dict whose message is the bare text of the exception; when the search
    itself fails it is the error dict of [search], with the prefix Search
    failed.  In both cases the error key of the state stays as it was. *)
Theorem web_search_node_absorbs_failures (W : World) (s : Store) (e : exn) :
  (forall s1,
      Nodes.get_web_search_tool W s = (Raise e, s1) ->
      Nodes.web_search_node W s
      = (Ok tt,
         with_state
           (set_web_search_results
              (mk_web_result "error" None None [] (exn_str e)) (state s))
           s1))
  /\ (forall s1,
        Nodes.get_web_search_tool W s = (Ok tt, s1) ->
        ddgs_text W (calls s1) (user_input (state s)) "wt-wt" 5 = Raise e ->
        Nodes.web_search_node W s
        = (Ok tt,
           with_state
             (set_web_search_results
                (mk_web_result "error" None None []
                   ("Search failed: " ++ exn_str e))
                (state s))
             (log_call (CallDdgsText (user_input (state s)) "wt-wt" 5) s1)))
  /\ error (state (snd (Nodes.web_search_node W s))) = error (state s).
Proof.
  split; [|split].
  - intros s1 Hg. pose proof (get_web_search_tool_state W s) as Hst.
    rewrite Hg in Hst. cbn [snd] in Hst.
    unfold Nodes.web_search_node, Nodes.web_search_body, try_except.
    unfold bind at 1. rewrite Hg. unfold modify_state. now rewrite Hst.
  - intros s1 Hg Hd. pose proof (get_web_search_tool_state W s) as Hst.
    rewrite Hg in Hst. cbn [snd] in Hst.
    unfold Nodes.web_search_node, Nodes.web_search_body, try_except.
    unfold bind at 1. rewrite Hg. unfold bind at 1, get_state.
    rewrite Hst. unfold bind, WebSearchTool.search. unfold_monad. cbv zeta.
    change (or_default (Some 5%Z) WebSearchTool.max_results_default)
      with 5%Z.
    rewrite Hd. cbn [state log_call with_state]. now rewrite Hst.
  - exact (keeps_part _ (fun '(_, _, _, _, _, x, _) => x) _
             (web_search_node_keeps W) s).
Qed.

Lemma web_search_node_absorbs_failures_witness :
  web_search_results
    (state (snd (Nodes.web_search_node Sample.web_down Sample.fresh)))
  = Some (mk_web_result "error" None None [] "unreachable").
Proof.
  rewrite (proj1 (web_search_node_absorbs_failures Sample.web_down
                    Sample.fresh
                    (mk_exn "DuckDuckGoSearchException" "unreachable"))
             _ eq_refl).
  reflexivity.
Defined.

(* ===================================================================== *)
(** ** What the prompt holds *)
(* ===================================================================== *)

Lemma occurs_in_refl (s : string) : occurs_in s s.
Proof.
  exists EmptyString, EmptyString. cbn. induction s; cbn; congruence.
Qed.

Lemma append_assoc (a b c : string) : (a ++ b) ++ c = a ++ (b ++ c).
Proof. induction a; cbn; congruence. Qed.

Lemma occurs_in_append_l (sub a b : string) :
  occurs_in sub a -> occurs_in sub (a ++ b).
Proof.
  intros [pre [post ->]]. exists pre, (post ++ b).
  now rewrite !append_assoc.
Qed.

Lemma occurs_in_append_r (sub a b : string) :
  occurs_in sub b -> occurs_in sub (a ++ b).
Proof.
  intros [pre [post ->]]. exists (a ++ pre), post.
  now rewrite !append_assoc.
Qed.

Lemma occurs_in_trans (a b c : string) :
  occurs_in a b -> occurs_in b c -> occurs_in a c.
Proof.
  intros [p1 [q1 ->]] [p2 [q2 ->]]. exists (p2 ++ p1), (q1 ++ q2).
  now rewrite !append_assoc.
Qed.

(** Every part occurs in the joined text. *)
Lemma occurs_in_join (sep x : string) (parts : list string) :
  In x parts -> occurs_in x (PyStr.join sep parts).
Proof.
  unfold PyStr.join. induction parts as [|y rest IH]; [contradiction|].
  intros [->|Hin]; cbn [String.concat].
  - destruct rest; [apply occurs_in_refl|].
    apply occurs_in_append_l, occurs_in_refl.
  - destruct rest as [|z rest']; [contradiction|].
    apply occurs_in_append_r, occurs_in_append_r, IH, Hin.
Qed.

Lemma enumerate_nth_error {A} (l : list A) (start i : nat) (a : A) :
  nth_error l i = Some a ->
  nth_error (enumerate start l) i = Some (start + i, a).
Proof.
  revert start i. induction l as [|x r IH]; intros start [|i] H;
    try discriminate.
  - injection H as <-. cbn. now rewrite Nat.add_0_r.
  - cbn in *. rewrite (IH (S start) i H). f_equal. f_equal. lia.
Qed.

(** X20.  Each of the first five articles of a successful news result is
    listed in the context block under its number, counted from 1, with
    its title, source, description and URL, whatever web results there
    are.  The same holds for each of the first three web results, with
    title, snippet and URL, when the state holds no news result. *)
Theorem context_lists_every_item (i : nat) :
  (forall nr wr a,
      news_status nr = "success" ->
      nth_error (news_articles nr) i = Some a -> i < 5 ->
      let context := Nodes.build_context (Some nr) wr in
      occurs_in
        (PyStr.of_nat (i + 1) ++ ". " ++ text_str (art_title a) ++ PyStr.nl
         ++ "   Source: " ++ text_str (art_source a) ++ PyStr.nl
         ++ "   " ++ text_str (art_description a) ++ PyStr.nl
         ++ "   URL: " ++ text_str (art_url a) ++ PyStr.nl)
        context
      /\ occurs_in "**Recent News Articles:**" context)
  /\ (forall wr w,
        ws_status wr = "success" ->
        nth_error (ws_results wr) i = Some w -> i < 3 ->
        let context := Nodes.build_context None (Some wr) in
        occurs_in
          (PyStr.of_nat (i + 1) ++ ". " ++ text_str (web_title w) ++ PyStr.nl
           ++ "   " ++ text_str (web_snippet w) ++ PyStr.nl
           ++ "   URL: " ++ text_str (web_url w) ++ PyStr.nl)
          context
        /\ occurs_in "**Additional Information:**" context).
Proof.
  split.
  - intros nr wr a Hs Hn Hi context. subst context.
    assert (Hne : news_articles nr <> []).
    { intros E. rewrite E in Hn. destruct i; discriminate. }
    rewrite (build_context_news nr wr Hs Hne). unfold news_only_context.
    split.
    + apply occurs_in_join. right. apply in_map_iff.
      exists (S i, a). split.
      * cbn [Nodes.format_news_item]. now rewrite Nat.add_1_r.
      * apply (nth_error_In _ i).
        rewrite (enumerate_nth_error _ 1 i a); [reflexivity|].
        rewrite nth_error_firstn.
        destruct (Nat.ltb_spec i 5) as [_|Hge]; [exact Hn | lia].
    + eapply occurs_in_trans; [|apply occurs_in_join; now left].
      apply occurs_in_append_l, occurs_in_refl.
  - intros wr w Hs Hn Hi context. subst context.
    assert (Hne : ws_results wr <> []).
    { intros E. rewrite E in Hn. destruct i; discriminate. }
    rewrite (build_context_web wr Hs Hne). unfold web_only_context.
    split.
    + apply occurs_in_join. right. apply in_map_iff.
      exists (S i, w). split.
      * cbn [Nodes.format_web_item]. now rewrite Nat.add_1_r.
      * apply (nth_error_In _ i).
        rewrite (enumerate_nth_error _ 1 i w); [reflexivity|].
        rewrite nth_error_firstn.
        destruct (Nat.ltb_spec i 3) as [_|Hge]; [exact Hn | lia].
    + eapply occurs_in_trans; [|apply occurs_in_join; now left].
      apply occurs_in_append_r, occurs_in_append_l, occurs_in_refl.
Qed.

Lemma context_lists_every_item_witness :
  occurs_in
    ("2. Title 2" ++ PyStr.nl ++ "   Source: Example Times" ++ PyStr.nl
     ++ "   Description 2" ++ PyStr.nl
     ++ "   URL: https://news.example/2" ++ PyStr.nl)
    (Nodes.build_context
       (Some (Sample.news_ok (map Sample.article ["1"; "2"; "3"]))) None).
Proof.
  refine (proj1 (proj1 (context_lists_every_item 1)
                   (Sample.news_ok (map Sample.article ["1"; "2"; "3"]))
                   None (Sample.article "2") eq_refl eq_refl _)).
  lia.
Defined.

(** X21.  The context block is empty exactly when neither source
    contributes: the news result is missing, unsuccessful or without
    articles, and the web result is unused (a news result is present) or
    missing, unsuccessful or without results.  With an empty block the
    model is asked the query as typed; otherwise the prompt holds the
    block and, after it, the query. *)
Theorem empty_context_means_bare_query
    (news : option NewsResult) (web : option WebResult) (query : string) :
  let context := Nodes.build_context news web in
  let news_usable :=
    exists nr, news = Some nr /\ news_status nr = "success"
               /\ news_articles nr <> [] in
  let web_usable :=
    news = None
    /\ exists wr, web = Some wr /\ ws_status wr = "success"
                  /\ ws_results wr <> [] in
  (context = EmptyString <-> ~ news_usable /\ ~ web_usable)
  /\ (context = EmptyString -> Nodes.enhanced_input context query = query)
  /\ (context <> EmptyString ->
      occurs_in context (Nodes.enhanced_input context query)
      /\ occurs_in ("User's question: " ++ query)
           (Nodes.enhanced_input context query)
      /\ PyStr.startswith (Nodes.enhanced_input context query)
           "Based on the following information" = true).
Proof.
  cbv zeta. split; [|split].
  - destruct news as [nr|].
    + rewrite build_context_ignores_web.
      unfold Nodes.build_context, Nodes.news_context_parts.
      destruct (String.eqb_spec (news_status nr) "success") as [Hs|Hs].
      * destruct (news_articles nr) as [|a l] eqn:Ea.
        -- split; [intros _|reflexivity]. split.
           ++ intros [nr' [H1 [_ H3]]]. injection H1 as <-. congruence.
           ++ intros [H _]. discriminate.
        -- split.
           ++ cbn. unfold PyStr.join. cbn [String.concat].
              destruct (map _ _); discriminate.
           ++ intros [H _]. exfalso. apply H. exists nr.
              rewrite Ea. repeat split; [assumption|discriminate].
      * split; [intros _|reflexivity]. split.
        -- intros [nr' [H1 [H2 _]]]. injection H1 as <-. contradiction.
        -- intros [H _]. discriminate.
    + unfold Nodes.build_context, Nodes.news_context_parts,
        Nodes.web_context_parts. cbn [app].
      destruct web as [wr|].
      * destruct (String.eqb_spec (ws_status wr) "success") as [Hs|Hs].
        -- destruct (ws_results wr) as [|w l] eqn:Ew.
           ++ split; [intros _|reflexivity]. split.
              ** intros [nr' [H1 _]]. discriminate.
              ** intros [_ [wr' [H1 [_ H3]]]]. injection H1 as <-. congruence.
           ++ split.
              ** cbn. unfold PyStr.join. cbn [String.concat].
                 destruct (map _ _); discriminate.
              ** intros [_ H]. exfalso. apply H. split; [reflexivity|].
                 exists wr. rewrite Ew.
                 repeat split; [assumption|discriminate].
        -- split; [intros _|reflexivity]. split.
           ++ intros [nr' [H1 _]]. discriminate.
           ++ intros [_ [wr' [H1 [H2 _]]]]. injection H1 as <-.
              contradiction.
      * split; [intros _|reflexivity]. split.
        -- intros [nr' [H1 _]]. discriminate.
        -- intros [_ [wr' [H1 _]]]. discriminate.
  - intros ->. reflexivity.
  - intros Hne. unfold Nodes.enhanced_input.
    destruct (Nodes.build_context news web) as [|c r] eqn:E;
      [contradiction|].
    cbn [PyStr.truthy]. split; [|split].
    + apply occurs_in_append_r, occurs_in_append_r, occurs_in_append_r.
      apply occurs_in_append_l, occurs_in_refl.
    + do 6 apply occurs_in_append_r.
      rewrite <- append_assoc.
      apply occurs_in_append_l, occurs_in_refl.
    + reflexivity.
Qed.

(* ===================================================================== *)
(** ** The code fence around the classifier's answer *)
(* ===================================================================== *)

Section FenceFacts.
Import PyStr.

Lemma length_app (a b : string) :
  String.length (a ++ b) = String.length a + String.length b.
Proof. induction a; cbn; congruence. Qed.

Lemma drop_app (a b : string) : drop (String.length a) (a ++ b) = b.
Proof. induction a; cbn; [now destruct b|assumption]. Qed.

Lemma take_app (a b : string) : take (String.length a) (a ++ b) = a.
Proof. induction a; cbn; [now destruct b|congruence]. Qed.

Lemma endswith_app (a p : string) : endswith (a ++ p) p = true.
Proof.
  unfold endswith. rewrite length_app.
  replace (String.length a + String.length p - String.length p)
    with (String.length a) by lia.
  rewrite drop_app, String.eqb_refl, andb_true_r.
  apply Nat.leb_le. lia.
Qed.

Lemma drop_last_app (a p : string) :
  drop_last (String.length p) (a ++ p) = a.
Proof.
  unfold drop_last. rewrite length_app.
  replace (String.length a + String.length p - String.length p)
    with (String.length a) by lia.
  apply take_app.
Qed.

Lemma lstrip_length (s : string) :
  String.length (lstrip s) <= String.length s.
Proof.
  induction s as [|c r IH]; cbn; [lia|]. destruct (is_space c); cbn; lia.
Qed.

Lemma rstrip_length (s : string) :
  String.length (rstrip s) <= String.length s.
Proof.
  induction s as [|c r IH]; cbn; [lia|].
  destruct (rstrip r); [destruct (is_space c)|]; cbn in *; lia.
Qed.

(** A text that [strip] leaves alone starts and ends with no space. *)
Lemma strip_fixed (s : string) :
  strip s = s -> lstrip s = s /\ rstrip s = s.
Proof.
  unfold strip. intros H.
  assert (Hl : lstrip s = s).
  { destruct s as [|c r]; [reflexivity|]. cbn in *.
    destruct (is_space c); [|reflexivity]. exfalso.
    pose proof (rstrip_length (lstrip r)) as H1.
    pose proof (lstrip_length r) as H2.
    rewrite H in H1. cbn in H1. lia. }
  split; [exact Hl|]. now rewrite Hl in H.
Qed.

Lemma rstrip_app_kept (a b : string) :
  rstrip b <> EmptyString -> rstrip (a ++ b) = a ++ rstrip b.
Proof.
  intros Hb. induction a as [|c r IH]; [reflexivity|].
  cbn [append rstrip]. rewrite IH.
  destruct (r ++ rstrip b) eqn:E; [|reflexivity].
  destruct r; [cbn in E; contradiction | discriminate].
Qed.

Lemma rstrip_app_dropped (a b : string) :
  rstrip b = EmptyString -> rstrip (a ++ b) = rstrip a.
Proof.
  intros Hb. induction a as [|c r IH]; [exact Hb|].
  cbn [append rstrip]. now rewrite IH.
Qed.

(** Between two line breaks, a text that [strip] leaves alone comes back. *)
Lemma strip_between_newlines (body : string) :
  strip body = body -> strip (nl ++ body ++ nl) = body.
Proof.
  intros H. destruct (strip_fixed body H) as [Hl Hr].
  unfold strip. change (lstrip (nl ++ body ++ nl)) with (lstrip (body ++ nl)).
  destruct body as [|c r]; [reflexivity|].
  cbn [append lstrip] in *. destruct (is_space c) eqn:Ec.
  - exfalso. pose proof (lstrip_length r) as H1. rewrite Hl in H1.
    cbn in H1. lia.
  - change (String c (r ++ nl)) with (String c r ++ nl).
    rewrite rstrip_app_dropped; [exact Hr | reflexivity].
Qed.

End FenceFacts.

(** X22.  A JSON text that has no space at either end comes back out of
    its markdown fence: wrapped in a fence with the tag json, or in a
    plain fence, each fence on a line of its own, [strip_code_fence]
    returns the text itself; a text without any fence is returned as it
    is.  So the JSON parser of [classify_query] sees the bare text. *)
Theorem strip_code_fence_unwraps (body : string) :
  PyStr.strip body = body ->
  let fence := "```" in
  NewsGenieAgent.strip_code_fence
    (fence ++ "json" ++ PyStr.nl ++ body ++ PyStr.nl ++ fence) = body
  /\ NewsGenieAgent.strip_code_fence
       (fence ++ PyStr.nl ++ body ++ PyStr.nl ++ fence) = body
  /\ (PyStr.startswith body fence = false ->
      PyStr.endswith body fence = false ->
      NewsGenieAgent.strip_code_fence body = body)
  /\ (forall W query s,
        llm_invoke W (calls s) (NewsGenieAgent.classification_prompt query)
        = Ok (fence ++ "json" ++ PyStr.nl ++ body ++ PyStr.nl ++ fence) ->
        fst (NewsGenieAgent.classify_query W query s)
        = Ok (match json_loads W body with
              | Ok r => r
              | Raise _ => NewsGenieAgent.default_classification
              end)).
Proof.
  intros Hb fence.
  assert (Hr : forall a, PyStr.rstrip (a ++ fence) = a ++ fence).
  { intros a. rewrite rstrip_app_kept; [reflexivity | discriminate]. }
  set (inner := PyStr.nl ++ body ++ PyStr.nl).
  assert (Hinner : forall a,
             PyStr.strip
               (if PyStr.endswith (inner ++ fence) fence
                then PyStr.drop_last 3 (inner ++ fence) else a)
             = body).
  { intros a. rewrite endswith_app.
    change 3 with (String.length fence). rewrite drop_last_app.
    now apply strip_between_newlines. }
  assert (Hjson : NewsGenieAgent.strip_code_fence
                    (fence ++ "json" ++ PyStr.nl ++ body ++ PyStr.nl ++ fence)
                  = body).
  { replace (fence ++ "json" ++ PyStr.nl ++ body ++ PyStr.nl ++ fence)
      with (("```json" ++ inner) ++ fence)
      by (cbn; now rewrite append_assoc).
    unfold NewsGenieAgent.strip_code_fence.
    assert (H1 : PyStr.strip (("```json" ++ inner) ++ fence)
                 = ("```json" ++ inner) ++ fence).
    { unfold PyStr.strip.
      change (PyStr.lstrip (("```json" ++ inner) ++ fence))
        with (("```json" ++ inner) ++ fence).
      apply Hr. }
    rewrite H1.
    change (PyStr.startswith (("```json" ++ inner) ++ fence) "```json")
      with true.
    cbv iota.
    change (PyStr.drop 7 (("```json" ++ inner) ++ fence))
      with (inner ++ fence).
    change (PyStr.startswith (inner ++ fence) "```") with false.
    cbv iota. apply Hinner. }
  split; [exact Hjson|split; [|split]].
  - replace (fence ++ PyStr.nl ++ body ++ PyStr.nl ++ fence)
      with ((fence ++ inner) ++ fence)
      by (cbn; now rewrite append_assoc).
    unfold NewsGenieAgent.strip_code_fence.
    assert (H1 : PyStr.strip ((fence ++ inner) ++ fence)
                 = (fence ++ inner) ++ fence).
    { unfold PyStr.strip.
      change (PyStr.lstrip ((fence ++ inner) ++ fence))
        with ((fence ++ inner) ++ fence).
      apply Hr. }
    rewrite H1.
    change (PyStr.startswith ((fence ++ inner) ++ fence) "```json")
      with false.
    cbv iota.
    change (PyStr.startswith ((fence ++ inner) ++ fence) "```") with true.
    cbv iota.
    change (PyStr.drop 3 ((fence ++ inner) ++ fence)) with (inner ++ fence).
    apply Hinner.
  - intros Hs He. unfold NewsGenieAgent.strip_code_fence. rewrite Hb.
    assert (Hj : PyStr.startswith body "```json" = false).
    { destruct (PyStr.startswith body "```json") eqn:E; [|reflexivity].
      apply startswith_iff_prefix in E. destruct E as [post E].
      rewrite E in Hs. discriminate Hs. }
    unfold fence in Hs, He. rewrite Hj, Hs, He. exact Hb.
  - intros W query s Hllm. rewrite classify_query_eq, Hllm. cbn [fst].
    fold fence. rewrite Hjson. destruct (json_loads W body); reflexivity.
Qed.

Lemma strip_code_fence_unwraps_witness :
  NewsGenieAgent.strip_code_fence
    ("```" ++ "json" ++ PyStr.nl ++ "{ }" ++ PyStr.nl ++ "```")
  = "{ }".
Proof.
  exact (proj1 (strip_code_fence_unwraps "{ }" eq_refl)).
Defined.

(* ===================================================================== *)
(** ** More on the fetcher *)
(* ===================================================================== *)

(** X23.  The letter case of a category does not matter:
    [get_news_by_category] does for a category what it does for its
    lowercased form, and for a valid one it asks NewsAPI for the top
    headlines of the lowercased category, ten of them. *)
Theorem get_news_by_category_ignores_case
    (W : World) (category country : string) (s : Store) :
  NewsFetcher.get_news_by_category W category country s
  = NewsFetcher.get_news_by_category W (PyStr.lower category) country s
  /\ (In (PyStr.lower category) Settings.news_categories ->
      calls (snd (NewsFetcher.get_news_by_category W category country s))
      = (calls s ++
         [CallTopHeadlines (Some (PyStr.lower category)) country 10])%list).
Proof.
  split.
  - unfold NewsFetcher.get_news_by_category. now rewrite lower_idempotent.
  - intros Hin. unfold NewsFetcher.get_news_by_category.
    rewrite (proj2 (mem_iff_In _ _) Hin). cbn [negb].
    rewrite get_top_headlines_eq. reflexivity.
Qed.

Lemma get_news_by_category_ignores_case_witness :
  calls (snd (NewsFetcher.get_news_by_category Sample.healthy "Science" "us"
                Sample.fresh))
  = [CallTopHeadlines (Some "science") "us" 10].
Proof.
  refine (proj2 (get_news_by_category_ignores_case Sample.healthy "Science"
                   "us" Sample.fresh) _).
  simpl. tauto.
Defined.

(** X24.  The sizes and dates a fetch asks for.  A page size (or a
    number of web results) that is missing or 0 is replaced by the
    default: 10 for NewsAPI, 5 for DuckDuckGo; any other number is passed
    on.  [search_news] passes given dates on without reading the clock,
    and without dates it asks for the seven days up to now. *)
Theorem fetch_sizes_and_dates
    (W : World) (category : option string) (country query language sort_by
     region : string) (size : option Z) (from_day to_day : Z) (s : Store) :
  let asked default :=
    match size with
    | Some n => if (n =? 0)%Z then default else n
    | None => default
    end in
  calls (snd (NewsFetcher.get_top_headlines W category country size s))
  = (calls s ++ [CallTopHeadlines category country (asked 10%Z)])%list
  /\ calls (snd (WebSearchTool.search W query size region s))
     = (calls s ++ [CallDdgsText query region (asked 5%Z)])%list
  /\ calls (snd (NewsFetcher.search_news W query (Some from_day)
                   (Some to_day) language sort_by size s))
     = (calls s ++
        [CallEverything query from_day to_day language sort_by
           (asked 10%Z)])%list
  /\ calls (snd (NewsFetcher.search_news W query None None language sort_by
                   size s))
     = (calls s ++
        [ CallNow; CallNow;
          CallEverything query (datetime_now W (calls s) - 7)
            (datetime_now W (calls s ++ [CallNow])) language sort_by
            (asked 10%Z) ])%list.
Proof.
  cbv zeta. split; [|split; [|split]].
  - rewrite get_top_headlines_eq. reflexivity.
  - destruct (search_outcome W query size region s)
      as [r [-> _]]. reflexivity.
  - unfold NewsFetcher.search_news. unfold_monad. cbv zeta.
    destruct (client_get_everything W _ _ _ _ _ _ _) as [response|e];
      [destruct (NewsFetcher._format_response response)|]; reflexivity.
  - rewrite search_news_eq. cbn [snd calls log_call].
    now rewrite <- !app_assoc.
Qed.

(** X25.  [format_articles_for_display] answers No articles found. for
    an empty list, and otherwise lists every article, however many, each
    under its number counted from 1, with title, source, date,
    description and URL. *)
Theorem display_lists_every_article (articles : list Article) :
  NewsFetcher.format_articles_for_display [] = "No articles found."
  /\ forall i a,
       nth_error articles i = Some a ->
       occurs_in
         (PyStr.nl ++ "**" ++ PyStr.of_nat (i + 1) ++ ". "
          ++ text_str (art_title a) ++ "**" ++ PyStr.nl
          ++ "Source: " ++ text_str (art_source a) ++ PyStr.nl
          ++ "Published: " ++ text_str (art_published_at a) ++ PyStr.nl
          ++ text_str (art_description a) ++ PyStr.nl
          ++ "Read more: " ++ text_str (art_url a) ++ PyStr.nl)
         (NewsFetcher.format_articles_for_display articles).
Proof.
  split; [reflexivity|]. intros i a Hn.
  unfold NewsFetcher.format_articles_for_display.
  destruct articles as [|x r] eqn:E; [destruct i; discriminate|].
  rewrite <- E in *. apply occurs_in_join, in_map_iff.
  exists (S i, a). split.
  - cbn [NewsFetcher.display_article]. now rewrite Nat.add_1_r.
  - apply (nth_error_In _ i). now rewrite (enumerate_nth_error _ 1 i a).
Qed.

(* ===================================================================== *)
(** ** The Classify stage on a parsed dict *)
(* ===================================================================== *)

(** What the Classify stage does once the model's answer has parsed to a
    dict. *)
Lemma classify_query_node_on_dict
    (W : World) (s s1 : Store) (text : string) d :
  Nodes.get_chatbot_agent W s = (Ok tt, s1) ->
  llm_invoke W (calls s1)
    (NewsGenieAgent.classification_prompt (user_input (state s))) = Ok text ->
  json_loads W (NewsGenieAgent.strip_code_fence text) = Ok (PDict d) ->
  let confidence :=
    match Py.lookup "confidence" d with
    | Some c => c
    | None => PFloat 0
    end in
  let stored :=
    set_metadata_item "classification_confidence" confidence
      (set_query_classification (PDict d) (state s)) in
  let printed :=
    match Py.getitem (PDict d) "is_news_request" with
    | Raise e => Raise e
    | Ok _ =>
        match Py.getitem (PDict d) "confidence" with
        | Raise e => Raise e
        | Ok c => Py.format_2f c
        end
    end in
  Nodes.classify_query_node W s
  = (Ok tt,
     with_state
       (match printed with
        | Ok _ => stored
        | Raise e => set_error ("Classification error: " ++ exn_str e) stored
        end)
       (log_call
          (CallLlmInvoke
             (NewsGenieAgent.classification_prompt (user_input (state s))))
          s1)).
Proof.
  intros Hag Hllm Hjson. cbv zeta.
  pose proof (get_chatbot_agent_state W s) as Hst.
  rewrite Hag in Hst. simpl in Hst.
  unfold Nodes.classify_query_node, Nodes.classify_query_body.
  unfold try_except. unfold bind at 1. rewrite Hag.
  unfold bind at 1, get_state. rewrite Hst.
  unfold bind at 1. rewrite classify_query_eq, Hllm, Hjson.
  unfold bind, modify_state, lift.
  cbn [state log_call with_state Py.get].
  rewrite Hst.
  destruct (Py.getitem (PDict d) "is_news_request"); [|reflexivity].
  destruct (Py.getitem (PDict d) "confidence") as [c|]; [|reflexivity].
  destruct (Py.format_2f c) as [[]|]; reflexivity.
Qed.

(** X26.  The Classify stage on a dict from the model.  The dict is
    stored as the classification and its confidence (0.0 when absent) is
    put into the metadata.  With the flag present and a float confidence
    the stage leaves the error key alone.  A dict without the flag still
    counts for the router, which reads the flag as False and goes to the
    general path, but the stage has set the error key, because printing
    the flag raised KeyError. *)
Theorem classify_stage_on_a_dict
    (W : World) (s s1 : Store) (text : string) d :
  Nodes.get_chatbot_agent W s = (Ok tt, s1) ->
  llm_invoke W (calls s1)
    (NewsGenieAgent.classification_prompt (user_input (state s))) = Ok text ->
  json_loads W (NewsGenieAgent.strip_code_fence text) = Ok (PDict d) ->
  let out := state (snd (Nodes.classify_query_node W s)) in
  query_classification out = PDict d
  /\ Py.lookup "classification_confidence" (metadata out)
     = Some (match Py.lookup "confidence" d with
             | Some c => c
             | None => PFloat 0
             end)
  /\ (forall b c,
        Py.lookup "is_news_request" d = Some b ->
        Py.lookup "confidence" d = Some (PFloat c) ->
        error out = error (state s))
  /\ (Py.lookup "is_news_request" d = None ->
      error out = Some "Classification error: 'is_news_request'"
      /\ Graph.should_fetch_news out = Ok "handle_general").
Proof.
  intros Hag Hllm Hjson out. subst out.
  rewrite (classify_query_node_on_dict W s s1 text d Hag Hllm Hjson).
  cbv zeta. cbn [snd state with_state].
  assert (Hmeta : forall k v m,
             Py.lookup k (assoc_set k v m) = Some v).
  { intros k v m. induction m as [|[k' v'] r IH]; cbn.
    - now rewrite String.eqb_refl.
    - destruct (String.eqb k k') eqn:E; cbn; rewrite E; [reflexivity|].
      exact IH. }
  split; [|split; [|split]].
  - destruct (match Py.getitem (PDict d) "is_news_request" with
              | Ok _ => _ | Raise e => _ end); reflexivity.
  - destruct (match Py.getitem (PDict d) "is_news_request" with
              | Ok _ => _ | Raise e => _ end); cbn; apply Hmeta.
  - intros b c Hb Hc. cbn [Py.getitem]. rewrite Hb, Hc. reflexivity.
  - intros Hb. cbn [Py.getitem]. rewrite Hb. split; [reflexivity|].
    unfold Graph.should_fetch_news. cbn. rewrite Hb. reflexivity.
Qed.

Lemma classify_stage_on_a_dict_witness :
  let st := mk_state "tech news" [] PNone None None EmptyString None [] in
  let out :=
    state (snd (Nodes.classify_query_node Sample.healthy
                  (with_state st Sample.fresh))) in
  query_classification out = Sample.news_classification
  /\ error out = None.
Proof.
  intros st.
  destruct (classify_stage_on_a_dict Sample.healthy
              (with_state st Sample.fresh) _ "{...}" _
              eq_refl eq_refl eq_refl) as [H1 [_ [H2 _]]].
  split; [exact H1|].
  exact (H2 (PBool true) 0.9%float eq_refl eq_refl).
Defined.

(* ===================================================================== *)
(** ** Console output *)
(* ===================================================================== *)

Lemma same_refl {A} (m : M A) : same m m.
Proof. intros s. reflexivity. Qed.

Lemma same_bind {A B} (m m' : M A) (k k' : A -> M B) :
  same m m' -> (forall a, same (k a) (k' a)) -> same (bind m k) (bind m' k').
Proof.
  intros Hm Hk s. unfold bind. rewrite (Hm s).
  destruct (m' s) as [[a|e] s1]; [apply Hk | reflexivity].
Qed.

Lemma same_try_except {A} (body body' : M A) (handler handler' : exn -> M A) :
  same body body' -> (forall e, same (handler e) (handler' e)) ->
  same (try_except body handler) (try_except body' handler').
Proof.
  intros Hb Hh s. unfold try_except. rewrite (Hb s).
  destruct (body' s) as [[a|e] s1]; [reflexivity | apply Hh].
Qed.

(** A sequence whose steps after the first only hand the value on. *)
Lemma same_bind_ret {A} (m : M A) (k : A -> M A) :
  (forall a, same (k a) (ret a)) -> same (bind m k) m.
Proof.
  intros Hk s. unfold bind.
  destruct (m s) as [[a|e] s1]; [apply Hk | reflexivity].
Qed.

Section Quiet.
Variable out : Stdout.
Hypothesis Hq : quiet out.

Lemma print_quiet (text : string) (s : Store) : print out text s = (Ok tt, s).
Proof. unfold print. now rewrite Hq. Qed.

Lemma same_print_skip {A} (text : string) (m m' : M A) :
  same m m' -> same (bind (print out text) (fun _ => m)) m'.
Proof. intros H s. unfold bind. rewrite print_quiet. apply H. Qed.

Lemma same_print_end (text : string) (m m' : M unit) :
  same m m' -> same (bind m (fun _ => print out text)) m'.
Proof.
  intros H s. unfold bind. rewrite (H s).
  destruct (m' s) as [[[]|e] s1]; [apply print_quiet | reflexivity].
Qed.

End Quiet.

Ltac same_step Hq :=
  match goal with
  | |- same (bind (print _ _) _) _ => apply (same_print_skip _ Hq)
  | |- same (bind _ (fun _ => print _ _)) _ => apply (same_print_end _ Hq)
  | |- same (bind _ (fun _ => if ?b then _ else _)) _ => destruct b
  | |- same (if ?b then _ else _) _ => destruct b
  | |- same (bind _ _) (bind _ _) => apply same_bind; [|intro]
  | |- same (try_except _ _) (try_except _ _) =>
      apply same_try_except; [|intro]
  | |- _ => apply same_refl
  end.

(** A write that raised is where the exception comes from. *)
Lemma print_raises (out : Stdout) (text : string) (s s' : Store) (e : exn) :
  print out text s = (Raise e, s') -> from_console out (calls s') e.
Proof.
  unfold print. destruct (stdout_write out (calls s) text) as [e'|] eqn:E;
    [|discriminate].
  intros H. injection H as <- <-. now exists text.
Qed.

(** A first line, then a [try] whose handler can only fail at the
    console: nothing else makes the whole raise. *)
Lemma printed_try_raises (out : Stdout) (line : string) (body : M unit)
    (handler : exn -> M unit) (s s' : Store) (e : exn) :
  (forall e0 s0 e1 s1,
      handler e0 s0 = (Raise e1, s1) -> from_console out (calls s1) e1) ->
  bind (print out line) (fun _ => try_except body handler) s = (Raise e, s') ->
  from_console out (calls s') e.
Proof.
  intros Hh. unfold bind.
  destruct (print out line s) as [[[]|e0] s0] eqn:Ep.
  - unfold try_except. destruct (body s0) as [[[]|e1] s1]; [discriminate|].
    apply Hh.
  - intros H. injection H as <- <-. exact (print_raises _ _ _ _ _ Ep).
Qed.

(** The handlers of the nodes: writes to the state dict, then one line. *)
Lemma handler_raises (out : Stdout) (f : GraphState -> GraphState)
    (text : string) (s s' : Store) (e : exn) :
  bind (modify_state f) (fun _ => print out text) s = (Raise e, s') ->
  from_console out (calls s') e.
Proof. unfold bind, modify_state. apply print_raises. Qed.

Lemma handler2_raises (out : Stdout) (f g : GraphState -> GraphState)
    (text : string) (s s' : Store) (e : exn) :
  bind (modify_state f)
    (fun _ => bind (modify_state g) (fun _ => print out text)) s
  = (Raise e, s') ->
  from_console out (calls s') e.
Proof. unfold bind, modify_state. apply print_raises. Qed.

(** A refused first line makes the function raise before its [try]. *)
Lemma first_line_refused {A} (out : Stdout) (line : string) (m : M A)
    (s : Store) (e : exn) :
  stdout_write out (calls s) line = Some e ->
  bind (print out line) (fun _ => m) s = (Raise e, s).
Proof. intros H. unfold bind, print. now rewrite H. Qed.

Section ConsoleNodes.
Variable W : World.
Variable out : Stdout.

Lemma classify_query_same (query : string) :
  quiet out ->
  same (Console.classify_query W out query)
    (NewsGenieAgent.classify_query W query).
Proof.
  intros Hq. unfold Console.classify_query, NewsGenieAgent.classify_query.
  cbv zeta. repeat same_step Hq.
Qed.

Lemma classify_query_node_same :
  quiet out ->
  same (Console.classify_query_node W out) (Nodes.classify_query_node W).
Proof.
  intros Hq.
  unfold Console.classify_query_node, Nodes.classify_query_node,
    Nodes.classify_query_body.
  cbv zeta.
  repeat first [ apply (classify_query_same _ Hq) | same_step Hq ].
Qed.

Lemma fetch_news_node_same :
  quiet out ->
  same (Console.fetch_news_node W out) (Nodes.fetch_news_node W).
Proof.
  intros Hq.
  unfold Console.fetch_news_node, Nodes.fetch_news_node,
    Nodes.fetch_news_body.
  cbv zeta. repeat same_step Hq.
Qed.

Lemma web_search_node_same :
  quiet out ->
  same (Console.web_search_node W out) (Nodes.web_search_node W).
Proof.
  intros Hq.
  unfold Console.web_search_node, Nodes.web_search_node,
    Nodes.web_search_body.
  cbv zeta. repeat same_step Hq.
Qed.

Lemma generate_response_node_same :
  quiet out ->
  same (Console.generate_response_node W out)
    (Nodes.generate_response_node W).
Proof.
  intros Hq.
  unfold Console.generate_response_node, Nodes.generate_response_node,
    Nodes.generate_response_body.
  cbv zeta. repeat same_step Hq.
Qed.

Lemma handle_general_query_node_same :
  quiet out ->
  same (Console.handle_general_query_node W out)
    (Nodes.handle_general_query_node W).
Proof.
  intros Hq.
  unfold Console.handle_general_query_node, Nodes.handle_general_query_node,
    Nodes.handle_general_query_body.
  cbv zeta. repeat same_step Hq.
Qed.

Lemma console_node_same (n : Graph.NodeName) :
  quiet out ->
  same (Graph.nodes (Console.create_workflow W out) n)
    (Graph.nodes (Graph.create_workflow W) n).
Proof.
  intros Hq. destruct n; cbn [Graph.nodes Console.create_workflow
                               Graph.create_workflow].
  - now apply classify_query_node_same.
  - now apply fetch_news_node_same.
  - now apply web_search_node_same.
  - now apply generate_response_node_same.
  - now apply handle_general_query_node_same.
Qed.

Lemma console_node_raises (n : Graph.NodeName) (s s' : Store) (e : exn) :
  Graph.nodes (Console.create_workflow W out) n s = (Raise e, s') ->
  from_console out (calls s') e.
Proof.
  destruct n; cbn [Graph.nodes Console.create_workflow];
    apply printed_try_raises; intros e0 s0 e1 s1;
    first [ apply handler_raises | apply handler2_raises ].
Qed.

End ConsoleNodes.

(** X10.  What makes a node raise.  Each of the five nodes prints a line
    before its [try] and another in its handler, and nothing else of a
    node is outside the [try] or can fail in the handler.  So, for each
    node: with a console that takes every line it does exactly what the
    node without console output does, which always returns; when the
    console refuses its first line it raises that exception at once,
    before anything is done; and whenever it raises, the exception is one a
    write to the console raised. *)
Theorem nodes_raise_only_through_console (W : World) (out : Stdout) :
  raises_only_through_console out "🔍 Classifying query..."
    (Nodes.classify_query_node W) (Console.classify_query_node W out)
  /\ raises_only_through_console out "📰 Fetching news..."
       (Nodes.fetch_news_node W) (Console.fetch_news_node W out)
  /\ raises_only_through_console out "🔎 Performing web search..."
       (Nodes.web_search_node W) (Console.web_search_node W out)
  /\ raises_only_through_console out "💬 Generating response..."
       (Nodes.generate_response_node W)
       (Console.generate_response_node W out)
  /\ raises_only_through_console out "💭 Handling general query..."
       (Nodes.handle_general_query_node W)
       (Console.handle_general_query_node W out)
  /\ (quiet out ->
      forall n s, exists s',
        Graph.nodes (Console.create_workflow W out) n s = (Ok tt, s')).
Proof.
  split; [|split; [|split; [|split; [|split]]]].
  - split; [apply classify_query_node_same|]. split.
    + intros s e. apply first_line_refused.
    + intros s e s'. apply (console_node_raises W out Graph.classify_query).
  - split; [apply fetch_news_node_same|]. split.
    + intros s e. apply first_line_refused.
    + intros s e s'. apply (console_node_raises W out Graph.fetch_news).
  - split; [apply web_search_node_same|]. split.
    + intros s e. apply first_line_refused.
    + intros s e s'. apply (console_node_raises W out Graph.web_search).
  - split; [apply generate_response_node_same|]. split.
    + intros s e. apply first_line_refused.
    + intros s e s'.
      apply (console_node_raises W out Graph.generate_response).
  - split; [apply handle_general_query_node_same|]. split.
    + intros s e. apply first_line_refused.
    + intros s e s'. apply (console_node_raises W out Graph.handle_general).
  - intros Hq n s. rewrite (console_node_same W out n Hq s).
    apply node_returns.
Qed.

Lemma nodes_raise_only_through_console_witness :
  Console.classify_query_node Sample.healthy Sample.ascii_console Sample.fresh
  = (Raise (mk_exn "UnicodeEncodeError"
              "'ascii' codec can't encode character: ordinal not in range(128)"),
     Sample.fresh)
  /\ Console.fetch_news_node Sample.healthy Sample.utf8_console Sample.fresh
     = Nodes.fetch_news_node Sample.healthy Sample.fresh.
Proof.
  pose proof (nodes_raise_only_through_console Sample.healthy
                Sample.ascii_console) as [[_ [H1 _]] _].
  pose proof (nodes_raise_only_through_console Sample.healthy
                Sample.utf8_console) as [_ [[H2 _] _]].
  split.
  - apply H1. reflexivity.
  - apply H2. intros log text. reflexivity.
Defined.






